(** * CLIProxyAPI: signature cache, thinking cache, rate-limit store and
      the OpenAI -> Claude request translator.

    A shallow embedding of
      - internal/cache/signature_cache.go
      - internal/usage/ratelimit.go (the revision with unified headers)
      - internal/runtime/executor/ratelimit_capture.go
      - internal/api/handlers/management/usage_limits.go
      - internal/translator/claude/openai/chat-completions/claude_openai_request.go
    Go maps are stdpp [gmap]s, Go strings are byte strings ([string]),
    [time.Time] is a number of nanoseconds, and every function that reads
    the clock takes the clock reading as its first argument. *)

From Stdlib Require Import ZArith String Ascii List Lia Floats.
From stdpp Require Import base option gmap list strings sorting.

Local Open Scope string_scope.
Local Open Scope Z_scope.

(** ** Go's [time] package, as far as the code uses it *)

Module GoTime.

(** A [time.Time] is the number of nanoseconds since the zero instant
    (January 1, year 1, 00:00 UTC); a [time.Duration] is an int64 count
    of nanoseconds. *)
Definition Time := Z.
Definition Duration := Z.

Definition minDuration : Duration := - 2 ^ 63.
Definition maxDuration : Duration := 2 ^ 63 - 1.

Definition Nanosecond : Duration := 1.
Definition Second : Duration := 1000000000.
Definition Minute : Duration := 60 * Second.
Definition Hour : Duration := 60 * Minute.

(** [t.Sub(u)]: the difference, saturated to the range of int64. *)
Definition Sub (t u : Time) : Duration :=
  if t - u <? minDuration then minDuration
  else if maxDuration <? t - u then maxDuration
  else t - u.

Definition Add (t : Time) (d : Duration) : Time := t + d.
Definition After (t u : Time) : bool := u <? t.
Definition Before (t u : Time) : bool := t <? u.
Definition IsZero (t : Time) : bool := t =? 0.

(** [time.Unix(0, 0)] counted from the zero instant. *)
Definition unixEpoch : Time := 62135596800 * Second.
Definition Unix (sec nsec : Z) : Time := unixEpoch + sec * Second + nsec.

End GoTime.

(** ** Go's [strings] package, as far as the code uses it *)

Module GoStrings.

(** [strings.Contains(s, substr)]. *)
Fixpoint Contains (s substr : string) : bool :=
  String.prefix substr s
  || match s with
     | EmptyString => false
     | String _ s' => Contains s' substr
     end.

(** [len(s)]: the number of bytes. *)
Definition len (s : string) : nat := String.length s.

(** [s[n:]] *)
Fixpoint dropBytes (n : nat) (s : string) : string :=
  match n, s with
  | S k, String _ s' => dropBytes k s'
  | _, _ => s
  end.

Definition ofBytes (l : list nat) : string :=
  string_of_list_ascii (ascii_of_nat <$> l).

(** The UTF-8 encodings of the code points [unicode.IsSpace] accepts:
    U+0009..U+000D, U+0020, U+0085, U+00A0, U+1680, U+2000..U+200A,
    U+2028, U+2029, U+202F, U+205F, U+3000. *)
Definition spaceRunes : list string :=
  ofBytes <$>
    [ [9]; [10]; [11]; [12]; [13]; [32];
      [194; 133]; [194; 160]; [225; 154; 128];
      [226; 128; 128]; [226; 128; 129]; [226; 128; 130]; [226; 128; 131];
      [226; 128; 132]; [226; 128; 133]; [226; 128; 134]; [226; 128; 135];
      [226; 128; 136]; [226; 128; 137]; [226; 128; 138];
      [226; 128; 168]; [226; 128; 169]; [226; 128; 175];
      [226; 129; 159]; [227; 128; 128] ]%nat.

(** Number of bytes of the first of [ps] that [s] starts with, 0 when
    there is none. *)
Fixpoint prefixLen (ps : list string) (s : string) : nat :=
  match ps with
  | [] => 0%nat
  | p :: ps' => if String.prefix p s then String.length p else prefixLen ps' s
  end.

(** Drop [skip] bytes, then white-space runes as long as there are any. *)
Fixpoint trimRunes (ps : list string) (skip : nat) (s : string) : string :=
  match skip, s with
  | S k, String _ s' => trimRunes ps k s'
  | S _, EmptyString => EmptyString
  | O, EmptyString => EmptyString
  | O, String _ s' =>
      match prefixLen ps s with
      | O => s
      | S k => trimRunes ps k s'
      end
  end.

Definition revString (s : string) : string :=
  string_of_list_ascii (rev (list_ascii_of_string s)).

Definition TrimLeftSpace (s : string) : string := trimRunes spaceRunes 0 s.

(** A rune decoded from the end of a string is one of the encodings
    above read backwards. *)
Definition TrimRightSpace (s : string) : string :=
  revString (trimRunes (revString <$> spaceRunes) 0 (revString s)).

(** [strings.TrimSpace] *)
Definition TrimSpace (s : string) : string := TrimRightSpace (TrimLeftSpace s).

Definition isDigit (c : ascii) : bool :=
  (48 <=? nat_of_ascii c)%nat && (nat_of_ascii c <=? 57)%nat.
Definition isLower (c : ascii) : bool :=
  (97 <=? nat_of_ascii c)%nat && (nat_of_ascii c <=? 122)%nat.
Definition isUpper (c : ascii) : bool :=
  (65 <=? nat_of_ascii c)%nat && (nat_of_ascii c <=? 90)%nat.

(** [strconv.ParseUint(s, 10, 64)] before the range check: the value of
    a non-empty string of decimal digits. *)
Fixpoint parseDigits (acc : Z) (s : string) : option Z :=
  match s with
  | EmptyString => Some acc
  | String c s' =>
      if isDigit c
      then parseDigits (10 * acc + Z.of_nat (nat_of_ascii c - 48)) s'
      else None
  end.

Definition parseUnsigned (s : string) : option Z :=
  match s with
  | EmptyString => None
  | _ => parseDigits 0 s
  end.

(** [strconv.ParseInt(s, 10, 64)]; [None] is a syntax or range error. *)
Definition ParseInt (s : string) : option Z :=
  match s with
  | EmptyString => None
  | String c s' =>
      let neg := Ascii.eqb c "-" in
      let digits := if neg || Ascii.eqb c "+" then s' else s in
      match parseUnsigned digits with
      | None => None
      | Some un =>
          if neg then (if 2 ^ 63 <? un then None else Some (- un))
          else (if 2 ^ 63 <=? un then None else Some un)
      end
  end.

End GoStrings.

(** ** Library functions the repository calls but does not define *)

(** SHA-256, number and date parsing and Unicode case mapping come from
    Go's standard library.  The code under study only passes values
    through them, so they are an interface here. *)
Class GoLibrary := {
  (** [hex.EncodeToString(sha256.Sum256([]byte(s))[:])] *)
  sha256Hex : string -> string;
  (** [strings.ToLower] *)
  ToLower : string -> string;
  (** [time.Parse(time.RFC3339, s)]; [None] is a parse error *)
  ParseRFC3339 : string -> option GoTime.Time;
  (** [strconv.ParseFloat(s, 64)]; [None] is a parse error *)
  ParseFloat : string -> option float;
  (** the conversions [int64(f)] and [float64(n)] *)
  float64ToInt64 : float -> Z;
  int64ToFloat64 : Z -> float;
}.

(** ** internal/cache/signature_cache.go *)

Module Cache.
Import GoTime GoStrings.

(** *** Signature cache *)

Record SignatureEntry := mkSignatureEntry {
  Signature : string;
  Timestamp : Time
}.

Definition SignatureCacheTTL : Duration := 2 * Hour.
Definition MaxEntriesPerSession : nat := 100.
Definition SignatureTextHashLen : nat := 16.
Definition MinValidSignatureLen : nat := 50.
Definition CacheCleanupInterval : Duration := 10 * Minute.

Definition skipSentinel : string := "skip_thought_signature_validator".

(** [groupCache.entries] *)
Abbreviation groupCache := (gmap string SignatureEntry).
(** [signatureCache]: model group -> text hash -> entry *)
Abbreviation signatureCacheT := (gmap string (gmap string SignatureEntry)).

Definition GetModelGroup (modelName : string) : string :=
  if Contains modelName "gpt" then "gpt"
  else if Contains modelName "claude" then "claude"
  else if Contains modelName "gemini" then "gemini"
  else modelName.

Definition HasValidSignature (modelName signature : string) : bool :=
  (negb (signature =? "")%string && (MinValidSignatureLen <=? len signature)%nat)
  || ((signature =? skipSentinel)%string
      && (GetModelGroup modelName =? "gemini")%string).

Section WithLibrary.
Context {lib : GoLibrary}.

(** [hashText]: the first 16 hex characters of the SHA-256 digest. *)
Definition hashText (text : string) : string :=
  substring 0 SignatureTextHashLen (sha256Hex text).

(** [getOrCreateGroupCache]: the bucket of a group, installing an
    empty one when the group has none. *)
Definition getOrCreateGroupCache (groupKey : string) (c : signatureCacheT)
  : groupCache * signatureCacheT :=
  match c !! groupKey with
  | Some sc => (sc, c)
  | None => (∅, <[groupKey := ∅]> c)
  end.

(** [purgeExpiredCaches]: what the background sweeper does on a tick. *)
Definition purgeBucket (now : Time) (sc : groupCache) : groupCache :=
  filter (fun kv => negb (SignatureCacheTTL <? Sub now (Timestamp kv.2)) = true) sc.

Definition purgeExpiredCaches (now : Time) (c : signatureCacheT) : signatureCacheT :=
  filter (fun kv => kv.2 ≠ ∅) (purgeBucket now <$> c).

Definition CacheSignature (now : Time) (modelName text signature : string)
    (c : signatureCacheT) : signatureCacheT :=
  if (text =? "")%string || (signature =? "")%string then c
  else if (len signature <? MinValidSignatureLen)%nat then c
  else
    let groupKey := GetModelGroup modelName in
    let textHash := hashText text in
    let '(sc, c1) := getOrCreateGroupCache groupKey c in
    <[groupKey := <[textHash := mkSignatureEntry signature now]> sc]> c1.

(** What every miss path of [GetCachedSignature] returns. *)
Definition missValue (groupKey : string) : string :=
  if (groupKey =? "gemini")%string then skipSentinel else "".

Definition GetCachedSignature (now : Time) (modelName text : string)
    (c : signatureCacheT) : string * signatureCacheT :=
  let groupKey := GetModelGroup modelName in
  if (text =? "")%string then (missValue groupKey, c)
  else
    match c !! groupKey with
    | None => (missValue groupKey, c)
    | Some sc =>
        let textHash := hashText text in
        match sc !! textHash with
        | None => (missValue groupKey, c)
        | Some entry =>
            if SignatureCacheTTL <? Sub now (Timestamp entry)
            then (missValue groupKey, <[groupKey := delete textHash sc]> c)
            else
              let entry' := mkSignatureEntry (Signature entry) now in
              (Signature entry', <[groupKey := <[textHash := entry']> sc]> c)
        end
    end.

Definition ClearSignatureCache (modelName : string) (c : signatureCacheT)
  : signatureCacheT :=
  if (modelName =? "")%string then ∅
  else delete (GetModelGroup modelName) c.

(** The entry a [get] would hit: present under the model's group and
    the text's hash, and not older than the TTL.  [None] is a miss. *)
Definition freshEntry (now : Time) (modelName text : string)
    (c : signatureCacheT) : option SignatureEntry :=
  if (text =? "")%string then None
  else
    match c !! GetModelGroup modelName with
    | None => None
    | Some sc =>
        match sc !! hashText text with
        | None => None
        | Some entry =>
            if SignatureCacheTTL <? Sub now (Timestamp entry) then None
            else Some entry
        end
    end.

(** The stored entry for a model and a text, whatever its age. *)
Definition storedEntry (modelName text : string) (c : signatureCacheT)
  : option SignatureEntry :=
  c !! GetModelGroup modelName ≫= fun sc => sc !! hashText text.

End WithLibrary.

End Cache.

(** *** Thinking cache (same file, second half) *)

Module ThinkingCache.
Import GoTime GoStrings.

Record ThinkingEntry := mkThinkingEntry {
  ThinkingText : string;
  Signature : string;
  Timestamp : Time
}.

Definition ThinkingCacheTTL : Duration := 2 * Hour.
Definition MaxThinkingEntriesPerSession : nat := 100.

(** [thinkingSessionCache.entries] *)
Abbreviation thinkingSessionCache := (gmap string ThinkingEntry).
(** [thinkingCache]: sessionId -> thinkingId -> entry *)
Abbreviation thinkingCacheT := (gmap string (gmap string ThinkingEntry)).

(** An element of the local slice [oldest]. *)
Abbreviation keyTs := (string * Time)%type.

(** The [less] function handed to [sort.Slice]. *)
Definition lessTs (a b : keyTs) : bool := Before a.2 b.2.

(** Go fixes neither the order in which [range] visits a map nor the
    order in which [sort.Slice] leaves elements that compare equal, so
    both are parameters of the model. *)
Class GoOrder := {
  (** the order in which [range] visits the entries of a map *)
  rangeOrder : thinkingSessionCache -> list (string * ThinkingEntry);
  (** [sort.Slice] *)
  sortSlice : (keyTs -> keyTs -> bool) -> list keyTs -> list keyTs;
}.

(** What Go promises about them: [range] visits every entry once, and
    [sort.Slice] permutes its argument so that no element is [less]
    than one before it. *)
Class GoOrderSpec (O : GoOrder) : Prop := {
  rangeOrder_perm : forall m, rangeOrder m ≡ₚ map_to_list m;
  sortSlice_perm : forall less l, sortSlice less l ≡ₚ l;
  sortSlice_sorted : forall l,
    StronglySorted (fun a b => lessTs b a = false) (sortSlice lessTs l);
}.

Section WithLibrary.
Context {lib : GoLibrary} {ord : GoOrder}.


Definition getOrCreateThinkingSession (sessionID : string) (c : thinkingCacheT)
  : thinkingSessionCache * thinkingCacheT :=
  match c !! sessionID with
  | Some sc => (sc, c)
  | None => (∅, <[sessionID := ∅]> c)
  end.

Definition expired (now : Time) (entry : ThinkingEntry) : bool :=
  ThinkingCacheTTL <? Sub now (Timestamp entry).

(** First loop of the capacity branch: delete what has expired. *)
Definition evictExpired (now : Time) (entries : thinkingSessionCache)
  : thinkingSessionCache :=
  filter (fun kv => expired now kv.2 = false) entries.

(** Second loop: collect (key, timestamp), sort by timestamp, delete
    the first quarter (at least one).  The loop is only reached with 100
    entries or more, so [oldest[i]] is always in range. *)
Definition evictOldest (entries : thinkingSessionCache) : thinkingSessionCache :=
  let oldest :=
    sortSlice lessTs ((fun kv => (kv.1, Timestamp kv.2)) <$> rangeOrder entries) in
  let toRemove := (length oldest / 4)%nat in
  let toRemove := if (toRemove <? 1)%nat then 1%nat else toRemove in
  foldl (fun m (o : keyTs) => delete o.1 m) entries (take toRemove oldest).

(** The capacity branch of [CacheThinking]. *)
Definition makeRoom (now : Time) (sc : thinkingSessionCache) : thinkingSessionCache :=
  if (MaxThinkingEntriesPerSession <=? size sc)%nat then
    let sc' := evictExpired now sc in
    if (MaxThinkingEntriesPerSession <=? size sc')%nat
    then evictOldest sc' else sc'
  else sc.

(** [CacheThinking] reads the clock twice: [now] in the capacity
    branch and [stamp] for the timestamp of the stored entry. *)
Definition CacheThinking (now stamp : Time)
    (sessionID thinkingID thinkingText signature : string)
    (c : thinkingCacheT) : thinkingCacheT :=
  if (sessionID =? "")%string || (thinkingID =? "")%string
     || (thinkingText =? "")%string
  then c
  else
    let '(sc, c1) := getOrCreateThinkingSession sessionID c in
    <[sessionID :=
        <[thinkingID := mkThinkingEntry thinkingText signature stamp]>
          (makeRoom now sc)]> c1.

Definition GetCachedThinking (now : Time) (sessionID thinkingID : string)
    (c : thinkingCacheT) : option ThinkingEntry * thinkingCacheT :=
  if (sessionID =? "")%string || (thinkingID =? "")%string then (None, c)
  else
    match c !! sessionID with
    | None => (None, c)
    | Some sc =>
        match sc !! thinkingID with
        | None => (None, c)
        | Some entry =>
            if expired now entry
            then (None, <[sessionID := delete thinkingID sc]> c)
            else (Some entry, c)
        end
    end.

Definition ClearThinkingCache (sessionID : string) (c : thinkingCacheT)
  : thinkingCacheT :=
  if negb (sessionID =? "")%string then delete sessionID c else ∅.

(** One call of [CacheThinking] with its two clock readings. *)
Record put := mkPut {
  putNow : Time;
  putStamp : Time;
  putID : string;
  putText : string;
  putSignature : string
}.

Definition putEntry (p : put) : ThinkingEntry :=
  mkThinkingEntry (putText p) (putSignature p) (putStamp p).

Definition runPut (sessionID : string) (c : thinkingCacheT) (p : put)
  : thinkingCacheT :=
  CacheThinking (putNow p) (putStamp p) sessionID
    (putID p) (putText p) (putSignature p) c.

Definition putKV (p : put) : string * ThinkingEntry := (putID p, putEntry p).

(** A put that passes the guard of [CacheThinking] (for a non-empty
    session id). *)
Definition wellFormed (p : put) : Prop := putID p <> "" /\ putText p <> "".

(** The element of [oldest] built from a map entry. *)
Definition keyTsOf (kv : string * ThinkingEntry) : keyTs := (kv.1, Timestamp kv.2).

(** The entries of a session; none when the session does not exist. *)
Definition sessionEntries (sessionID : string) (c : thinkingCacheT)
  : thinkingSessionCache :=
  default ∅ (c !! sessionID).

(** The thinking ids among [ids] that the session does not hold. *)
Definition missingIDs (sessionID : string) (ids : list string) (c : thinkingCacheT)
  : list string :=
  filter (fun k => sessionEntries sessionID c !! k = None) ids.

(** A sequence of calls on one session. *)
Definition runPuts (sessionID : string) (ps : list put) (c : thinkingCacheT)
  : thinkingCacheT :=
  foldl (runPut sessionID) c ps.

End WithLibrary.

End ThinkingCache.

(** ** net/http: [Header.Get] *)

Module GoHTTP.
Import GoStrings.

(** [http.Header] is [map[string][]string]. *)
Abbreviation Header := (gmap string (list string)).

(** The bytes allowed in a header field name (RFC 7230 token). *)
Definition validHeaderFieldByte (c : ascii) : bool :=
  isDigit c || isLower c || isUpper c
  || existsb (Ascii.eqb c)
       (list_ascii_of_string "!#$%&'*+-.^_`|~").

Definition upperByte (c : ascii) : ascii := ascii_of_nat (nat_of_ascii c - 32).
Definition lowerByte (c : ascii) : ascii := ascii_of_nat (nat_of_ascii c + 32).

(** First letter and every letter after a dash in upper case, the rest
    in lower case. *)
Fixpoint canonicalLoop (upper : bool) (s : string) : string :=
  match s with
  | EmptyString => EmptyString
  | String c s' =>
      let c' :=
        if upper && isLower c then upperByte c
        else if negb upper && isUpper c then lowerByte c
        else c in
      String c' (canonicalLoop (Ascii.eqb c' "-") s')
  end.

(** [textproto.CanonicalMIMEHeaderKey]: a key with a byte outside the
    token alphabet is returned unchanged. *)
Definition CanonicalMIMEHeaderKey (s : string) : string :=
  if forallb validHeaderFieldByte (list_ascii_of_string s)
  then canonicalLoop true s
  else s.

(** [headers.Get(key)]: the first value stored under the canonical form
    of [key], or the empty string. *)
Definition Get (headers : Header) (key : string) : string :=
  match headers !! CanonicalMIMEHeaderKey key with
  | Some (v :: _) => v
  | _ => ""
  end.

End GoHTTP.

(** ** internal/usage/ratelimit.go *)

Module Usage.
Import GoTime GoStrings GoHTTP.

(** The Go struct [RateLimitRecord] is flat; its two blocks of fields,
    headed "Unified fields" and "Standard fields" in the source, are
    two records here. *)
Record UnifiedFields := mkUnified {
  Utilization5h : float;
  Status5h : string;
  Reset5h : Time;
  Utilization7d : float;
  Status7d : string;
  Reset7d : Time;
  UnifiedStatus : string;
  UnifiedReset : Time;
  RepresentativeClaim : string;
  FallbackPercentage : float;
  OverageStatus : string;
  OverageDisabledReason : string;
  OrganizationID : string
}.

Record StandardFields := mkStandard {
  RequestsLimit : Z;
  RequestsRemaining : Z;
  RequestsReset : Time;
  TokensLimit : Z;
  TokensRemaining : Z;
  TokensReset : Time;
  InputTokensLimit : Z;
  InputTokensRemaining : Z;
  InputTokensReset : Time;
  OutputTokensLimit : Z;
  OutputTokensRemaining : Z;
  OutputTokensReset : Time
}.

Record RateLimitRecord := mkRecord {
  Timestamp : Time;
  Source : string;
  Model : string;
  (** the field [Type]: "unified", "standard" or empty *)
  Type_ : string;
  unified : UnifiedFields;
  standard : StandardFields
}.

(** The zero values of the two blocks. *)
Definition zeroUnified : UnifiedFields :=
  mkUnified 0%float "" 0 0%float "" 0 "" 0 "" 0%float "" "" "".
Definition zeroStandard : StandardFields :=
  mkStandard 0 0 0 0 0 0 0 0 0 0 0 0.

Definition IsEmpty (r : RateLimitRecord) : bool :=
  if (Type_ r =? "unified")%string then
    (Status5h (unified r) =? "")%string
    && (Status7d (unified r) =? "")%string
    && (UnifiedStatus (unified r) =? "")%string
  else
    (RequestsLimit (standard r) =? 0) && (TokensLimit (standard r) =? 0)
    && (InputTokensLimit (standard r) =? 0)
    && (OutputTokensLimit (standard r) =? 0).

Definition setTimestamp (t : Time) (r : RateLimitRecord) : RateLimitRecord :=
  mkRecord t (Source r) (Model r) (Type_ r) (unified r) (standard r).
Definition setType (ty : string) (r : RateLimitRecord) : RateLimitRecord :=
  mkRecord (Timestamp r) (Source r) (Model r) ty (unified r) (standard r).
Definition setUnified (u : UnifiedFields) (r : RateLimitRecord) : RateLimitRecord :=
  mkRecord (Timestamp r) (Source r) (Model r) (Type_ r) u (standard r).
Definition setStandard (s : StandardFields) (r : RateLimitRecord) : RateLimitRecord :=
  mkRecord (Timestamp r) (Source r) (Model r) (Type_ r) (unified r) s.

(** *** The store *)

(** [RateLimitStore.records]; a [*RateLimitStore] is an [option]. *)
Abbreviation RateLimitStore := (list RateLimitRecord).

Definition NewRateLimitStore : RateLimitStore := [].

Definition maxRecordAge : Duration := 7 * 24 * Hour.

(** The loop of [cleanupLocked]: [i] is the index [range] is at, [n]
    the number of records kept so far; a kept record is written to
    [records[n]] in place. *)
Fixpoint cleanupLoop (cutoff : Time) (steps i n : nat) (records : RateLimitStore)
  : RateLimitStore * nat :=
  match steps with
  | O => (records, n)
  | S steps' =>
      match records !! i with
      | None => (records, n)
      | Some r =>
          if After (Timestamp r) cutoff
          then cleanupLoop cutoff steps' (S i) (S n) (<[n := r]> records)
          else cleanupLoop cutoff steps' (S i) n records
      end
  end.

Definition cleanupLocked (now : Time) (records : RateLimitStore) : RateLimitStore :=
  let cutoff := Add now (- maxRecordAge) in
  let '(records', n) := cleanupLoop cutoff (length records) 0 0 records in
  take n records'.

(** [Record] reads the clock for a missing timestamp ([stamp]) and, on
    every 100th record, in [cleanupLocked] ([now]).  The second
    component tells whether the asynchronous [Save] was started. *)
Definition Record_ (stamp now : Time) (r : RateLimitRecord)
    (s : option RateLimitStore) : option RateLimitStore * bool :=
  match s with
  | None => (None, false)
  | Some records =>
      if IsEmpty r then (s, false)
      else
        let r := if IsZero (Timestamp r) then setTimestamp stamp r else r in
        let records := (records ++ [r])%list in
        let records :=
          if (length records mod 100 =? 0)%nat
          then cleanupLocked now records else records in
        let count := length records in
        (Some records, (count mod 10 =? 0)%nat)
  end.

Definition Latest (s : option RateLimitStore) : option RateLimitRecord :=
  match s with
  | None => None
  | Some records =>
      if (length records =? 0)%nat then None
      else records !! (length records - 1)%nat
  end.

(** The test of [cleanupLocked]: the record is newer than the cutoff. *)
Definition keep (cutoff : Time) (r : RateLimitRecord) : Prop :=
  After (Timestamp r) cutoff = true.

#[global] Instance keep_dec (cutoff : Time) (r : RateLimitRecord) : Decision (keep cutoff r).
Proof. unfold keep. apply _. Defined.

Definition Day : Duration := 24 * Hour.

(** One call of [Record] with its clock readings. *)
Record append := mkAppend {
  appendStamp : Time;
  appendNow : Time;
  appendRecord : RateLimitRecord
}.

(** A record that [Record] stores as it is: not empty, timestamp set. *)
Definition admitted (a : append) : Prop :=
  IsEmpty (appendRecord a) = false /\ Timestamp (appendRecord a) <> 0.

Definition runAppend (s : option RateLimitStore) (a : append) : option RateLimitStore :=
  (Record_ (appendStamp a) (appendNow a) (appendRecord a) s).1.

Definition runAppends (l : list append) (s : option RateLimitStore)
  : option RateLimitStore :=
  foldl runAppend s l.

(** *** The header parser *)

Section WithLibrary.
Context {lib : GoLibrary}.

Definition parseIntHeader (headers : Header) (name : string) : Z :=
  let v := Get headers name in
  if (v =? "")%string then 0
  else match ParseInt v with
       | None => 0
       | Some n => n
       end.

Definition parseFloatHeader (v : string) : float :=
  let v := TrimSpace v in
  if (v =? "")%string then 0%float
  else match ParseFloat v with
       | None => 0%float
       | Some f => f
       end.

Definition parseRFC3339Header (headers : Header) (name : string) : Time :=
  let v := Get headers name in
  if (v =? "")%string then 0
  else match ParseRFC3339 v with
       | None => 0
       | Some t => t
       end.

Definition parseUnixTimestamp (v : string) : Time :=
  let v := TrimSpace v in
  if (v =? "")%string then 0
  else match ParseFloat v with
       | None =>
           match ParseRFC3339 v with
           | None => 0
           | Some t => t
           end
       | Some f =>
           let sec := float64ToInt64 f in
           let nsec :=
             float64ToInt64
               (PrimFloat.mul (PrimFloat.sub f (int64ToFloat64 sec)) 1e9%float) in
           Unix sec nsec
       end.

(** One [if v := headers.Get(name); v != "" { ...; found = true }]
    step of [parseUnifiedHeaders]. *)
Definition onHeader (headers : Header) (name : string)
    (assign : string -> UnifiedFields -> UnifiedFields)
    (st : UnifiedFields * bool) : UnifiedFields * bool :=
  let v := Get headers name in
  if negb (v =? "")%string then (assign v st.1, true) else st.

Definition setOrganizationID v u :=
  mkUnified (Utilization5h u) (Status5h u) (Reset5h u) (Utilization7d u)
    (Status7d u) (Reset7d u) (UnifiedStatus u) (UnifiedReset u)
    (RepresentativeClaim u) (FallbackPercentage u) (OverageStatus u)
    (OverageDisabledReason u) v.
Definition setUtilization5h v u :=
  mkUnified v (Status5h u) (Reset5h u) (Utilization7d u)
    (Status7d u) (Reset7d u) (UnifiedStatus u) (UnifiedReset u)
    (RepresentativeClaim u) (FallbackPercentage u) (OverageStatus u)
    (OverageDisabledReason u) (OrganizationID u).
Definition setStatus5h v u :=
  mkUnified (Utilization5h u) v (Reset5h u) (Utilization7d u)
    (Status7d u) (Reset7d u) (UnifiedStatus u) (UnifiedReset u)
    (RepresentativeClaim u) (FallbackPercentage u) (OverageStatus u)
    (OverageDisabledReason u) (OrganizationID u).
Definition setReset5h v u :=
  mkUnified (Utilization5h u) (Status5h u) v (Utilization7d u)
    (Status7d u) (Reset7d u) (UnifiedStatus u) (UnifiedReset u)
    (RepresentativeClaim u) (FallbackPercentage u) (OverageStatus u)
    (OverageDisabledReason u) (OrganizationID u).
Definition setUtilization7d v u :=
  mkUnified (Utilization5h u) (Status5h u) (Reset5h u) v
    (Status7d u) (Reset7d u) (UnifiedStatus u) (UnifiedReset u)
    (RepresentativeClaim u) (FallbackPercentage u) (OverageStatus u)
    (OverageDisabledReason u) (OrganizationID u).
Definition setStatus7d v u :=
  mkUnified (Utilization5h u) (Status5h u) (Reset5h u) (Utilization7d u)
    v (Reset7d u) (UnifiedStatus u) (UnifiedReset u)
    (RepresentativeClaim u) (FallbackPercentage u) (OverageStatus u)
    (OverageDisabledReason u) (OrganizationID u).
Definition setReset7d v u :=
  mkUnified (Utilization5h u) (Status5h u) (Reset5h u) (Utilization7d u)
    (Status7d u) v (UnifiedStatus u) (UnifiedReset u)
    (RepresentativeClaim u) (FallbackPercentage u) (OverageStatus u)
    (OverageDisabledReason u) (OrganizationID u).
Definition setUnifiedStatus v u :=
  mkUnified (Utilization5h u) (Status5h u) (Reset5h u) (Utilization7d u)
    (Status7d u) (Reset7d u) v (UnifiedReset u)
    (RepresentativeClaim u) (FallbackPercentage u) (OverageStatus u)
    (OverageDisabledReason u) (OrganizationID u).
Definition setUnifiedReset v u :=
  mkUnified (Utilization5h u) (Status5h u) (Reset5h u) (Utilization7d u)
    (Status7d u) (Reset7d u) (UnifiedStatus u) v
    (RepresentativeClaim u) (FallbackPercentage u) (OverageStatus u)
    (OverageDisabledReason u) (OrganizationID u).
Definition setRepresentativeClaim v u :=
  mkUnified (Utilization5h u) (Status5h u) (Reset5h u) (Utilization7d u)
    (Status7d u) (Reset7d u) (UnifiedStatus u) (UnifiedReset u)
    v (FallbackPercentage u) (OverageStatus u)
    (OverageDisabledReason u) (OrganizationID u).
Definition setFallbackPercentage v u :=
  mkUnified (Utilization5h u) (Status5h u) (Reset5h u) (Utilization7d u)
    (Status7d u) (Reset7d u) (UnifiedStatus u) (UnifiedReset u)
    (RepresentativeClaim u) v (OverageStatus u)
    (OverageDisabledReason u) (OrganizationID u).
Definition setOverageStatus v u :=
  mkUnified (Utilization5h u) (Status5h u) (Reset5h u) (Utilization7d u)
    (Status7d u) (Reset7d u) (UnifiedStatus u) (UnifiedReset u)
    (RepresentativeClaim u) (FallbackPercentage u) v
    (OverageDisabledReason u) (OrganizationID u).
Definition setOverageDisabledReason v u :=
  mkUnified (Utilization5h u) (Status5h u) (Reset5h u) (Utilization7d u)
    (Status7d u) (Reset7d u) (UnifiedStatus u) (UnifiedReset u)
    (RepresentativeClaim u) (FallbackPercentage u) (OverageStatus u)
    v (OrganizationID u).

(** The thirteen header names [parseUnifiedHeaders] reads, each with
    the assignment it makes, in source order. *)
Definition unifiedSteps : list (string * (string -> UnifiedFields -> UnifiedFields)) :=
  [ ("Anthropic-Organization-Id", setOrganizationID);
    ("Anthropic-Ratelimit-Unified-5h-Utilization",
      fun v => setUtilization5h (parseFloatHeader v));
    ("Anthropic-Ratelimit-Unified-5h-Status",
      fun v => setStatus5h (ToLower (TrimSpace v)));
    ("Anthropic-Ratelimit-Unified-5h-Reset",
      fun v => setReset5h (parseUnixTimestamp v));
    ("Anthropic-Ratelimit-Unified-7d-Utilization",
      fun v => setUtilization7d (parseFloatHeader v));
    ("Anthropic-Ratelimit-Unified-7d-Status",
      fun v => setStatus7d (ToLower (TrimSpace v)));
    ("Anthropic-Ratelimit-Unified-7d-Reset",
      fun v => setReset7d (parseUnixTimestamp v));
    ("Anthropic-Ratelimit-Unified-Status",
      fun v => setUnifiedStatus (ToLower (TrimSpace v)));
    ("Anthropic-Ratelimit-Unified-Reset",
      fun v => setUnifiedReset (parseUnixTimestamp v));
    ("Anthropic-Ratelimit-Unified-Representative-Claim",
      fun v => setRepresentativeClaim (TrimSpace v));
    ("Anthropic-Ratelimit-Unified-Fallback-Percentage",
      fun v => setFallbackPercentage (parseFloatHeader v));
    ("Anthropic-Ratelimit-Unified-Overage-Status",
      fun v => setOverageStatus (ToLower (TrimSpace v)));
    ("Anthropic-Ratelimit-Unified-Overage-Disabled-Reason",
      fun v => setOverageDisabledReason (TrimSpace v)) ].

(** The sequence of steps, threading the fields and [found]. *)
Definition unifiedLoop (headers : Header) (st : UnifiedFields * bool)
    (steps : list (string * (string -> UnifiedFields -> UnifiedFields)))
  : UnifiedFields * bool :=
  foldl (fun st step => onHeader headers step.1 step.2 st) st steps.

(** [parseUnifiedHeaders(headers, &r)]: the record after the call and
    the returned [found]. *)
Definition parseUnifiedHeaders (headers : Header) (r : RateLimitRecord)
  : RateLimitRecord * bool :=
  let '(u, found) := unifiedLoop headers (unified r, false) unifiedSteps in
  (setUnified u r, found).

Definition parseStandardHeaders (headers : Header) (r : RateLimitRecord)
  : RateLimitRecord :=
  setStandard
    (mkStandard
       (parseIntHeader headers "anthropic-ratelimit-requests-limit")
       (parseIntHeader headers "anthropic-ratelimit-requests-remaining")
       (parseRFC3339Header headers "anthropic-ratelimit-requests-reset")
       (parseIntHeader headers "anthropic-ratelimit-tokens-limit")
       (parseIntHeader headers "anthropic-ratelimit-tokens-remaining")
       (parseRFC3339Header headers "anthropic-ratelimit-tokens-reset")
       (parseIntHeader headers "anthropic-ratelimit-input-tokens-limit")
       (parseIntHeader headers "anthropic-ratelimit-input-tokens-remaining")
       (parseRFC3339Header headers "anthropic-ratelimit-input-tokens-reset")
       (parseIntHeader headers "anthropic-ratelimit-output-tokens-limit")
       (parseIntHeader headers "anthropic-ratelimit-output-tokens-remaining")
       (parseRFC3339Header headers "anthropic-ratelimit-output-tokens-reset"))
    r.

Definition ParseRateLimitHeaders (now : Time) (headers : Header) : RateLimitRecord :=
  let r := mkRecord now "" "" "" zeroUnified zeroStandard in
  let '(r, found) := parseUnifiedHeaders headers r in
  if found then setType "unified" r
  else
    let r := parseStandardHeaders headers r in
    if negb (IsEmpty r) then setType "standard" r else r.

(** The names of the unified headers, as listed by the parser. *)
Definition unifiedHeaderNames : list string := fst <$> unifiedSteps.

(** A header is present when the map has its (canonical) name as a
    key, whatever is stored under it. *)
Definition headerPresent (headers : Header) (name : string) : bool :=
  bool_decide (is_Some (headers !! CanonicalMIMEHeaderKey name)).

(** Any header of the family [Anthropic-Ratelimit-Unified-*]. *)
Definition isUnifiedFamilyKey (key : string) : bool :=
  String.prefix "Anthropic-Ratelimit-Unified-" key.

End WithLibrary.

End Usage.

(** ** Go's [regexp], for the four patterns of the translator *)

Module Regexp.
Import GoStrings.

(** A pattern, as a matcher anchored at the start of its argument:
    the text of capture group 1 and the length of the whole match. *)
Definition matcher := string -> option (string * nat).

(** The text before the first occurrence of [close], for [([\s\S]*?)close]. *)
Fixpoint untilFirst (close s : string) : option string :=
  if String.prefix close s then Some EmptyString
  else match s with
       | EmptyString => None
       | String c s' =>
           match untilFirst close s' with
           | Some cap => Some (String c cap)
           | None => None
           end
       end.

(** [open([\s\S]*?)close] with literal [open] and [close]. *)
Definition lazyBetween (open close : string) : matcher := fun s =>
  if String.prefix open s then
    match untilFirst close (dropBytes (String.length open) s) with
    | Some cap =>
        Some (cap, (String.length open + String.length cap + String.length close)%nat)
    | None => None
    end
  else None.

(** [[a-f0-9]] *)
Definition isLowerHex (c : ascii) : bool :=
  isDigit c || ((97 <=? nat_of_ascii c)%nat && (nat_of_ascii c <=? 102)%nat).

(** The longest prefix made of [[a-f0-9]]. *)
Fixpoint hexRun (s : string) : string :=
  match s with
  | EmptyString => EmptyString
  | String c s' => if isLowerHex c then String c (hexRun s') else EmptyString
  end.

Definition fence : string := "```".

(** [<think>([\s\S]*?)</think>] *)
Definition thinkTagRegex : matcher := lazyBetween "<think>" "</think>".

Definition thinkIdOpen : string := "```plaintext:thinkId:".

(** [```plaintext:thinkId:([a-f0-9]+)```]: no hexadecimal digit is a
    backquote, so the greedy run of digits is the only candidate. *)
Definition thinkIdRegex : matcher := fun s =>
  if String.prefix thinkIdOpen s then
    let rest := dropBytes (String.length thinkIdOpen) s in
    let hex := hexRun rest in
    if (hex =? "")%string then None
    else if String.prefix fence (dropBytes (String.length hex) rest)
    then Some (hex, (String.length thinkIdOpen + String.length hex + String.length fence)%nat)
    else None
  else None.

(** [```plaintext:Thinking\n([\s\S]*?)```] *)
Definition legacyThinkingRegex : matcher :=
  lazyBetween ("```plaintext:Thinking" ++ ofBytes [10%nat]) fence.

(** [```plaintext:Signature:([\s\S]*?)```] *)
Definition legacySignatureRegex : matcher :=
  lazyBetween "```plaintext:Signature:" fence.

(** [re.FindStringSubmatch(s)]: group 1 of the leftmost match; [None]
    stands for the nil slice. *)
Fixpoint FindStringSubmatch (re : matcher) (s : string) : option string :=
  match re s with
  | Some (cap, _) => Some cap
  | None =>
      match s with
      | EmptyString => None
      | String _ s' => FindStringSubmatch re s'
      end
  end.

(** [re.ReplaceAllString(s, "")]: [skip] counts the bytes of the
    current match that are still to be dropped. *)
Fixpoint removeMatches (re : matcher) (skip : nat) (s : string) : string :=
  match s with
  | EmptyString => EmptyString
  | String c s' =>
      match skip with
      | S k => removeMatches re k s'
      | O =>
          match re s with
          | Some (_, S k) => removeMatches re k s'
          | _ => String c (removeMatches re 0 s')
          end
      end
  end.

Definition ReplaceAllEmpty (re : matcher) (s : string) : string :=
  removeMatches re 0 s.

(** [strings.ReplaceAll(s, old, new)] for a non-empty [old]. *)
Fixpoint replaceLiteral (old new : string) (skip : nat) (s : string) : string :=
  match s with
  | EmptyString => EmptyString
  | String c s' =>
      match skip with
      | S k => replaceLiteral old new k s'
      | O =>
          if String.prefix old s
          then new ++ replaceLiteral old new (String.length old - 1) s'
          else String c (replaceLiteral old new 0 s')
      end
  end.

Definition ReplaceAll (s old new : string) : string := replaceLiteral old new 0 s.

(** Does the pattern match somewhere in [s] with this text as group 1? *)
Fixpoint matchesWith (re : matcher) (cap : string) (s : string) : bool :=
  match re s with
  | Some (cap', _) => (cap' =? cap)%string
  | None => false
  end
  || match s with
     | EmptyString => false
     | String _ s' => matchesWith re cap s'
     end.

End Regexp.

(** ** JSON values, and the calls of gjson and sjson the translator makes *)

Module JSON.

#[local] Unset Elimination Schemes.

Inductive json :=
| JNull
| JBool (b : bool)
| JNumber (raw : string)
| JString (s : string)
| JArray (elems : list json)
| JObject (fields : list (string * json)).

#[local] Set Elimination Schemes.

(** A [gjson.Result]: [None] is the result that does not exist. *)
Abbreviation Result := (option json).

(** The source text of a value ([Result.Raw]). *)
Class JSONText := { Raw : json -> string }.

Fixpoint lookupField (key : string) (fields : list (string * json)) : Result :=
  match fields with
  | [] => None
  | (k, v) :: fields' => if (k =? key)%string then Some v else lookupField key fields'
  end.

(** [r.Get(key)] for a key that is a plain member name. *)
Definition Get (r : Result) (key : string) : Result :=
  match r with
  | Some (JObject fields) => lookupField key fields
  | _ => None
  end.

Definition Exists (r : Result) : bool :=
  match r with Some _ => true | None => false end.

Definition IsArray (r : Result) : bool :=
  match r with Some (JArray _) => true | _ => false end.

(** [r.Array()] *)
Definition Array (r : Result) : list json :=
  match r with
  | Some (JArray l) => l
  | Some JNull | None => []
  | Some v => [v]
  end.

(** [r.String()] *)
Definition String_ {jt : JSONText} (r : Result) : string :=
  match r with
  | None | Some JNull => ""
  | Some (JBool true) => "true"
  | Some (JBool false) => "false"
  | Some (JNumber raw) => raw
  | Some (JString s) => s
  | Some v => Raw v
  end.

Fixpoint setField (key : string) (v : json) (fields : list (string * json))
  : list (string * json) :=
  match fields with
  | [] => [(key, v)]
  | (k, v') :: fields' =>
      if (k =? key)%string then (k, v) :: fields'
      else (k, v') :: setField key v fields'
  end.

Fixpoint deleteField (key : string) (fields : list (string * json))
  : list (string * json) :=
  match fields with
  | [] => []
  | (k, v') :: fields' =>
      if (k =? key)%string then fields'
      else (k, v') :: deleteField key fields'
  end.

(** [sjson.Set] and [sjson.SetRaw] on a member of the top-level object,
    the value given parsed. *)
Definition Set_ (doc : json) (key : string) (v : json) : json :=
  match doc with
  | JObject fields => JObject (setField key v fields)
  | _ => doc
  end.

(** [sjson.Delete] of a member of the top-level object. *)
Definition Delete (doc : json) (key : string) : json :=
  match doc with
  | JObject fields => JObject (deleteField key fields)
  | _ => doc
  end.

End JSON.

(** ** internal/translator/claude/openai/chat-completions/claude_openai_request.go *)

Module Translator.
Import GoTime GoStrings Regexp.
Import ThinkingCache.

(** The maps [extractThinkingFromContent] returns:
    [{"type":"thinking","thinking":..,"signature":..}] and
    [{"type":"text","text":..}]. *)
Inductive part :=
| ThinkingPart (thinking signature : string)
| TextPart (text : string).

(** "Part 2": the remaining text, if there is any. *)
Definition textPart (remainingText : string) : list part :=
  if negb (remainingText =? "")%string then [TextPart remainingText] else [].

(** The text left over in the new-format branch. *)
Definition restoredRemainder (text : string) : string :=
  TrimSpace (ReplaceAllEmpty thinkIdRegex (ReplaceAllEmpty thinkTagRegex text)).

(** The text left over in the legacy branch. *)
Definition legacyRemainder (text : string) : string :=
  TrimSpace (ReplaceAllEmpty legacySignatureRegex
               (ReplaceAllEmpty legacyThinkingRegex text)).

(** The text left over when no thinking is restored. *)
Definition cleanRemainder (text : string) : string :=
  TrimSpace
    (ReplaceAllEmpty legacySignatureRegex
       (ReplaceAllEmpty legacyThinkingRegex
          (ReplaceAllEmpty thinkIdRegex
             (ReplaceAllEmpty thinkTagRegex text)))).

Definition escapedFence : string := "\`\`\`".

(** Everything after the new-format branch has been left. *)
Definition extractLegacy (text : string) : list part :=
  match FindStringSubmatch legacyThinkingRegex text,
        FindStringSubmatch legacySignatureRegex text with
  | Some thinkingText, Some signatureText =>
      ThinkingPart (ReplaceAll thinkingText escapedFence fence) signatureText
        :: textPart (legacyRemainder text)
  | _, _ => textPart (cleanRemainder text)
  end.

(** The source calls [cache.HasValidSignature(entry.Signature)] with
    one argument, while the function in package [cache] takes the
    model name first; [modelName] stands for the argument the call
    leaves out.  [now] is the clock reading of [GetCachedThinking]. *)
Definition extractThinkingFromContent (modelName : string) (now : Time)
    (sessionID text : string) (c : thinkingCacheT)
  : list part * thinkingCacheT :=
  match FindStringSubmatch thinkIdRegex text with
  | Some thinkingID =>
      let '(entry, c') := GetCachedThinking now sessionID thinkingID c in
      match entry with
      | Some e =>
          if Cache.HasValidSignature modelName (Signature e)
          then (ThinkingPart (ThinkingText e) (Signature e)
                  :: textPart (restoredRemainder text), c')
          else (extractLegacy text, c')
      | None => (extractLegacy text, c')
      end
  | None => (extractLegacy text, c)
  end.

(** *** Tool declarations and tool choice (the end of
    [ConvertOpenAIRequestToClaude]) *)

Section Tools.
Import JSON.
Context {jt : JSONText}.

(** The base template the output starts from. *)
Definition baseTemplate (userID : string) : json :=
  JObject [ ("model", JString "");
            ("max_tokens", JNumber "32000");
            ("messages", JArray []);
            ("metadata", JObject [("user_id", JString userID)]) ].

(** The body of [tools.ForEach]: what one entry appends to
    [anthropicTools]. *)
Definition convertTool (tool : json) : list json :=
  if (String_ (Get (Some tool) "type") =? "function")%string then
    let function := Get (Some tool) "function" in
    let anthropicTool :=
      JObject [ ("name", JString (String_ (Get function "name")));
                ("description", JString (String_ (Get function "description"))) ] in
    let anthropicTool :=
      match Get function "parameters" with
      | Some parameters => Set_ anthropicTool "input_schema" parameters
      | None =>
          match Get function "parametersJsonSchema" with
          | Some parameters => Set_ anthropicTool "input_schema" parameters
          | None => anthropicTool
          end
      end in
    [anthropicTool]
  else if negb (Exists (Get (Some tool) "type")) then
    let anthropicTool :=
      JObject [ ("name", JString (String_ (Get (Some tool) "name")));
                ("description", JString (String_ (Get (Some tool) "description"))) ] in
    let anthropicTool :=
      match Get (Some tool) "input_schema" with
      | Some parameters => Set_ anthropicTool "input_schema" parameters
      | None => anthropicTool
      end in
    [anthropicTool]
  else [].

(** The block "Tools mapping".  The slice [anthropicTools] is appended
    to but declared nowhere in the file; it starts empty here and is
    returned next to [out], which is all the block does with it.
    [hasAnthropicTools] is never assigned after its declaration. *)
Definition toolsStage (root out : json) : json * list json :=
  let tools := Get (Some root) "tools" in
  if Exists tools && IsArray tools && (0 <? length (Array tools))%nat then
    let hasAnthropicTools := false in
    let anthropicTools := flat_map convertTool (Array tools) in
    (if negb hasAnthropicTools then Delete out "tools" else out, anthropicTools)
  else (out, []).

(** The block "Tool choice mapping". *)
Definition toolChoiceStage (root out : json) : json :=
  match Get (Some root) "tool_choice" with
  | Some (JString choice) =>
      if (choice =? "auto")%string
      then Set_ out "tool_choice" (JObject [("type", JString "auto")])
      else if (choice =? "required")%string
      then Set_ out "tool_choice" (JObject [("type", JString "any")])
      else out
  | Some ((JObject _ | JArray _) as toolChoice) =>
      if (String_ (Get (Some toolChoice) "type") =? "function")%string then
        let functionName :=
          String_ (Get (Get (Some toolChoice) "function") "name") in
        Set_ out "tool_choice"
          (JObject [("type", JString "tool"); ("name", JString functionName)])
      else out
  | _ => out
  end.

(** From the tools block to the returned document. *)
Definition finishRequest (root out : json) : json :=
  toolChoiceStage root (toolsStage root out).1.

End Tools.

End Translator.

(** ** Sequences of signature-cache operations *)

Module CacheOps.
Import GoTime GoStrings Cache.

(** The calls a client of the signature cache and the background sweeper
    can make, each with the clock reading it sees. *)
Inductive sigOp :=
| OpCacheSignature (now : Time) (modelName text signature : string)
| OpGetCachedSignature (now : Time) (modelName text : string)
| OpPurge (now : Time)
| OpClear (modelName : string).

Section WithLibrary.
Context {lib : GoLibrary}.

Definition runSigOp (c : signatureCacheT) (op : sigOp) : signatureCacheT :=
  match op with
  | OpCacheSignature now modelName text signature =>
      CacheSignature now modelName text signature c
  | OpGetCachedSignature now modelName text =>
      (GetCachedSignature now modelName text c).2
  | OpPurge now => purgeExpiredCaches now c
  | OpClear modelName => ClearSignatureCache modelName c
  end.

Definition runSigOps (ops : list sigOp) (c : signatureCacheT) : signatureCacheT :=
  foldl runSigOp c ops.

(** Every stored signature has the minimum valid length. *)
Definition allValid (c : signatureCacheT) : Prop :=
  forall g sc h e, c !! g = Some sc -> sc !! h = Some e ->
    (MinValidSignatureLen <= len (Signature e))%nat.

End WithLibrary.

End CacheOps.

(** ** Sequences of thinking-cache operations *)

Module ThinkingOps.
Import GoTime GoStrings ThinkingCache.

Inductive thinkOp :=
| OpCacheThinking (now stamp : Time) (sessionID thinkingID thinkingText signature : string)
| OpGetCachedThinking (now : Time) (sessionID thinkingID : string)
| OpClearThinking (sessionID : string).

Section WithOrder.
Context {ord : GoOrder}.

Definition runThinkOp (c : thinkingCacheT) (op : thinkOp) : thinkingCacheT :=
  match op with
  | OpCacheThinking now stamp sessionID thinkingID thinkingText signature =>
      CacheThinking now stamp sessionID thinkingID thinkingText signature c
  | OpGetCachedThinking now sessionID thinkingID =>
      (GetCachedThinking now sessionID thinkingID c).2
  | OpClearThinking sessionID => ClearThinkingCache sessionID c
  end.

Definition runThinkOps (ops : list thinkOp) (c : thinkingCacheT) : thinkingCacheT :=
  foldl runThinkOp c ops.

End WithOrder.

(** No session holds more than [MaxThinkingEntriesPerSession] entries. *)
Definition bounded (c : thinkingCacheT) : Prop :=
  forall s sc, c !! s = Some sc -> (size sc <= MaxThinkingEntriesPerSession)%nat.

End ThinkingOps.

(** ** internal/usage/ratelimit.go: [QueryByWindow] *)

Module UsageQuery.
Import GoTime GoStrings Usage.

(** [t.Format(time.RFC3339)], from Go's standard library. *)
Class GoFormat := { FormatRFC3339 : Time -> string }.

(** [SourceUsage]; a nil [*RateLimitRecord] is [None].  The counters are
    int64 in the source; they count elements of a slice, so they stay far
    from the end of the int64 range and are plain integers here. *)
Record SourceUsage := mkSourceUsage {
  Requests : Z;
  LatestLimit : option RateLimitRecord
}.

(** [UnifiedSummary], its fields prefixed with [U]. *)
Record UnifiedSummary := mkUnifiedSummary {
  UTotalRequests : Z;
  ULatestRecord : option RateLimitRecord;
  UUtilization5h : float;
  UStatus5h : string;
  UReset5h : string;
  UUtilization7d : float;
  UStatus7d : string;
  UReset7d : string;
  UOverageStatus : string
}.

(** [WindowSummary] *)
Record WindowSummary := mkWindowSummary {
  TotalRequests : Z;
  Unified : option UnifiedSummary;
  WindowLatestLimit : option RateLimitRecord;
  BySource : gmap string SourceUsage
}.

(** The variables the loop of [QueryByWindow] updates. *)
Record queryState := mkQueryState {
  qTotal : Z;
  qLatestTime : Time;
  qLatestRecord : option RateLimitRecord;
  qBySource : gmap string SourceUsage
}.

Definition queryInit : queryState := mkQueryState 0 0 None ∅.

(** The key a record is counted under. *)
Definition sourceKey (r : RateLimitRecord) : string :=
  if (Source r =? "")%string then "unknown" else Source r.

(** Is the record inside the window that starts at [cutoff]? *)
Definition inWindow (cutoff : Time) (r : RateLimitRecord) : bool :=
  negb (Before (Timestamp r) cutoff).

(** One iteration of the loop. *)
Definition queryStep (cutoff : Time) (st : queryState) (r : RateLimitRecord)
  : queryState :=
  if Before (Timestamp r) cutoff then st
  else
    let total := qTotal st + 1 in
    let '(latestTime, latestRecord) :=
      if After (Timestamp r) (qLatestTime st) then (Timestamp r, Some r)
      else (qLatestTime st, qLatestRecord st) in
    let source := sourceKey r in
    let su := default (mkSourceUsage 0 None) (qBySource st !! source) in
    let su := mkSourceUsage (Requests su + 1) (LatestLimit su) in
    let su :=
      match LatestLimit su with
      | None => mkSourceUsage (Requests su) (Some r)
      | Some l =>
          if After (Timestamp r) (Timestamp l)
          then mkSourceUsage (Requests su) (Some r) else su
      end in
    mkQueryState total latestTime latestRecord (<[source := su]> (qBySource st)).

Definition queryLoop (cutoff : Time) (records : RateLimitStore) : queryState :=
  foldl (queryStep cutoff) queryInit records.

Section WithFormat.
Context {fmt : GoFormat}.

Definition formatReset (t : Time) : string :=
  if negb (IsZero t) then FormatRFC3339 t else "".

(** What the function builds from the loop's result. *)
Definition summarize (st : queryState) : WindowSummary :=
  match qLatestRecord st with
  | Some latestRecord =>
      if (Type_ latestRecord =? "unified")%string then
        mkWindowSummary (qTotal st)
          (Some (mkUnifiedSummary (qTotal st) (Some latestRecord)
                   (Utilization5h (unified latestRecord))
                   (Status5h (unified latestRecord))
                   (formatReset (Reset5h (unified latestRecord)))
                   (Utilization7d (unified latestRecord))
                   (Status7d (unified latestRecord))
                   (formatReset (Reset7d (unified latestRecord)))
                   (OverageStatus (unified latestRecord))))
          None (qBySource st)
      else mkWindowSummary (qTotal st) None (Some latestRecord) (qBySource st)
  | None => mkWindowSummary (qTotal st) None None (qBySource st)
  end.

(** [s.QueryByWindow(d)] at clock reading [now]; [None] is the nil store. *)
Definition QueryByWindow (now : Time) (d : Duration) (s : option RateLimitStore)
  : WindowSummary :=
  match s with
  | None => mkWindowSummary 0 None None ∅
  | Some records => summarize (queryLoop (Add now (- d)) records)
  end.

End WithFormat.

(** The records of the store that lie in the window and are counted
    under [source]. *)
Definition windowRecords (cutoff : Time) (records : RateLimitStore)
  : list RateLimitRecord :=
  filter (fun r => inWindow cutoff r = true) records.

Definition sourceRecords (cutoff : Time) (source : string) (records : RateLimitStore)
  : list RateLimitRecord :=
  filter (fun r => sourceKey r = source) (windowRecords cutoff records).

(** The record a summary reports as the latest one, in whichever of its
    two places. *)
Definition reportedLatest (w : WindowSummary) : option RateLimitRecord :=
  match Unified w with
  | Some u => ULatestRecord u
  | None => WindowLatestLimit w
  end.

(** What the loop knows about the latest record after a prefix of the
    store. *)
Definition latestInv (cutoff : Time) (processed : RateLimitStore) (st : queryState) : Prop :=
  match qLatestRecord st with
  | None =>
      qLatestTime st = 0
      /\ forall r, r ∈ windowRecords cutoff processed -> Timestamp r <= 0
  | Some lr =>
      qLatestTime st = Timestamp lr
      /\ lr ∈ windowRecords cutoff processed
      /\ forall r, r ∈ windowRecords cutoff processed -> Timestamp r <= Timestamp lr
  end.

(** The requests a summary counts for one source. *)
Definition requestsOf (source : string) (w : WindowSummary) : Z :=
  default 0 (Requests <$> (BySource w !! source)).

End UsageQuery.

(** ** internal/runtime/executor/ratelimit_capture.go *)

Module Executor.
Import GoTime GoStrings GoHTTP Usage.

Definition setSourceModel (source model : string) (r : RateLimitRecord)
  : RateLimitRecord :=
  mkRecord (Timestamp r) source model (Type_ r) (unified r) (standard r).

Section WithLibrary.
Context {lib : GoLibrary}.

(** The quick test: does some key contain "ratelimit" once lower-cased? *)
Definition hasRateLimitKey (headers : Header) : bool :=
  existsb (fun kv => Contains (ToLower kv.1) "ratelimit") (map_to_list headers).

(** [captureClaudeRateLimit(headers, source, model)] on the global store.
    A nil header map is [None].  The clock is read by the parser
    ([parsed]) and, inside [Record], for a missing timestamp ([stamp])
    and for the sweep ([now]).  Logging is left out. *)
Definition captureClaudeRateLimit (parsed stamp now : Time)
    (headers : option Header) (source model : string)
    (s : option RateLimitStore) : option RateLimitStore :=
  match headers with
  | None => s
  | Some headers =>
      if negb (hasRateLimitKey headers) then s
      else
        let record := ParseRateLimitHeaders parsed headers in
        if IsEmpty record then s
        else (Record_ stamp now (setSourceModel source model record) s).1
  end.

(** One call with its arguments and clock readings. *)
Record capture := mkCapture {
  capParsed : Time;
  capStamp : Time;
  capNow : Time;
  capHeaders : option Header;
  capSource : string;
  capModel : string
}.

Definition runCapture (s : option RateLimitStore) (cp : capture) : option RateLimitStore :=
  captureClaudeRateLimit (capParsed cp) (capStamp cp) (capNow cp)
    (capHeaders cp) (capSource cp) (capModel cp) s.

Definition runCaptures (l : list capture) (s : option RateLimitStore)
  : option RateLimitStore :=
  foldl runCapture s l.

End WithLibrary.

(** What a record stored by a capture looks like. *)
Definition capturedBy (l : list capture) (r : RateLimitRecord) : Prop :=
  IsEmpty r = false
  /\ (Type_ r = "unified" \/ Type_ r = "standard")
  /\ exists cp, cp ∈ l /\ Source r = capSource cp /\ Model r = capModel cp.

End Executor.

(** ** internal/api/handlers/management/usage_limits.go *)

Module Management.
Import GoTime Usage UsageQuery.

(** The object the handler answers with. *)
Record usageLimits := mkUsageLimits {
  last_5h : WindowSummary;
  last_week : WindowSummary
}.

Section WithFormat.
Context {fmt : GoFormat}.

(** [GetUsageLimits]: two queries on the global store, each reading the
    clock; [records] is the store as both queries find it. *)
Definition GetUsageLimits (now1 now2 : Time) (records : RateLimitStore)
  : usageLimits :=
  mkUsageLimits (QueryByWindow now1 (5 * Hour) (Some records))
                (QueryByWindow now2 (7 * 24 * Hour) (Some records)).

End WithFormat.

End Management.

(** ** Helpers to state facts about [Record] *)

Module UsageStore.
Import GoTime GoStrings Usage.

(** The record [Record] appends for a call: the argument, with the clock
    reading in place of a zero timestamp. *)
Definition storedForm (a : append) : RateLimitRecord :=
  if IsZero (Timestamp (appendRecord a))
  then setTimestamp (appendStamp a) (appendRecord a)
  else appendRecord a.

(** The calls whose record is not empty. *)
Definition accepted (l : list append) : list append :=
  filter (fun a => IsEmpty (appendRecord a) = false) l.

(** No byte of the string is an upper-case letter. *)
Definition noUpper (s : string) : bool :=
  forallb (fun ch => negb (isUpper ch)) (list_ascii_of_string s).

(** The three status headers of the unified dialect. *)
Definition statusHeaderNames : list string :=
  [ "Anthropic-Ratelimit-Unified-5h-Status";
    "Anthropic-Ratelimit-Unified-7d-Status";
    "Anthropic-Ratelimit-Unified-Status" ].

(** The twelve header names [parseStandardHeaders] reads. *)
Definition standardHeaderNames : list string :=
  [ "anthropic-ratelimit-requests-limit";
    "anthropic-ratelimit-requests-remaining";
    "anthropic-ratelimit-requests-reset";
    "anthropic-ratelimit-tokens-limit";
    "anthropic-ratelimit-tokens-remaining";
    "anthropic-ratelimit-tokens-reset";
    "anthropic-ratelimit-input-tokens-limit";
    "anthropic-ratelimit-input-tokens-remaining";
    "anthropic-ratelimit-input-tokens-reset";
    "anthropic-ratelimit-output-tokens-limit";
    "anthropic-ratelimit-output-tokens-remaining";
    "anthropic-ratelimit-output-tokens-reset" ].

(** None of the three status fields is set. *)
Definition noStatus (u : UnifiedFields) : Prop :=
  Status5h u = "" /\ Status7d u = "" /\ UnifiedStatus u = "".

End UsageStore.

(** ** claude_openai_request.go: [deriveSessionID] *)

Module TranslatorSession.
Import GoStrings JSON ThinkingCache.


Section WithLibrary.
Context {lib : GoLibrary} {jt : JSONText}.




End WithLibrary.


End TranslatorSession.

(** ** Helpers to state facts about [extractThinkingFromContent] *)

Module TranslatorShapes.
Import GoStrings Regexp ThinkingCache Translator.

(** A pattern that can only match where the text starts with [p]. *)
Definition startsWith (p : string) (re : matcher) : Prop :=
  forall s, re s <> None -> String.prefix p s = true.

(** The shapes a content list can have. *)
Definition wellShaped (parts : list part) : Prop :=
  match parts with
  | [] | [ThinkingPart _ _] => True
  | [TextPart t] | [ThinkingPart _ _; TextPart t] => t <> ""
  | _ => False
  end.

(** The entry stored under a session and a thinking id. *)
Definition storedThinking (sessionID thinkingID : string) (c : thinkingCacheT)
  : option ThinkingEntry :=
  c !! sessionID ≫= (fun sc => sc !! thinkingID).

End TranslatorShapes.

(** ** Stand-ins for the library parameters, to evaluate examples *)

Module Samples.
Import JSON ThinkingCache.

(** No property below depends on what the digest, the parsers or the case mapping
    compute; these are only there so that the functions run. *)
Definition sampleLibrary : GoLibrary :=
  {| sha256Hex := fun s =>
       s ++ "0000000000000000000000000000000000000000000000000000000000000000";
     ToLower := fun s => s;
     ParseRFC3339 := fun _ => None;
     ParseFloat := fun _ => None;
     float64ToInt64 := fun _ => 0;
     int64ToFloat64 := fun _ => 0%float |}.

(** One admissible order: entries as [map_to_list] lists them, sorted
    by a stable merge sort. *)
Definition sampleOrder : GoOrder :=
  {| rangeOrder := fun m => map_to_list m;
     sortSlice := fun less l =>
       @merge_sort _ (fun a b => less b a = false)
         (fun a b => decide (less b a = false)) l |}.

Definition sampleText : JSONText := {| Raw := fun _ => "{}" |}.

(** A signature of 66 characters. *)
Definition sig64 : string :=
  "MEUCIQDx0123456789abcdefghijklmnopqrstuvwxyzABCDEFGHIJKLMNOPQRSTUV".

(** 101 puts with the ids "000" .. "100", the n-th at clock reading n. *)
Definition sampleID (n : nat) : string :=
  String (ascii_of_nat (48 + n / 100))
    (String (ascii_of_nat (48 + (n / 10) mod 10))
       (String (ascii_of_nat (48 + n mod 10)) EmptyString)).

Definition samplePut (n : nat) : put :=
  mkPut (Z.of_nat n) (Z.of_nat n) (sampleID n) "Because" sig64.

Definition sampleFirst : list put := samplePut <$> seq 0 100.
Definition sampleLast : put := samplePut 100.

(** Header maps: a unified header with an empty value, a header of the
    unified family that the parser does not know, a unified header, and
    a standard header. *)
Definition emptyValueHeaders : GoHTTP.Header :=
  {[ "Anthropic-Ratelimit-Unified-Status" := [""] ]}.
Definition unknownUnifiedHeaders : GoHTTP.Header :=
  {[ "Anthropic-Ratelimit-Unified-Window" := ["5h"] ]}.
Definition unifiedHeaders : GoHTTP.Header :=
  {[ "Anthropic-Ratelimit-Unified-5h-Status" := ["allowed"] ]}.
Definition standardHeaders : GoHTTP.Header :=
  {[ "Anthropic-Ratelimit-Requests-Limit" := ["1000"] ]}.

(** A clock reading in 2025, and appends of a standard record. *)
Definition sampleNow : GoTime.Time := 63900000000 * GoTime.Second.

Definition sampleRecord (ts : GoTime.Time) : Usage.RateLimitRecord :=
  Usage.mkRecord ts "key-1" "claude-sonnet" "standard" Usage.zeroUnified
    (Usage.mkStandard 1000 999 0 80000 79000 0 0 0 0 0 0 0).

Definition sampleAppend (ts : GoTime.Time) : Usage.append :=
  Usage.mkAppend sampleNow sampleNow (sampleRecord ts).

Definition sampleOld : list Usage.append :=
  replicate 50 (sampleAppend (sampleNow - 8 * Usage.Day)).
Definition sampleRecent : list Usage.append :=
  replicate 49 (sampleAppend sampleNow).

Definition newline : string := GoStrings.ofBytes [10%nat].

(** The assistant text of the restoration scenario: a think block, the
    marker, and the answer. *)
Definition markedText : string :=
  "<think>old</think>" ++ newline ++ "```plaintext:thinkId:a1b2c3```"
    ++ newline ++ "The answer is 4.".

(** The same text behind a marker whose id the cache does not hold. *)
Definition twoMarkerText : string :=
  "```plaintext:thinkId:ffff```" ++ newline ++ markedText.

Definition sampleEntry : ThinkingEntry :=
  mkThinkingEntry "Because addition" sig64 1000.

Definition sampleCache : thinkingCacheT :=
  {[ "session" := {[ "a1b2c3" := sampleEntry ]} ]}.

(** A request with one function tool, and the declaration the tools
    block builds for it. *)
Definition weatherSchema : json :=
  JObject [("type", JString "object");
           ("properties", JObject [("city", JObject [("type", JString "string")])])].

Definition weatherRequest : json :=
  JObject [("model", JString "gpt-4o");
           ("tools", JArray [
              JObject [("type", JString "function");
                       ("function", JObject [("name", JString "get_weather");
                                             ("description", JString "Weather by city");
                                             ("parameters", weatherSchema)])]])].

Definition weatherDeclaration : json :=
  JObject [("name", JString "get_weather");
           ("description", JString "Weather by city");
           ("input_schema", weatherSchema)].

End Samples.

(** ** More sample data *)

Module MoreSamples.
Import JSON ThinkingCache Samples.

Definition sampleFormat : UsageQuery.GoFormat :=
  {| UsageQuery.FormatRFC3339 := fun _ => "2025-01-01T00:00:00Z" |}.

(** A session filled to capacity by the first 100 sample puts. *)
Definition fullCache : thinkingCacheT :=
  runPuts (ord := sampleOrder) "session" sampleFirst ∅.

(** A standard header under a key that is not canonical, and a unified
    header that is not a status header. *)
Definition lowercaseHeaders : GoHTTP.Header :=
  {[ "anthropic-ratelimit-requests-limit" := ["1000"] ]}.
Definition utilizationHeaders : GoHTTP.Header :=
  {[ "Anthropic-Ratelimit-Unified-5h-Utilization" := ["0.5"] ]}.


Definition plainText : string := "  The answer is 4. ".

End MoreSamples.

(** * Properties *)

(** ** Time *)

Module GoTimeFacts.
Import GoTime.

Lemma Sub_gt (t u : Time) (d : Duration) :
  minDuration <= d < maxDuration -> (d <? Sub t u) = (d <? t - u).
Proof.
  unfold Sub, minDuration, maxDuration. intros Hd.
  destruct (Z.ltb_spec (t - u) (- 2 ^ 63)); [lia|].
  destruct (Z.ltb_spec (2 ^ 63 - 1) (t - u)); lia.
Qed.

Lemma two_hours_in_range : minDuration <= 2 * Hour < maxDuration.
Proof. vm_compute. split; [intros ?; discriminate | reflexivity]. Qed.

End GoTimeFacts.

(** ** Signature cache *)

Module CacheFacts.
Import GoTime GoStrings GoTimeFacts Cache.

Lemma ttl_expired (now ts : Time) :
  (SignatureCacheTTL <? Sub now ts) = (2 * Hour <? now - ts).
Proof. unfold SignatureCacheTTL. apply Sub_gt, two_hours_in_range. Qed.

Lemma missValue_gemini : missValue "gemini" = skipSentinel.
Proof. reflexivity. Qed.

Lemma missValue_other (g : string) : g <> "gemini" -> missValue g = "".
Proof.
  intros Hg. unfold missValue.
  destruct (String.eqb_spec g "gemini"); [contradiction | reflexivity].
Qed.

(** The group is "gemini" exactly for names that contain "gemini" and
    neither "gpt" nor "claude", which are tested first. *)
Lemma GetModelGroup_gemini (modelName : string) :
  GetModelGroup modelName = "gemini" <->
  Contains modelName "gpt" = false /\ Contains modelName "claude" = false
  /\ Contains modelName "gemini" = true.
Proof.
  unfold GetModelGroup.
  destruct (Contains modelName "gpt") eqn:Hgpt.
  { split; [discriminate | intros (? & _); discriminate]. }
  destruct (Contains modelName "claude") eqn:Hcl.
  { split; [discriminate | intros (_ & ? & _); discriminate]. }
  destruct (Contains modelName "gemini") eqn:Hge.
  { split; auto. }
  split.
  - intros ->. discriminate Hge.
  - intros (_ & _ & ?). discriminate.
Qed.

(** The tests come in the order gpt, claude, gemini: a name that
    contains "gemini" next to one of the other two is not of group
    "gemini". *)
Example group_order :
  GetModelGroup "gemini-2.5-pro" = "gemini"
  /\ GetModelGroup "claude-via-gemini-adapter" = "claude"
  /\ GetModelGroup "gpt-gemini" = "gpt"
  /\ GetModelGroup "o3-mini" = "o3-mini".
Proof. repeat split. Qed.

Section WithLibrary.
Context {lib : GoLibrary}.

(** A miss returns the miss value of the group and a hit the stored
    signature. *)
Lemma GetCachedSignature_result (now : Time) (modelName text : string)
    (c : signatureCacheT) :
  (GetCachedSignature now modelName text c).1 =
  match freshEntry now modelName text c with
  | Some entry => Signature entry
  | None => missValue (GetModelGroup modelName)
  end.
Proof.
  unfold GetCachedSignature, freshEntry.
  destruct (text =? "")%string; [reflexivity|].
  destruct (c !! GetModelGroup modelName) as [sc|]; [|reflexivity].
  destruct (sc !! hashText text) as [entry|]; [|reflexivity].
  destruct (SignatureCacheTTL <? Sub now (Timestamp entry)); reflexivity.
Qed.

Lemma freshEntry_stored (now : Time) (modelName text : string)
    (c : signatureCacheT) (e : SignatureEntry) :
  text <> "" -> storedEntry modelName text c = Some e ->
  now - Timestamp e <= 2 * Hour ->
  freshEntry now modelName text c = Some e.
Proof.
  intros Ht Hs Hage. unfold freshEntry, storedEntry in *.
  destruct (String.eqb_spec text ""); [contradiction|].
  destruct (c !! GetModelGroup modelName) as [sc|]; [|discriminate].
  simpl in Hs. rewrite Hs, ttl_expired.
  destruct (Z.ltb_spec (2 * Hour) (now - Timestamp e)); [lia | reflexivity].
Qed.

Lemma freshEntry_too_old (now : Time) (modelName text : string)
    (c : signatureCacheT) (e : SignatureEntry) :
  storedEntry modelName text c = Some e ->
  2 * Hour < now - Timestamp e ->
  freshEntry now modelName text c = None.
Proof.
  intros Hs Hage. unfold freshEntry, storedEntry in *.
  destruct (text =? "")%string; [reflexivity|].
  destruct (c !! GetModelGroup modelName) as [sc|]; [|discriminate].
  simpl in Hs. rewrite Hs, ttl_expired.
  destruct (Z.ltb_spec (2 * Hour) (now - Timestamp e)); [reflexivity | lia].
Qed.

(** A hit stores the entry again with the time of the get. *)
Lemma GetCachedSignature_refresh (now : Time) (modelName text : string)
    (c : signatureCacheT) (e : SignatureEntry) :
  freshEntry now modelName text c = Some e ->
  storedEntry modelName text (GetCachedSignature now modelName text c).2
  = Some (mkSignatureEntry (Signature e) now).
Proof.
  unfold GetCachedSignature, freshEntry, storedEntry.
  destruct (text =? "")%string; [discriminate|].
  destruct (c !! GetModelGroup modelName) as [sc|]; [|discriminate].
  destruct (sc !! hashText text) as [entry|]; [|discriminate].
  destruct (SignatureCacheTTL <? Sub now (Timestamp entry)); [discriminate|].
  intros [= ->]. simpl. rewrite lookup_insert_eq. simpl.
  apply lookup_insert_eq.
Qed.

(** What [CacheSignature] stores for accepted arguments. *)
Lemma CacheSignature_stored (now : Time) (modelName text signature : string)
    (c : signatureCacheT) :
  text <> "" -> (MinValidSignatureLen <= len signature)%nat ->
  storedEntry modelName text (CacheSignature now modelName text signature c)
  = Some (mkSignatureEntry signature now).
Proof.
  intros Ht Hlen. unfold CacheSignature, storedEntry.
  destruct (String.eqb_spec text ""); [contradiction|].
  destruct (String.eqb_spec signature "") as [->|_].
  { unfold MinValidSignatureLen in Hlen. simpl in Hlen. lia. }
  simpl. destruct (Nat.ltb_spec (len signature) MinValidSignatureLen); [lia|].
  unfold getOrCreateGroupCache.
  destruct (c !! GetModelGroup modelName) as [sc|];
    rewrite lookup_insert_eq; simpl; apply lookup_insert_eq.
Qed.

Lemma purgeBucket_lookup (now : Time) (sc : groupCache) (h : string) :
  purgeBucket now sc !! h
  = match sc !! h with
    | Some e => if 2 * Hour <? now - Timestamp e then None else Some e
    | None => None
    end.
Proof.
  unfold purgeBucket. rewrite map_lookup_filter.
  destruct (sc !! h) as [e|]; [|reflexivity]. simpl.
  rewrite ttl_expired.
  destruct (2 * Hour <? now - Timestamp e); simpl.
  - reflexivity.
  - reflexivity.
Qed.

Lemma purgeExpiredCaches_lookup (now : Time) (c : signatureCacheT) (g : string) :
  purgeExpiredCaches now c !! g
  = match c !! g with
    | Some sc => if decide (purgeBucket now sc = ∅) then None else Some (purgeBucket now sc)
    | None => None
    end.
Proof.
  unfold purgeExpiredCaches. rewrite map_lookup_filter, lookup_fmap.
  destruct (c !! g) as [sc|]; [|reflexivity]. simpl.
  destruct (decide (purgeBucket now sc = ∅)) as [Hemp|Hne].
  - rewrite option_guard_False by (simpl; auto). reflexivity.
  - rewrite option_guard_True by exact Hne. reflexivity.
Qed.

(** The background sweeper does not change what a later get finds. *)
Lemma purge_keeps_fresh (now now' : Time) (modelName text : string)
    (c : signatureCacheT) :
  now <= now' ->
  freshEntry now' modelName text (purgeExpiredCaches now c)
  = freshEntry now' modelName text c.
Proof.
  intros Hle. unfold freshEntry.
  destruct (text =? "")%string; [reflexivity|].
  rewrite purgeExpiredCaches_lookup.
  destruct (c !! GetModelGroup modelName) as [sc|]; [|reflexivity].
  pose proof (purgeBucket_lookup now sc (hashText text)) as Hl.
  destruct (decide (purgeBucket now sc = ∅)) as [Hemp|Hne].
  - rewrite Hemp, lookup_empty in Hl.
    destruct (sc !! hashText text) as [e|]; [|reflexivity].
    rewrite ttl_expired.
    destruct (Z.ltb_spec (2 * Hour) (now - Timestamp e)); [|discriminate].
    destruct (Z.ltb_spec (2 * Hour) (now' - Timestamp e)); [reflexivity | lia].
  - rewrite Hl.
    destruct (sc !! hashText text) as [e|]; [|reflexivity].
    destruct (Z.ltb_spec (2 * Hour) (now - Timestamp e)); [|reflexivity].
    rewrite ttl_expired.
    destruct (Z.ltb_spec (2 * Hour) (now' - Timestamp e)); [reflexivity | lia].
Qed.

(** The two gets of the sliding-TTL scenario still hit when the sweeper
    runs before each of them. *)
Lemma sliding_ttl_with_sweeps (t0 p1 p2 : Time) (modelName text signature : string)
    (c : signatureCacheT) :
  text <> "" -> (MinValidSignatureLen <= len signature)%nat ->
  p1 <= t0 + Hour -> p2 <= t0 + 2 * Hour ->
  let c0 := purgeExpiredCaches p1 (CacheSignature t0 modelName text signature c) in
  let c1 := purgeExpiredCaches p2 (GetCachedSignature (t0 + Hour) modelName text c0).2 in
  (GetCachedSignature (t0 + Hour) modelName text c0).1 = signature
  /\ (GetCachedSignature (t0 + 2 * Hour) modelName text c1).1 = signature.
Proof.
  intros Ht Hlen Hp1 Hp2 c0 c1.
  assert (Hf0 : freshEntry (t0 + Hour) modelName text c0
                = Some (mkSignatureEntry signature t0)).
  { unfold c0. rewrite purge_keeps_fresh by exact Hp1.
    apply freshEntry_stored; [exact Ht | apply CacheSignature_stored; assumption |].
    simpl. unfold Hour, Minute, Second. lia. }
  split.
  - rewrite GetCachedSignature_result, Hf0. reflexivity.
  - rewrite GetCachedSignature_result. unfold c1.
    rewrite purge_keeps_fresh by exact Hp2.
    rewrite (freshEntry_stored _ _ _ _ (mkSignatureEntry signature (t0 + Hour)) Ht).
    + reflexivity.
    + apply (GetCachedSignature_refresh _ _ _ _ _ Hf0).
    + simpl. unfold Hour, Minute, Second. lia.
Qed.
(** C6: for a model name whose group is "gemini", a get that misses
    (no entry for the text, an expired entry, no bucket, or an empty
    text) returns "skip_thought_signature_validator", and
    [HasValidSignature] accepts that sentinel for the model; for a
    model name of any other group a miss returns the empty string. *)
Theorem C6_gemini_sentinel_on_miss (now : Time) (modelName text : string)
    (c : signatureCacheT) :
  freshEntry now modelName text c = None ->
  (GetModelGroup modelName = "gemini" ->
     (GetCachedSignature now modelName text c).1 = skipSentinel
     /\ HasValidSignature modelName skipSentinel = true)
  /\ (GetModelGroup modelName <> "gemini" ->
        (GetCachedSignature now modelName text c).1 = "").
Proof.
  intros Hmiss. rewrite GetCachedSignature_result, Hmiss. split.
  - intros Hg. rewrite Hg. split; [reflexivity|].
    unfold HasValidSignature. rewrite Hg. reflexivity.
  - apply missValue_other.
Qed.

(** C9: a get on a present entry less than two hours old returns its
    signature and stores the time of the get as the entry's timestamp;
    so after an insertion at [t0] the gets at [t0 + 1h] and [t0 + 2h]
    both return the signature.  The last part shows the sliding: a
    second get up to three hours after the insertion still hits, while
    the same get without the first one misses once two hours have
    passed. *)
Theorem C9_sliding_ttl :
  (forall (now : Time) (modelName text : string) (c : signatureCacheT)
          (e : SignatureEntry),
      text <> "" -> storedEntry modelName text c = Some e ->
      now - Timestamp e < 2 * Hour ->
      (GetCachedSignature now modelName text c).1 = Signature e
      /\ storedEntry modelName text (GetCachedSignature now modelName text c).2
         = Some (mkSignatureEntry (Signature e) now))
  /\ (forall (t0 : Time) (modelName text signature : string) (c : signatureCacheT),
        text <> "" -> (MinValidSignatureLen <= len signature)%nat ->
        let c0 := CacheSignature t0 modelName text signature c in
        let c1 := (GetCachedSignature (t0 + Hour) modelName text c0).2 in
        (GetCachedSignature (t0 + Hour) modelName text c0).1 = signature
        /\ (GetCachedSignature (t0 + 2 * Hour) modelName text c1).1 = signature
        /\ forall t2 : Time, t0 + 2 * Hour < t2 <= t0 + 3 * Hour ->
             (GetCachedSignature t2 modelName text c1).1 = signature
             /\ (GetCachedSignature t2 modelName text c0).1
                = missValue (GetModelGroup modelName)).
Proof.
  split.
  - intros now modelName text c e Ht Hs Hage.
    assert (Hf : freshEntry now modelName text c = Some e)
      by (apply freshEntry_stored; [assumption | assumption | lia]).
    split.
    + rewrite GetCachedSignature_result, Hf. reflexivity.
    + apply GetCachedSignature_refresh, Hf.
  - intros t0 modelName text signature c Ht Hlen c0 c1.
    pose proof (CacheSignature_stored t0 modelName text signature c Ht Hlen) as Hs0.
    fold c0 in Hs0.
    assert (Hf1 : freshEntry (t0 + Hour) modelName text c0
                  = Some (mkSignatureEntry signature t0))
      by (apply freshEntry_stored; [assumption | assumption | simpl; unfold Hour, Minute, Second; lia]).
    pose proof (GetCachedSignature_refresh _ _ _ _ _ Hf1) as Hs1.
    fold c1 in Hs1. simpl in Hs1.
    assert (Hlate : forall t2, t2 <= t0 + 3 * Hour ->
              (GetCachedSignature t2 modelName text c1).1 = signature).
    { intros t2 Ht2. rewrite GetCachedSignature_result.
      rewrite (freshEntry_stored t2 _ _ _ _ Ht Hs1); [reflexivity|].
      simpl. unfold Hour, Minute, Second in *. lia. }
    split; [|split].
    + rewrite GetCachedSignature_result, Hf1. reflexivity.
    + apply Hlate. unfold Hour, Minute, Second. lia.
    + intros t2 Ht2. split.
      * apply Hlate. lia.
      * rewrite GetCachedSignature_result.
        rewrite (freshEntry_too_old t2 _ _ _ _ Hs0); [reflexivity|].
        simpl. lia.
Qed.

(** C10: with an empty text, get returns the sentinel for a model name
    of group "gemini" and the empty string for any other group; the
    cache is neither read (the result is the same for every cache) nor
    changed. *)
Theorem C10_get_empty_text (now : Time) (modelName : string)
    (c : signatureCacheT) :
  (GetModelGroup modelName = "gemini" ->
     GetCachedSignature now modelName "" c = (skipSentinel, c))
  /\ (GetModelGroup modelName <> "gemini" ->
        GetCachedSignature now modelName "" c = ("", c)).
Proof.
  unfold GetCachedSignature. simpl. split.
  - intros ->. reflexivity.
  - intros Hg. rewrite missValue_other by assumption. reflexivity.
Qed.

End WithLibrary.

Import Samples.

Lemma C6_gemini_sentinel_on_miss_witness :
  ((GetCachedSignature (lib := sampleLibrary) 0 "gemini-2.5-pro" "thought" ∅).1
     = skipSentinel
   /\ HasValidSignature "gemini-2.5-pro" skipSentinel = true)
  /\ (GetCachedSignature (lib := sampleLibrary) 0 "o3-mini" "thought" ∅).1 = "".
Proof.
  split.
  - apply (C6_gemini_sentinel_on_miss (lib := sampleLibrary)
             0 "gemini-2.5-pro" "thought" ∅); reflexivity.
  - apply (C6_gemini_sentinel_on_miss (lib := sampleLibrary)
             0 "o3-mini" "thought" ∅); [reflexivity | discriminate].
Defined.

Lemma C9_sliding_ttl_witness :
  let c0 := CacheSignature (lib := sampleLibrary) 1000 "claude-opus" "thought" sig64 ∅ in
  let c1 := (GetCachedSignature (lib := sampleLibrary) (1000 + Hour) "claude-opus" "thought" c0).2 in
  (GetCachedSignature (lib := sampleLibrary) (1000 + Hour) "claude-opus" "thought" c0).1 = sig64
  /\ (GetCachedSignature (lib := sampleLibrary) (1000 + 2 * Hour) "claude-opus" "thought" c1).1 = sig64.
Proof.
  intros c0 c1.
  destruct (proj2 (C9_sliding_ttl (lib := sampleLibrary)) 1000 "claude-opus" "thought" sig64 ∅)
    as (H1 & H2 & _).
  - discriminate.
  - unfold MinValidSignatureLen, len. simpl. lia.
  - split; [exact H1 | exact H2].
Defined.

Lemma C10_get_empty_text_witness :
  GetCachedSignature (lib := sampleLibrary) 0 "gemini-2.5-pro" "" ∅ = (skipSentinel, ∅)
  /\ GetCachedSignature (lib := sampleLibrary) 0 "claude-opus" "" ∅ = ("", ∅).
Proof.
  split.
  - apply (C10_get_empty_text (lib := sampleLibrary) 0 "gemini-2.5-pro" ∅). reflexivity.
  - apply (C10_get_empty_text (lib := sampleLibrary) 0 "claude-opus" ∅). discriminate.
Defined.

End CacheFacts.

(** ** Thinking cache *)

Module ThinkingCacheFacts.
Import GoTime GoStrings GoTimeFacts ThinkingCache.
Local Open Scope list_scope.

Lemma expired_spec (now : Time) (e : ThinkingEntry) :
  expired now e = (2 * Hour <? now - Timestamp e).
Proof. unfold expired, ThinkingCacheTTL. apply Sub_gt, two_hours_in_range. Qed.

Lemma GetCachedThinking_fresh (now : Time) (sessionID thinkingID : string)
    (c : thinkingCacheT) (sc : thinkingSessionCache) (e : ThinkingEntry) :
  sessionID <> "" -> thinkingID <> "" ->
  c !! sessionID = Some sc -> sc !! thinkingID = Some e ->
  now - Timestamp e <= 2 * Hour ->
  GetCachedThinking now sessionID thinkingID c = (Some e, c).
Proof.
  intros Hs Hi Hc He Hage. unfold GetCachedThinking.
  destruct (String.eqb_spec sessionID ""); [contradiction|].
  destruct (String.eqb_spec thinkingID ""); [contradiction|].
  simpl. rewrite Hc, He, expired_spec.
  destruct (Z.ltb_spec (2 * Hour) (now - Timestamp e)); [lia | reflexivity].
Qed.

Lemma GetCachedThinking_expired (now : Time) (sessionID thinkingID : string)
    (c : thinkingCacheT) (sc : thinkingSessionCache) (e : ThinkingEntry) :
  sessionID <> "" -> thinkingID <> "" ->
  c !! sessionID = Some sc -> sc !! thinkingID = Some e ->
  2 * Hour < now - Timestamp e ->
  GetCachedThinking now sessionID thinkingID c
  = (None, <[sessionID := delete thinkingID sc]> c).
Proof.
  intros Hs Hi Hc He Hage. unfold GetCachedThinking.
  destruct (String.eqb_spec sessionID ""); [contradiction|].
  destruct (String.eqb_spec thinkingID ""); [contradiction|].
  simpl. rewrite Hc, He, expired_spec.
  destruct (Z.ltb_spec (2 * Hour) (now - Timestamp e)); [reflexivity | lia].
Qed.

Lemma evictExpired_none (now : Time) (sc : thinkingSessionCache) :
  (forall k e, sc !! k = Some e -> now - Timestamp e <= 2 * Hour) ->
  evictExpired now sc = sc.
Proof.
  intros Hall. unfold evictExpired. apply map_filter_id.
  intros k e Hk. simpl. rewrite expired_spec.
  specialize (Hall _ _ Hk).
  destruct (Z.ltb_spec (2 * Hour) (now - Timestamp e)); [lia | reflexivity].
Qed.

Lemma lookup_foldl_delete (l : list keyTs) (m : thinkingSessionCache) (k : string) :
  foldl (fun m (o : keyTs) => delete o.1 m) m l !! k
  = if decide (k ∈ l.*1) then None else m !! k.
Proof.
  revert m. induction l as [|o l IH]; intros m; simpl.
  - destruct (decide (k ∈ [])) as [Hin|_]; [|reflexivity].
    apply elem_of_nil in Hin. contradiction.
  - rewrite IH.
    destruct (decide (k ∈ l.*1)) as [Hin|Hnin].
    + rewrite decide_True by (apply elem_of_cons; auto). reflexivity.
    + destruct (decide (k = o.1)) as [->|Hne].
      * rewrite decide_True by (apply elem_of_cons; auto).
        apply lookup_delete_eq.
      * rewrite decide_False.
        -- apply lookup_delete_ne. congruence.
        -- intros [?|?]%elem_of_cons; contradiction.
Qed.

Lemma size_foldl_delete (l : list keyTs) (m : thinkingSessionCache) :
  NoDup l.*1 -> (forall k, k ∈ l.*1 -> is_Some (m !! k)) ->
  (size (foldl (fun m (o : keyTs) => delete o.1 m) m l) + length l = size m)%nat.
Proof.
  revert m. induction l as [|o l IH]; intros m Hnd Hin; simpl.
  - lia.
  - apply NoDup_cons in Hnd as [Ho Hnd].
    assert (Ho1 : is_Some (m !! o.1)) by (apply Hin, elem_of_cons; auto).
    specialize (IH (delete o.1 m) Hnd).
    rewrite map_size_delete_Some in IH by assumption.
    assert (size m <> 0%nat).
    { intros Hz. apply map_size_empty_inv in Hz. subst m.
      destruct Ho1 as [? Hx]. rewrite lookup_empty in Hx. discriminate. }
    enough (size (foldl (fun m (o : keyTs) => delete o.1 m) (delete o.1 m) l)
            + length l = pred (size m))%nat by lia.
    apply IH. intros k Hk. rewrite lookup_delete_ne.
    + apply Hin, elem_of_cons; auto.
    + intros <-. contradiction.
Qed.

Section WithOrder.
Context {ord : GoOrder}.

(** Past the guard, the session holds the new entry on top of what
    the capacity branch left. *)
Lemma CacheThinking_session (now stamp : Time)
    (sessionID thinkingID thinkingText signature : string) (c : thinkingCacheT) :
  sessionID <> "" -> thinkingID <> "" -> thinkingText <> "" ->
  CacheThinking now stamp sessionID thinkingID thinkingText signature c !! sessionID
  = Some (<[thinkingID := mkThinkingEntry thinkingText signature stamp]>
            (makeRoom now (sessionEntries sessionID c))).
Proof.
  intros Hs Hi Ht. unfold CacheThinking, getOrCreateThinkingSession, sessionEntries.
  destruct (String.eqb_spec sessionID ""); [contradiction|].
  destruct (String.eqb_spec thinkingID ""); [contradiction|].
  destruct (String.eqb_spec thinkingText ""); [contradiction|].
  simpl. destruct (c !! sessionID) as [sc|]; simpl; apply lookup_insert_eq.
Qed.

(** C3: after a put with a non-empty session id, thinking id and
    text (and any signature, valid ones included), a get less than two
    hours after the stored timestamp returns the entry with exactly
    that text and signature and leaves the cache as it is; a get more
    than two hours after it returns nothing and deletes the entry. *)
Theorem C3_thinking_round_trip (now stamp : Time)
    (sessionID thinkingID thinkingText signature : string) (c : thinkingCacheT) :
  sessionID <> "" -> thinkingID <> "" -> thinkingText <> "" ->
  let c' := CacheThinking now stamp sessionID thinkingID thinkingText signature c in
  (forall t : Time, t - stamp < 2 * Hour ->
     GetCachedThinking t sessionID thinkingID c'
     = (Some (mkThinkingEntry thinkingText signature stamp), c'))
  /\ (forall t : Time, 2 * Hour < t - stamp ->
        (GetCachedThinking t sessionID thinkingID c').1 = None
        /\ sessionEntries sessionID (GetCachedThinking t sessionID thinkingID c').2
             !! thinkingID = None).
Proof.
  intros Hs Hi Ht c'.
  pose proof (CacheThinking_session now stamp _ _ _ signature c Hs Hi Ht) as Hc.
  fold c' in Hc. split.
  - intros t Hage.
    apply (GetCachedThinking_fresh t _ _ _ _ _ Hs Hi Hc).
    + apply lookup_insert_eq.
    + simpl. lia.
  - intros t Hage.
    rewrite (GetCachedThinking_expired t _ _ _ _
               (mkThinkingEntry thinkingText signature stamp) Hs Hi Hc).
    + simpl. split; [reflexivity|].
      unfold sessionEntries. rewrite lookup_insert_eq. simpl.
      apply lookup_delete_eq.
    + apply lookup_insert_eq.
    + simpl. lia.
Qed.

(** C5, as the code has it: a put whose session id, thinking id or
    text is empty leaves the whole thinking cache unchanged.  (The
    signature is not among the arguments the guard tests.) *)
Theorem C5_put_guard_noop (now stamp : Time)
    (sessionID thinkingID thinkingText signature : string) (c : thinkingCacheT) :
  sessionID = "" \/ thinkingID = "" \/ thinkingText = "" ->
  CacheThinking now stamp sessionID thinkingID thinkingText signature c = c.
Proof.
  unfold CacheThinking. intros [-> | [-> | ->]].
  - reflexivity.
  - rewrite orb_true_r. reflexivity.
  - rewrite orb_true_r. reflexivity.
Qed.

End WithOrder.

Section WithOrderSpec.
Context {ord : GoOrder} {spec : GoOrderSpec ord}.

(** What the second loop of the capacity branch removes from a full
    bucket of 100 entries: 25 keys, none newer than a key it keeps. *)
Lemma evictOldest_full (sc : thinkingSessionCache) :
  size sc = 100%nat ->
  exists removed kept : list keyTs,
    removed ++ kept ≡ₚ keyTsOf <$> map_to_list sc
    /\ length removed = 25%nat
    /\ evictOldest sc = foldl (fun m (o : keyTs) => delete o.1 m) sc removed
    /\ forall a b : keyTs, a ∈ removed -> b ∈ kept -> a.2 <= b.2.
Proof.
  intros Hsize. unfold evictOldest. cbv zeta.
  set (oldest := sortSlice lessTs ((fun kv => (kv.1, Timestamp kv.2)) <$> rangeOrder sc)).
  assert (Hperm : oldest ≡ₚ keyTsOf <$> map_to_list sc).
  { unfold oldest. rewrite sortSlice_perm, rangeOrder_perm. reflexivity. }
  assert (Hlen : length oldest = 100%nat).
  { rewrite Hperm, length_fmap, length_map_to_list. exact Hsize. }
  rewrite Hlen. change (100 / 4)%nat with 25%nat.
  change (25 <? 1)%nat with false. cbv iota.
  exists (take 25 oldest), (drop 25 oldest). split; [|split; [|split]].
  - rewrite take_drop. exact Hperm.
  - rewrite length_take, Hlen. reflexivity.
  - reflexivity.
  - intros a b Ha Hb.
    pose proof (sortSlice_sorted ((fun kv => (kv.1, Timestamp kv.2)) <$> rangeOrder sc))
      as Hsorted.
    fold oldest in Hsorted. rewrite <- (take_drop 25 oldest) in Hsorted.
    pose proof (StronglySorted_app_1_elem_of _ _ _ _ _ Hsorted Ha Hb) as Hab.
    unfold lessTs, Before in Hab. simpl in Hab.
    destruct (Z.ltb_spec b.2 a.2); [discriminate | lia].
Qed.

Lemma makeRoom_below (now : Time) (sc : thinkingSessionCache) :
  (size sc < 100)%nat -> makeRoom now sc = sc.
Proof.
  intros Hlt. unfold makeRoom, MaxThinkingEntriesPerSession.
  destruct (Nat.leb_spec 100 (size sc)); [lia | reflexivity].
Qed.

Lemma runPut_session (sessionID : string) (c : thinkingCacheT) (p : put) :
  sessionID <> "" -> wellFormed p ->
  sessionEntries sessionID (runPut sessionID c p)
  = <[putID p := putEntry p]> (makeRoom (putNow p) (sessionEntries sessionID c)).
Proof.
  intros Hs [Hi Ht]. unfold runPut.
  unfold sessionEntries at 1. rewrite CacheThinking_session by assumption.
  reflexivity.
Qed.

Lemma putKV_keys (ps : list put) : (putKV <$> ps).*1 = putID <$> ps.
Proof. rewrite <- list_fmap_compose. reflexivity. Qed.

(** Up to 100 puts with distinct ids into an empty session are all
    stored: the capacity branch is not entered. *)
Lemma runPuts_fill (sessionID : string) (ps : list put) (c : thinkingCacheT) :
  sessionID <> "" -> sessionEntries sessionID c = ∅ ->
  (length ps <= 100)%nat -> NoDup (putID <$> ps) -> Forall wellFormed ps ->
  sessionEntries sessionID (runPuts sessionID ps c)
  = list_to_map (putKV <$> reverse ps).
Proof.
  intros Hs Hc. induction ps as [|p ps IH] using rev_ind; intros Hlen Hnd Hwf.
  - simpl. rewrite Hc. reflexivity.
  - unfold runPuts in *. rewrite foldl_snoc.
    rewrite length_app in Hlen. simpl in Hlen.
    rewrite fmap_app in Hnd. apply NoDup_app in Hnd as (Hnd & _ & _).
    apply Forall_app in Hwf as [Hwf Hp]. rewrite Forall_singleton in Hp.
    rewrite runPut_session by assumption.
    rewrite IH; [| lia | assumption | assumption].
    rewrite makeRoom_below.
    + rewrite reverse_snoc. reflexivity.
    + rewrite map_size_list_to_map.
      * rewrite length_fmap, length_reverse. lia.
      * rewrite putKV_keys, reverse_Permutation. exact Hnd.
Qed.

Lemma elem_of_keyTsOf (sc : thinkingSessionCache) (o : keyTs) :
  o ∈ keyTsOf <$> map_to_list sc <->
  exists e, sc !! o.1 = Some e /\ o.2 = Timestamp e.
Proof.
  rewrite list_elem_of_fmap. split.
  - intros ([k e] & -> & Hin). apply elem_of_map_to_list in Hin.
    exists e. simpl. auto.
  - intros (e & Hlook & Hts). exists (o.1, e). split.
    + destruct o as [k ts]. simpl in *. unfold keyTsOf. simpl. congruence.
    + apply elem_of_map_to_list. exact Hlook.
Qed.

Lemma makeRoom_full (now : Time) (sc : thinkingSessionCache) :
  size sc = 100%nat ->
  (forall k e, sc !! k = Some e -> now - Timestamp e <= 2 * Hour) ->
  makeRoom now sc = evictOldest sc.
Proof.
  intros Hsize Hfresh. unfold makeRoom, MaxThinkingEntriesPerSession.
  rewrite (evictExpired_none now sc Hfresh), Hsize. reflexivity.
Qed.

(** C4, as the code has it: when 101 puts with pairwise distinct
    thinking ids go into an empty session and none of the first 100
    entries has expired at the 101st put, the 101st put evicts exactly
    25 of them (a quarter of 100, not 26), none of which is newer than
    an entry that stays; the session then holds the other 75 of the
    first 100 entries and the 101st, 76 in all. *)
Theorem C4_eviction_quarter (sessionID : string) (first : list put) (last : put)
    (c : thinkingCacheT) :
  sessionID <> "" -> sessionEntries sessionID c = ∅ ->
  length first = 100%nat -> NoDup (putID <$> first ++ [last]) ->
  Forall wellFormed (first ++ [last]) ->
  (forall p, p ∈ first -> putNow last - putStamp p <= 2 * Hour) ->
  exists evicted : list string,
    NoDup evicted /\ length evicted = 25%nat /\ evicted ⊆ putID <$> first
    /\ size (sessionEntries sessionID (runPuts sessionID (first ++ [last]) c)) = 76%nat
    /\ sessionEntries sessionID (runPuts sessionID (first ++ [last]) c) !! putID last
       = Some (putEntry last)
    /\ (forall p, p ∈ first ->
          sessionEntries sessionID (runPuts sessionID (first ++ [last]) c) !! putID p
          = if decide (putID p ∈ evicted) then None else Some (putEntry p))
    /\ (forall p q, p ∈ first -> q ∈ first ->
          putID p ∈ evicted -> putID q ∉ evicted -> putStamp p <= putStamp q).
Proof.
intros Hs Hc Hlen Hnd Hwf Hfresh.
  rewrite fmap_app in Hnd. apply NoDup_app in Hnd as (Hnd & Hlast & _).
  apply Forall_app in Hwf as [Hwf Hwl]. rewrite Forall_singleton in Hwl.
  set (B := list_to_map (putKV <$> reverse first) : thinkingSessionCache).
  assert (Hkeys : NoDup (putKV <$> reverse first).*1).
  { rewrite putKV_keys, reverse_Permutation. exact Hnd. }
  assert (HB : sessionEntries sessionID (runPuts sessionID first c) = B).
  { apply runPuts_fill; try assumption. lia. }
  assert (HBin : forall p, p ∈ first -> B !! putID p = Some (putEntry p)).
  { intros p Hp. apply elem_of_list_to_map_1; [exact Hkeys|].
    apply list_elem_of_fmap. exists p. split; [reflexivity|].
    apply elem_of_reverse. exact Hp. }
  assert (HBout : forall k e, B !! k = Some e ->
            exists p, p ∈ first /\ k = putID p /\ e = putEntry p).
  { intros k e Hk. apply elem_of_list_to_map_2 in Hk.
    apply list_elem_of_fmap in Hk as (p & Heq & Hp).
    rewrite elem_of_reverse in Hp. exists p.
    unfold putKV in Heq. injection Heq as -> ->.
    split; [exact Hp | split; reflexivity]. }
  assert (HBsize : size B = 100%nat).
  { unfold B. rewrite map_size_list_to_map by exact Hkeys.
    rewrite length_fmap, length_reverse. exact Hlen. }
  assert (HBlast : B !! putID last = None).
  { destruct (B !! putID last) as [e|] eqn:Hl; [|reflexivity].
    destruct (HBout _ _ Hl) as (p & Hp & Hid & _).
    exfalso. apply (Hlast (putID last)).
    - rewrite Hid. apply list_elem_of_fmap. eauto.
    - apply list_elem_of_singleton. reflexivity. }
  assert (Hrun : sessionEntries sessionID (runPuts sessionID (first ++ [last]) c)
                 = <[putID last := putEntry last]> (evictOldest B)).
  { unfold runPuts. rewrite foldl_snoc. fold (runPuts sessionID first c).
    rewrite runPut_session by assumption. rewrite HB.
    rewrite makeRoom_full; [reflexivity | exact HBsize |].
    intros k e Hk. destruct (HBout _ _ Hk) as (p & Hp & _ & ->).
    simpl. apply Hfresh, Hp. }
  destruct (evictOldest_full B HBsize) as (removed & kept & Hperm & Hrlen & Hev & Hsorted).
  assert (Hall : NoDup (removed.*1 ++ kept.*1)).
  { rewrite <- fmap_app, Hperm, <- list_fmap_compose.
    apply (NoDup_fst_map_to_list B). }
  apply NoDup_app in Hall as (Hrnd & Hdisj & _).
  assert (Hrem : forall o, o ∈ removed -> exists e, B !! o.1 = Some e /\ o.2 = Timestamp e).
  { intros o Ho. apply elem_of_keyTsOf. rewrite <- Hperm.
    apply elem_of_app. auto. }
  rewrite Hrun, Hev.
  exists (removed.*1). split; [exact Hrnd|]. split; [rewrite length_fmap; exact Hrlen|].
  split; [|split; [|split; [|split]]].
  - intros k Hk. apply list_elem_of_fmap in Hk as (o & -> & Ho).
    destruct (Hrem o Ho) as (e & He & _).
    destruct (HBout _ _ He) as (p & Hp & -> & _).
    apply list_elem_of_fmap. eauto.
  - rewrite map_size_insert_None.
    + pose proof (size_foldl_delete removed B Hrnd) as Hsz.
      rewrite HBsize, Hrlen in Hsz.
      enough (size (foldl (fun m (o : keyTs) => delete o.1 m) B removed) + 25 = 100)%nat by lia.
      apply Hsz. intros k Hk. apply list_elem_of_fmap in Hk as (o & -> & Ho).
      destruct (Hrem o Ho) as (e & He & _). eauto.
    + rewrite lookup_foldl_delete. destruct (decide _); [reflexivity | exact HBlast].
  - apply lookup_insert_eq.
  - intros p Hp. rewrite lookup_insert_ne.
    + rewrite lookup_foldl_delete. destruct (decide _); [reflexivity | apply HBin, Hp].
    + intros Heq. apply (Hlast (putID last)).
      * rewrite Heq. apply list_elem_of_fmap. eauto.
      * apply list_elem_of_singleton. reflexivity.
  - intros p q Hp Hq Hpe Hqe.
    apply list_elem_of_fmap in Hpe as (a & Ha1 & Ha).
    destruct (Hrem a Ha) as (e & He & Hts).
    rewrite <- Ha1, (HBin p Hp) in He. injection He as <-.
    assert (Hb : (putID q, putStamp q) ∈ kept).
    { assert (Hin : (putID q, putStamp q) ∈ removed ++ kept).
      { rewrite Hperm. apply elem_of_keyTsOf. exists (putEntry q).
        split; [apply HBin, Hq | reflexivity]. }
      apply elem_of_app in Hin as [Hin|Hin]; [|exact Hin].
      exfalso. apply Hqe. apply list_elem_of_fmap.
      exists (putID q, putStamp q). auto. }
    pose proof (Hsorted _ _ Ha Hb) as Hle. rewrite Hts in Hle. exact Hle.
Qed.


End WithOrderSpec.

Import Samples.

Lemma sampleOrder_spec : GoOrderSpec sampleOrder.
Proof.
  split.
  - intros m. reflexivity.
  - intros less l. apply merge_sort_Permutation.
  - intros l. simpl.
    assert (Htrans : Transitive (fun a b : keyTs => lessTs b a = false)).
    { intros a b d Hab Hbd. unfold lessTs, Before in *.
      destruct (Z.ltb_spec b.2 a.2); [discriminate|].
      destruct (Z.ltb_spec d.2 b.2); [discriminate|].
      destruct (Z.ltb_spec d.2 a.2); [lia | reflexivity]. }
    assert (Htotal : Total (fun a b : keyTs => lessTs b a = false)).
    { intros a b. unfold lessTs, Before.
      destruct (Z.ltb_spec b.2 a.2); [|auto].
      destruct (Z.ltb_spec a.2 b.2); [lia | auto]. }
    apply (StronglySorted_merge_sort (fun a b : keyTs => lessTs b a = false)).
Qed.


Lemma C3_thinking_round_trip_witness :
  let c' := CacheThinking (ord := sampleOrder) 5 7 "session" "a1b2" "Because" sig64 ∅ in
  GetCachedThinking (7 + Hour) "session" "a1b2" c'
  = (Some (mkThinkingEntry "Because" sig64 7), c')
  /\ (GetCachedThinking (7 + 3 * Hour) "session" "a1b2" c').1 = None.
Proof.
  intros c'.
  destruct (C3_thinking_round_trip (ord := sampleOrder) 5 7
              "session" "a1b2" "Because" sig64 ∅) as [Hfresh Hold];
    [discriminate | discriminate | discriminate |].
  split.
  - apply Hfresh. reflexivity.
  - apply Hold. reflexivity.
Defined.

(** C5 as stated fails for the fourth argument: with an empty signature
    and the other three arguments non-empty, the put stores an entry. *)
Lemma C5_counterexample :
  CacheThinking (ord := sampleOrder) 0 0 "session" "a1b2" "Because" "" ∅ <> ∅.
Proof.
  intros Heq.
  apply (f_equal (fun c => c !! "session")) in Heq.
  rewrite (CacheThinking_session (ord := sampleOrder)) in Heq by discriminate.
  rewrite lookup_empty in Heq. discriminate Heq.
Qed.

Lemma C5_put_guard_noop_witness :
  CacheThinking (ord := sampleOrder) 0 0 "session" "" "Because" sig64
    {[ "session" := {[ "a1b2" := mkThinkingEntry "Because" sig64 0 ]} ]}
  = {[ "session" := {[ "a1b2" := mkThinkingEntry "Because" sig64 0 ]} ]}.
Proof.
  apply (C5_put_guard_noop (ord := sampleOrder)). right. left. reflexivity.
Defined.

Lemma sample_ids_distinct : NoDup (putID <$> sampleFirst ++ [sampleLast]).
Proof. apply (bool_decide_unpack _). vm_compute. reflexivity. Qed.

Lemma sample_puts_wellFormed : Forall wellFormed (sampleFirst ++ [sampleLast]).
Proof.
  apply Forall_forall. intros p Hp.
  apply elem_of_app in Hp as [Hp|Hp].
  - apply list_elem_of_fmap in Hp as (n & -> & _). split; discriminate.
  - apply list_elem_of_singleton in Hp as ->. split; discriminate.
Qed.

Lemma sample_puts_fresh (p : put) :
  p ∈ sampleFirst -> putNow sampleLast - putStamp p <= 2 * Hour.
Proof.
  intros Hp. apply list_elem_of_fmap in Hp as (n & -> & Hn).
  apply elem_of_seq in Hn. simpl. unfold Hour, Minute, Second. lia.
Qed.

Lemma C4_eviction_quarter_witness :
  exists evicted : list string,
    NoDup evicted /\ length evicted = 25%nat /\ evicted ⊆ putID <$> sampleFirst
    /\ size (sessionEntries "session"
               (runPuts (ord := sampleOrder) "session" (sampleFirst ++ [sampleLast]) ∅))
       = 76%nat
    /\ sessionEntries "session"
         (runPuts (ord := sampleOrder) "session" (sampleFirst ++ [sampleLast]) ∅)
         !! putID sampleLast = Some (putEntry sampleLast)
    /\ (forall p, p ∈ sampleFirst ->
          sessionEntries "session"
            (runPuts (ord := sampleOrder) "session" (sampleFirst ++ [sampleLast]) ∅)
            !! putID p
          = if decide (putID p ∈ evicted) then None else Some (putEntry p))
    /\ (forall p q, p ∈ sampleFirst -> q ∈ sampleFirst ->
          putID p ∈ evicted -> putID q ∉ evicted -> putStamp p <= putStamp q).
Proof.
  apply (C4_eviction_quarter (spec := sampleOrder_spec) "session" sampleFirst sampleLast ∅).
  - discriminate.
  - reflexivity.
  - reflexivity.
  - exact sample_ids_distinct.
  - exact sample_puts_wellFormed.
  - exact sample_puts_fresh.
Defined.

(** C4 as stated fails: on 101 puts "000" .. "100" at clock readings
    0 .. 100, the ids of the first 100 that the session no longer holds
    are 25 in number, not 26. *)
Lemma C4_counterexample :
  length (missingIDs "session" (putID <$> sampleFirst)
            (runPuts (ord := sampleOrder) "session" (sampleFirst ++ [sampleLast]) ∅))
  <> 26%nat.
Proof. vm_compute. lia. Qed.

(** On that run the evicted entries are the 25 first ones. *)
Example sample_run_missing :
  missingIDs "session" (putID <$> sampleFirst)
    (runPuts (ord := sampleOrder) "session" (sampleFirst ++ [sampleLast]) ∅)
  = sampleID <$> seq 0 25.
Proof. vm_compute. reflexivity. Qed.

End ThinkingCacheFacts.

(** ** Rate-limit store and header parser *)

Module UsageFacts.
Import GoTime GoStrings GoHTTP GoTimeFacts Usage.
Local Open Scope list_scope.

Lemma take_S_insert (l : RateLimitStore) (n : nat) (r : RateLimitRecord) :
  (n < length l)%nat -> take (S n) (<[n := r]> l) = take n l ++ [r].
Proof.
  revert n. induction l as [|x l IH]; intros n Hn; simpl in Hn; [lia|].
  destruct n as [|n]; simpl; [reflexivity|].
  f_equal. apply IH. lia.
Qed.

(** The in-place loop keeps, in order, the records newer than the
    cutoff. *)
Lemma cleanupLoop_spec (cutoff : Time) (steps i n : nat) (records : RateLimitStore) :
  (n <= i)%nat ->
  take (cleanupLoop cutoff steps i n records).2 (cleanupLoop cutoff steps i n records).1
  = take n records ++ filter (keep cutoff) (take steps (drop i records)).
Proof.
  revert i n records. induction steps as [|steps IH]; intros i n records Hni; simpl.
  - rewrite app_nil_r. reflexivity.
  - destruct (records !! i) as [r|] eqn:Hi.
    + assert (Hlt : (i < length records)%nat) by (eapply lookup_lt_Some; eassumption).
      rewrite (drop_S _ _ _ Hi). simpl.
      destruct (After (Timestamp r) cutoff) eqn:Hr.
      * rewrite IH by lia. rewrite take_S_insert by lia.
        rewrite drop_insert_lt by lia.
        rewrite filter_cons_True by exact Hr.
        rewrite <- app_assoc. reflexivity.
      * rewrite IH by lia.
        rewrite filter_cons_False; [reflexivity|].
        unfold keep. rewrite Hr. discriminate.
    + simpl. rewrite drop_ge by (apply lookup_ge_None; exact Hi).
      rewrite take_nil, filter_nil, app_nil_r. reflexivity.
Qed.

Lemma cleanupLocked_filter (now : Time) (records : RateLimitStore) :
  cleanupLocked now records = filter (keep (Add now (- maxRecordAge))) records.
Proof.
  unfold cleanupLocked.
  pose proof (cleanupLoop_spec (Add now (- maxRecordAge)) (length records) 0 0 records
                (Nat.le_refl 0)) as Hspec.
  destruct (cleanupLoop _ _ _ _ _) as [records' n]. simpl in Hspec.
  rewrite Hspec, drop_0, firstn_all. reflexivity.
Qed.

Lemma filter_none {A} (P : A -> Prop) `{forall x, Decision (P x)} (l : list A) :
  Forall (fun x => ~ P x) l -> filter P l = [].
Proof.
  induction 1 as [|x l Hx _ IH]; [reflexivity|].
  rewrite filter_cons_False by exact Hx. exact IH.
Qed.

Lemma filter_all {A} (P : A -> Prop) `{forall x, Decision (P x)} (l : list A) :
  Forall P l -> filter P l = l.
Proof.
  induction 1 as [|x l Hx _ IH]; [reflexivity|].
  rewrite filter_cons_True by exact Hx. rewrite IH. reflexivity.
Qed.

Lemma runAppend_admitted (records : RateLimitStore) (a : append) :
  admitted a ->
  runAppend (Some records) a
  = Some (if (length (records ++ [appendRecord a]) mod 100 =? 0)%nat
          then cleanupLocked (appendNow a) (records ++ [appendRecord a])
          else records ++ [appendRecord a]).
Proof.
  intros [Hne Hts]. unfold runAppend, Record_. rewrite Hne.
  unfold IsZero. destruct (Z.eqb_spec (Timestamp (appendRecord a)) 0); [contradiction|].
  reflexivity.
Qed.

(** Below 100 records nothing is swept. *)
Lemma runAppends_below (l : list append) (records : RateLimitStore) :
  Forall admitted l -> (length records + length l < 100)%nat ->
  runAppends l (Some records) = Some (records ++ (appendRecord <$> l)).
Proof.
  revert records. induction l as [|a l IH]; intros records Hall Hlen; simpl.
  - rewrite app_nil_r. reflexivity.
  - apply Forall_cons in Hall as [Ha Hall]. simpl in Hlen.
    unfold runAppends. simpl. rewrite runAppend_admitted by exact Ha.
    rewrite length_app. change (length [appendRecord a]) with 1%nat.
    rewrite Nat.mod_small by lia.
    destruct (Nat.eqb_spec (length records + 1) 0); [lia|].
    fold (runAppends l (Some (records ++ [appendRecord a]))).
    rewrite IH; [| exact Hall | rewrite length_app; simpl; lia].
    rewrite <- app_assoc. reflexivity.
Qed.

Lemma Latest_snoc (records : RateLimitStore) (r : RateLimitRecord) :
  Latest (Some (records ++ [r])) = Some r.
Proof.
  unfold Latest. rewrite length_app. simpl.
  destruct (Nat.eqb_spec (length records + 1) 0); [lia|].
  replace (length records + 1 - 1)%nat with (length records) by lia.
  apply list_lookup_middle. reflexivity.
Qed.

(** C7: 100 non-empty records are appended to an empty store, the
    first 50 with a timestamp 8 days before [now] and the last 50 with
    the timestamp [now] (both set, that is, not the zero instant), and
    the 100th append reads the clock at [now] or later but less than 7
    days later.  Then the store holds exactly the last 50 records and
    [Latest] returns the 100th. *)
Theorem C7_retention_sweep (now : Time) (old recent : list append) (last : append) :
  length old = 50%nat -> length recent = 49%nat ->
  now <> 0 -> now - 8 * Day <> 0 ->
  Forall (fun a => IsEmpty (appendRecord a) = false
                   /\ Timestamp (appendRecord a) = now - 8 * Day) old ->
  Forall (fun a => IsEmpty (appendRecord a) = false
                   /\ Timestamp (appendRecord a) = now) (recent ++ [last]) ->
  now <= appendNow last < now + 7 * Day ->
  runAppends (old ++ recent ++ [last]) (Some NewRateLimitStore)
  = Some (appendRecord <$> recent ++ [last])
  /\ length (appendRecord <$> recent ++ [last]) = 50%nat
  /\ Latest (runAppends (old ++ recent ++ [last]) (Some NewRateLimitStore))
     = Some (appendRecord last).
Proof.
  intros Hlo Hlr Hnow Hpast Hold Hrecent Hsweep.
  assert (Hrun : runAppends (old ++ recent ++ [last]) (Some NewRateLimitStore)
                 = Some (appendRecord <$> recent ++ [last])).
  { apply Forall_app in Hrecent as [Hrec Hlast]. rewrite Forall_singleton in Hlast.
    rewrite app_assoc. unfold runAppends. rewrite foldl_snoc.
    fold (runAppends (old ++ recent) (Some NewRateLimitStore)).
    rewrite runAppends_below.
    - unfold NewRateLimitStore. rewrite app_nil_l.
      rewrite runAppend_admitted by (destruct Hlast as [? Hts]; split; [assumption | rewrite Hts; exact Hnow]).
      rewrite length_app, length_fmap, length_app, Hlo, Hlr.
      change (((50 + 49 + length [appendRecord last]) mod 100 =? 0)%nat) with true.
      cbv iota.
      rewrite cleanupLocked_filter, fmap_app, !filter_app.
      rewrite filter_none, filter_all, filter_all.
      + rewrite fmap_app. reflexivity.
      + apply Forall_singleton. unfold keep, After, Add, maxRecordAge.
        destruct Hlast as [_ ->]. apply Z.ltb_lt. unfold Day in *. lia.
      + apply Forall_fmap. eapply Forall_impl; [exact Hrec|].
        intros a [_ Hts]. simpl. unfold keep, After, Add, maxRecordAge.
        rewrite Hts. apply Z.ltb_lt. unfold Day in *. lia.
      + apply Forall_fmap. eapply Forall_impl; [exact Hold|].
        intros a [_ Hts]. simpl. unfold keep, After, Add, maxRecordAge.
        rewrite Hts. intros Hlt%Z.ltb_lt. unfold Day in *. lia.
    - apply Forall_app. split.
      + eapply Forall_impl; [exact Hold|]. intros a [? Hts]. split; [assumption|].
        rewrite Hts. exact Hpast.
      + eapply Forall_impl; [exact Hrec|]. intros a [? Hts]. split; [assumption|].
        rewrite Hts. exact Hnow.
    - unfold NewRateLimitStore. rewrite length_app, Hlo, Hlr. simpl. lia. }
  split; [exact Hrun|]. split.
  - rewrite length_fmap, length_app, Hlr. reflexivity.
  - rewrite Hrun, fmap_app. apply Latest_snoc.
Qed.

Section WithLibrary.
Context {lib : GoLibrary}.

Lemma unifiedLoop_found (headers : Header)
    (steps : list (string * (string -> UnifiedFields -> UnifiedFields)))
    (u : UnifiedFields) (b : bool) :
  (unifiedLoop headers (u, b) steps).2
  = b || existsb (fun step => negb (Get headers step.1 =? "")%string) steps.
Proof.
  unfold unifiedLoop.
  revert u b. induction steps as [|step steps IH]; intros u b; simpl.
  - rewrite orb_false_r. reflexivity.
  - unfold onHeader at 2. simpl.
    destruct (negb (Get headers step.1 =? "")%string); simpl; rewrite IH;
      destruct b; reflexivity.
Qed.

Lemma unifiedLoop_none (headers : Header)
    (steps : list (string * (string -> UnifiedFields -> UnifiedFields)))
    (st : UnifiedFields * bool) :
  Forall (fun step => Get headers step.1 = "") steps ->
  unifiedLoop headers st steps = st.
Proof.
  unfold unifiedLoop.
  revert st. induction steps as [|step steps IH]; intros st Hall; simpl.
  - reflexivity.
  - apply Forall_cons in Hall as [Hstep Hall].
    unfold onHeader at 2. rewrite Hstep. simpl. apply IH, Hall.
Qed.

Lemma existsb_fst {A B} (f : A -> bool) (l : list (A * B)) :
  existsb f (fst <$> l) = existsb (fun x => f x.1) l.
Proof.
  induction l as [|x l IH]; [reflexivity|].
  rewrite fmap_cons. simpl. rewrite IH. reflexivity.
Qed.

(** [parseUnifiedHeaders] reports a header exactly when one of its
    thirteen names has a non-empty value, and never touches the
    standard fields, the type or the timestamp. *)
Lemma parseUnifiedHeaders_found (headers : Header) (r : RateLimitRecord) :
  (parseUnifiedHeaders headers r).2
  = existsb (fun name => negb (Get headers name =? "")%string) unifiedHeaderNames.
Proof.
  unfold parseUnifiedHeaders, unifiedHeaderNames.
  rewrite existsb_fst.
  change (existsb _ unifiedSteps)
    with (false || existsb (fun step => negb (Get headers step.1 =? "")%string) unifiedSteps).
  rewrite <- (unifiedLoop_found headers unifiedSteps (unified r) false).
  destruct (unifiedLoop headers (unified r, false) unifiedSteps) as [u found].
  reflexivity.
Qed.

Lemma parseUnifiedHeaders_frame (headers : Header) (r : RateLimitRecord) :
  standard (parseUnifiedHeaders headers r).1 = standard r
  /\ Type_ (parseUnifiedHeaders headers r).1 = Type_ r
  /\ Timestamp (parseUnifiedHeaders headers r).1 = Timestamp r.
Proof.
  unfold parseUnifiedHeaders.
  destruct (unifiedLoop headers (unified r, false) unifiedSteps) as [u found].
  simpl. auto.
Qed.

Lemma parseUnifiedHeaders_none (headers : Header) (r : RateLimitRecord) :
  (forall name, name ∈ unifiedHeaderNames -> Get headers name = "") ->
  parseUnifiedHeaders headers r = (setUnified (unified r) r, false).
Proof.
  intros Hnone. unfold parseUnifiedHeaders.
  rewrite unifiedLoop_none; [reflexivity|].
  apply Forall_forall. intros step Hstep. apply Hnone.
  unfold unifiedHeaderNames. apply list_elem_of_fmap. eauto.
Qed.

(** A header that is absent from the map reads as the empty string. *)
Lemma Get_absent (headers : Header) (name : string) :
  headerPresent headers name = false -> Get headers name = "".
Proof.
  unfold headerPresent, Get. intros Habs.
  destruct (headers !! CanonicalMIMEHeaderKey name) as [vs|] eqn:Hk; [|reflexivity].
  apply bool_decide_eq_false in Habs. exfalso. apply Habs. eauto.
Qed.

(** C2, as the code has it: if one of the thirteen unified headers
    the parser reads has a non-empty value, the record's type is
    "unified" and the twelve standard fields are zero; if none has
    and the parsed record is not empty, the type is "standard" and
    all unified fields are zero. *)
Theorem C2_dialect_exclusive (now : Time) (headers : Header) :
  ((exists name, name ∈ unifiedHeaderNames /\ Get headers name <> "") ->
     Type_ (ParseRateLimitHeaders now headers) = "unified"
     /\ standard (ParseRateLimitHeaders now headers) = zeroStandard)
  /\ ((forall name, name ∈ unifiedHeaderNames -> Get headers name = "") ->
      IsEmpty (ParseRateLimitHeaders now headers) = false ->
        Type_ (ParseRateLimitHeaders now headers) = "standard"
        /\ unified (ParseRateLimitHeaders now headers) = zeroUnified).
Proof.
  split.
  - intros (name & Hin & Hval). unfold ParseRateLimitHeaders.
    set (r0 := mkRecord now "" "" "" zeroUnified zeroStandard).
    pose proof (parseUnifiedHeaders_found headers r0) as Hfound.
    pose proof (parseUnifiedHeaders_frame headers r0) as (Hstd & _ & _).
    destruct (parseUnifiedHeaders headers r0) as [r found]. cbn [fst snd] in *.
    assert (found = true) as ->.
    { rewrite Hfound. apply existsb_exists. exists name. split.
      - apply list_elem_of_In. exact Hin.
      - destruct (String.eqb_spec (Get headers name) ""); [contradiction | reflexivity]. }
    simpl. split; [reflexivity | exact Hstd].
  - intros Hnone. unfold ParseRateLimitHeaders.
    rewrite parseUnifiedHeaders_none by exact Hnone. simpl.
    destruct (IsEmpty (parseStandardHeaders headers _)) eqn:He; simpl.
    + rewrite He. discriminate.
    + intros _. split; reflexivity.
Qed.
End WithLibrary.


Import Samples.

(** C2 as stated fails where a unified header is present with an empty
    value, and where a header of the family [Anthropic-Ratelimit-Unified-*]
    is not one the parser reads: the type stays empty. *)
Lemma C2_counterexample :
  (headerPresent emptyValueHeaders "Anthropic-Ratelimit-Unified-Status" = true
   /\ Type_ (ParseRateLimitHeaders (lib := sampleLibrary) 0 emptyValueHeaders) <> "unified")
  /\ (isUnifiedFamilyKey "Anthropic-Ratelimit-Unified-Window" = true
      /\ headerPresent unknownUnifiedHeaders "Anthropic-Ratelimit-Unified-Window" = true
      /\ Type_ (ParseRateLimitHeaders (lib := sampleLibrary) 0 unknownUnifiedHeaders) <> "unified").
Proof.
  repeat split; try (vm_compute; reflexivity); vm_compute; discriminate.
Qed.

Lemma C2_dialect_exclusive_witness :
  (Type_ (ParseRateLimitHeaders (lib := sampleLibrary) 0 unifiedHeaders) = "unified"
   /\ standard (ParseRateLimitHeaders (lib := sampleLibrary) 0 unifiedHeaders) = zeroStandard)
  /\ (Type_ (ParseRateLimitHeaders (lib := sampleLibrary) 0 standardHeaders) = "standard"
      /\ unified (ParseRateLimitHeaders (lib := sampleLibrary) 0 standardHeaders) = zeroUnified).
Proof.
  split.
  - apply (C2_dialect_exclusive (lib := sampleLibrary) 0 unifiedHeaders).
    exists "Anthropic-Ratelimit-Unified-5h-Status". split.
    + apply (bool_decide_unpack _). vm_compute. reflexivity.
    + vm_compute. discriminate.
  - apply (C2_dialect_exclusive (lib := sampleLibrary) 0 standardHeaders).
    + intros name Hin. 
      repeat (apply elem_of_cons in Hin as [->|Hin]; [vm_compute; reflexivity|]).
      apply elem_of_nil in Hin. contradiction.
    + vm_compute. reflexivity.
Defined.

Lemma C7_retention_sweep_witness :
  runAppends (sampleOld ++ sampleRecent ++ [sampleAppend sampleNow])
    (Some NewRateLimitStore)
  = Some (appendRecord <$> sampleRecent ++ [sampleAppend sampleNow])
  /\ length (appendRecord <$> sampleRecent ++ [sampleAppend sampleNow]) = 50%nat
  /\ Latest (runAppends (sampleOld ++ sampleRecent ++ [sampleAppend sampleNow])
               (Some NewRateLimitStore))
     = Some (sampleRecord sampleNow).
Proof.
  apply (C7_retention_sweep sampleNow sampleOld sampleRecent (sampleAppend sampleNow)).
  - reflexivity.
  - reflexivity.
  - discriminate.
  - discriminate.
  - apply Forall_forall. intros a Ha.
    apply elem_of_replicate in Ha as [-> _]. split; reflexivity.
  - apply Forall_forall. intros a Ha.
    apply elem_of_app in Ha as [Ha|Ha].
    + apply elem_of_replicate in Ha as [-> _]. split; reflexivity.
    + apply list_elem_of_singleton in Ha as ->. split; reflexivity.
  - simpl. unfold sampleNow, Day, Hour, Minute, Second. lia.
Defined.

End UsageFacts.

(** ** Request translator *)

Module TranslatorFacts.
Import GoTime GoStrings GoTimeFacts Regexp ThinkingCache ThinkingCacheFacts.
Import JSON Translator Samples.

(** The capture of the leftmost marker is never empty. *)
Lemma thinkId_capture_nonempty (text hex : string) :
  FindStringSubmatch thinkIdRegex text = Some hex -> hex <> "".
Proof.
  induction text as [|ch text IH]; simpl.
  - discriminate.
  - destruct (thinkIdRegex (String ch text)) as [[cap n]|] eqn:Hm.
    + intros [= <-]. unfold thinkIdRegex in Hm.
      destruct (String.prefix thinkIdOpen (String ch text)); [|discriminate].
      destruct (String.eqb_spec
                  (hexRun (dropBytes (String.length thinkIdOpen) (String ch text))) "")
        as [|Hne]; [discriminate|].
      destruct (String.prefix fence _); [|discriminate].
      injection Hm as <- _. exact Hne.
    + exact IH.
Qed.

(** C1, as the code has it: when the first (leftmost) thinkId marker of
    the text names an id under which the session (its id not empty)
    holds an entry that has not expired and whose signature is valid,
    the content starts with a thinking part carrying exactly the cached
    text and signature, followed by a text part with the input text
    stripped of every think block and every marker and trimmed; the
    text part is left out when that remainder is empty.  The cache is
    not changed. *)
Theorem C1_restore_first_marker (modelName : string) (now : Time)
    (sessionID text thinkingID : string) (c : thinkingCacheT)
    (sc : thinkingSessionCache) (e : ThinkingEntry) :
  FindStringSubmatch thinkIdRegex text = Some thinkingID ->
  sessionID <> "" ->
  c !! sessionID = Some sc -> sc !! thinkingID = Some e ->
  now - Timestamp e <= 2 * Hour ->
  Cache.HasValidSignature modelName (Signature e) = true ->
  extractThinkingFromContent modelName now sessionID text c
  = (ThinkingPart (ThinkingText e) (Signature e)
       :: (if (restoredRemainder text =? "")%string then []
           else [TextPart (restoredRemainder text)]),
     c).
Proof.
  intros Hfind Hs Hc He Hage Hvalid. unfold extractThinkingFromContent.
  rewrite Hfind.
  rewrite (GetCachedThinking_fresh now sessionID thinkingID c sc e Hs
             (thinkId_capture_nonempty _ _ Hfind) Hc He Hage).
  rewrite Hvalid. unfold textPart.
  destruct (restoredRemainder text =? "")%string; reflexivity.
Qed.

Lemma C1_restore_first_marker_witness :
  extractThinkingFromContent "claude-opus" (1000 + Hour) "session" markedText sampleCache
  = ([ThinkingPart "Because addition" sig64; TextPart "The answer is 4."], sampleCache).
Proof.
  apply (C1_restore_first_marker "claude-opus" (1000 + Hour) "session" markedText
           "a1b2c3" sampleCache {[ "a1b2c3" := sampleEntry ]} sampleEntry).
  - reflexivity.
  - discriminate.
  - reflexivity.
  - reflexivity.
  - unfold sampleEntry, Hour, Minute, Second. simpl. lia.
  - reflexivity.
Defined.

(** C1 as stated fails when the marker whose id the cache holds is not
    the first one in the text: the text contains the marker of a fresh
    entry with a valid signature, and no thinking part is emitted. *)
Lemma C1_counterexample :
  matchesWith thinkIdRegex "a1b2c3" twoMarkerText = true
  /\ sampleCache !! "session" ≫= (fun sc => sc !! "a1b2c3") = Some sampleEntry
  /\ (1000 + Hour) - Timestamp sampleEntry <= 2 * Hour
  /\ Cache.HasValidSignature "claude-opus" (Signature sampleEntry) = true
  /\ (extractThinkingFromContent "claude-opus" (1000 + Hour) "session"
        twoMarkerText sampleCache).1
     = [TextPart "The answer is 4."].
Proof.
  split; [vm_compute; reflexivity|].
  split; [vm_compute; reflexivity|].
  split; [vm_compute; discriminate|].
  split; vm_compute; reflexivity.
Qed.

(** The legacy pair of the third scenario. *)
Example legacy_format :
  extractLegacy ("```plaintext:Thinking" ++ newline ++ "step by step\`\`\`x\`\`\`"
                   ++ newline ++ "```" ++ "```plaintext:Signature:SIG```" ++ " rest")
  = [ThinkingPart ("step by step```x```" ++ newline) "SIG"; TextPart "rest"].
Proof. vm_compute. reflexivity. Qed.

Section Tools.
Context {jt : JSONText}.

Lemma lookupField_deleteField (key : string) (fields : list (string * json)) :
  lookupField key fields = None -> deleteField key fields = fields.
Proof.
  induction fields as [|[k v] fields IH]; simpl; [reflexivity|].
  destruct (k =? key)%string; [discriminate|].
  intros Hnone. rewrite IH by exact Hnone. reflexivity.
Qed.

Lemma lookupField_setField_ne (key key' : string) (v : json)
    (fields : list (string * json)) :
  key <> key' ->
  lookupField key' (setField key v fields) = lookupField key' fields.
Proof.
  intros Hne. induction fields as [|[k v'] fields IH]; simpl.
  - destruct (String.eqb_spec key key'); [contradiction | reflexivity].
  - destruct (String.eqb_spec k key) as [->|Hk]; simpl.
    + destruct (String.eqb_spec key key'); [contradiction | reflexivity].
    + destruct (k =? key')%string; [reflexivity | exact IH].
Qed.

(** Nothing in the tools block or after it writes a member "tools":
    when the document has none before the block, the returned
    document has none, whatever the request's [tools] array holds. *)
Lemma finishRequest_no_tools (root : json) (fields : list (string * json)) :
  lookupField "tools" fields = None ->
  Get (Some (finishRequest root (JObject fields))) "tools" = None.
Proof.
  intros Hnone. unfold finishRequest.
  assert (Hstage : (toolsStage root (JObject fields)).1 = JObject fields).
  { unfold toolsStage.
    destruct (Exists _ && IsArray _ && _); [|reflexivity].
    simpl. rewrite lookupField_deleteField by exact Hnone. reflexivity. }
  rewrite Hstage. unfold toolChoiceStage.
  destruct (Get (Some root) "tool_choice") as [[| | |choice| |]|]; try exact Hnone.
  - destruct (choice =? "auto")%string;
      [simpl; rewrite lookupField_setField_ne by discriminate; exact Hnone|].
    destruct (choice =? "required")%string;
      [simpl; rewrite lookupField_setField_ne by discriminate; exact Hnone|].
    exact Hnone.
  - destruct (String_ _ =? "function")%string; [|exact Hnone].
    simpl. rewrite lookupField_setField_ne by discriminate. exact Hnone.
Qed.

(** C8 on the code: for a request with one tool of type "function",
    the tools block builds the declaration (name, description,
    input_schema) in [anthropicTools], but the document it leaves is
    the one it was given, and the returned request has no member
    "tools". *)
Theorem C8_function_tool_dropped (userID : string) :
  toolsStage weatherRequest (baseTemplate userID)
  = (baseTemplate userID, [weatherDeclaration])
  /\ Get (Some (finishRequest weatherRequest (baseTemplate userID))) "tools" = None.
Proof. split; reflexivity. Qed.

End Tools.

End TranslatorFacts.

(** * Further properties *)

Module CacheMoreFacts.
Import GoTime GoStrings GoTimeFacts Cache CacheFacts CacheOps Samples.

(** X7: the group of a group key is the key itself, so a group key can
    be passed wherever a model name is expected and names the same
    bucket. *)
Theorem GetModelGroup_idempotent (modelName : string) :
  GetModelGroup (GetModelGroup modelName) = GetModelGroup modelName.
Proof.
  unfold GetModelGroup at 2 3.
  destruct (Contains modelName "gpt") eqn:Hgpt; [reflexivity|].
  destruct (Contains modelName "claude") eqn:Hcl; [reflexivity|].
  destruct (Contains modelName "gemini") eqn:Hge; [reflexivity|].
  unfold GetModelGroup. rewrite Hgpt, Hcl, Hge. reflexivity.
Qed.

Section WithLibrary.
Context {lib : GoLibrary}.

Lemma CacheSignature_other_group (now : Time) (modelName text signature g : string)
    (c : signatureCacheT) :
  g <> GetModelGroup modelName ->
  CacheSignature now modelName text signature c !! g = c !! g.
Proof.
  intros Hg. unfold CacheSignature.
  destruct ((text =? "")%string || (signature =? "")%string); [reflexivity|].
  destruct (len signature <? MinValidSignatureLen)%nat; [reflexivity|].
  unfold getOrCreateGroupCache.
  destruct (c !! GetModelGroup modelName) as [sc|].
  - rewrite lookup_insert_ne by congruence. reflexivity.
  - rewrite !lookup_insert_ne by congruence. reflexivity.
Qed.

Lemma CacheSignature_same_group (now : Time) (modelName text signature : string)
    (c : signatureCacheT) :
  text <> "" -> (MinValidSignatureLen <= len signature)%nat ->
  CacheSignature now modelName text signature c !! GetModelGroup modelName
  = Some (<[hashText text := mkSignatureEntry signature now]>
            (default ∅ (c !! GetModelGroup modelName))).
Proof.
  intros Ht Hlen. unfold CacheSignature.
  destruct (String.eqb_spec text ""); [contradiction|].
  destruct (String.eqb_spec signature "") as [->|_].
  { unfold MinValidSignatureLen in Hlen. simpl in Hlen. lia. }
  simpl. destruct (Nat.ltb_spec (len signature) MinValidSignatureLen); [lia|].
  unfold getOrCreateGroupCache.
  destruct (c !! GetModelGroup modelName) as [sc|]; simpl; apply lookup_insert_eq.
Qed.

Lemma CacheSignature_rejected (now : Time) (modelName text signature : string)
    (c : signatureCacheT) :
  text = "" \/ (len signature < MinValidSignatureLen)%nat ->
  CacheSignature now modelName text signature c = c.
Proof.
  intros Hbad. unfold CacheSignature.
  destruct (String.eqb_spec text "") as [|Ht]; [reflexivity|].
  destruct Hbad as [?|Hlen]; [contradiction|].
  destruct ((signature =? "")%string); [reflexivity|]. simpl.
  destruct (Nat.ltb_spec (len signature) MinValidSignatureLen); [reflexivity | lia].
Qed.

Lemma allValid_empty : allValid ∅.
Proof. intros g sc h e Hg. rewrite lookup_empty in Hg. discriminate. Qed.

Lemma allValid_CacheSignature (now : Time) (modelName text signature : string)
    (c : signatureCacheT) :
  allValid c -> allValid (CacheSignature now modelName text signature c).
Proof.
  intros Hc.
  destruct (String.eqb_spec text "") as [->|Ht].
  { rewrite CacheSignature_rejected by auto. exact Hc. }
  destruct (Nat.ltb_spec (len signature) MinValidSignatureLen) as [Hlt|Hge].
  { rewrite CacheSignature_rejected by auto. exact Hc. }
  intros g sc h e Hg He.
  destruct (decide (g = GetModelGroup modelName)) as [->|Hne].
  - rewrite CacheSignature_same_group in Hg by assumption.
    injection Hg as <-.
    destruct (decide (h = hashText text)) as [->|Hh].
    + rewrite lookup_insert_eq in He. injection He as <-. exact Hge.
    + rewrite lookup_insert_ne in He by congruence.
      destruct (c !! GetModelGroup modelName) as [sc0|] eqn:Hsc0; simpl in He.
      * eapply Hc; eassumption.
      * rewrite lookup_empty in He. discriminate.
  - rewrite CacheSignature_other_group in Hg by exact Hne.
    eapply Hc; eassumption.
Qed.

(** What a get leaves in the cache. *)
Lemma GetCachedSignature_state_lookup (now : Time) (modelName text g h : string)
    (c : signatureCacheT) (sc' : groupCache) (e' : SignatureEntry) :
  (GetCachedSignature now modelName text c).2 !! g = Some sc' ->
  sc' !! h = Some e' ->
  exists sc e, c !! g = Some sc /\ sc !! h = Some e /\ Signature e' = Signature e.
Proof.
  unfold GetCachedSignature.
  destruct (text =? "")%string; [simpl; eauto|].
  destruct (c !! GetModelGroup modelName) as [sc|] eqn:Hsc; [|simpl; eauto].
  destruct (sc !! hashText text) as [entry|] eqn:Hentry; [|simpl; eauto].
  destruct (SignatureCacheTTL <? Sub now (Timestamp entry)); simpl.
  - intros Hg Hh. destruct (decide (g = GetModelGroup modelName)) as [->|Hne].
    + rewrite lookup_insert_eq in Hg. injection Hg as <-.
      destruct (decide (h = hashText text)) as [->|Hh'].
      * rewrite lookup_delete_eq in Hh. discriminate.
      * rewrite lookup_delete_ne in Hh by congruence. eauto.
    + rewrite lookup_insert_ne in Hg by congruence. eauto.
  - intros Hg Hh. destruct (decide (g = GetModelGroup modelName)) as [->|Hne].
    + rewrite lookup_insert_eq in Hg. injection Hg as <-.
      destruct (decide (h = hashText text)) as [->|Hh'].
      * rewrite lookup_insert_eq in Hh. injection Hh as <-. simpl. eauto.
      * rewrite lookup_insert_ne in Hh by congruence. eauto.
    + rewrite lookup_insert_ne in Hg by congruence. eauto.
Qed.

Lemma allValid_GetCachedSignature (now : Time) (modelName text : string)
    (c : signatureCacheT) :
  allValid c -> allValid (GetCachedSignature now modelName text c).2.
Proof.
  intros Hc g sc' h e' Hg Hh.
  destruct (GetCachedSignature_state_lookup _ _ _ _ _ _ _ _ Hg Hh)
    as (sc & e & Hsc & He & ->).
  eapply Hc; eassumption.
Qed.

Lemma allValid_purge (now : Time) (c : signatureCacheT) :
  allValid c -> allValid (purgeExpiredCaches now c).
Proof.
  intros Hc g sc' h e' Hg Hh.
  rewrite purgeExpiredCaches_lookup in Hg.
  destruct (c !! g) as [sc|] eqn:Hsc; [|discriminate].
  destruct (decide (purgeBucket now sc = ∅)); [discriminate|].
  injection Hg as <-. rewrite purgeBucket_lookup in Hh.
  destruct (sc !! h) as [e|] eqn:He; [|discriminate].
  destruct (2 * Hour <? now - Timestamp e); [discriminate|].
  injection Hh as <-. eapply Hc; eassumption.
Qed.

Lemma allValid_Clear (modelName : string) (c : signatureCacheT) :
  allValid c -> allValid (ClearSignatureCache modelName c).
Proof.
  intros Hc. unfold ClearSignatureCache.
  destruct (modelName =? "")%string; [apply allValid_empty|].
  intros g sc h e Hg He.
  destruct (decide (g = GetModelGroup modelName)) as [->|Hne].
  - rewrite lookup_delete_eq in Hg. discriminate.
  - rewrite lookup_delete_ne in Hg by congruence. eapply Hc; eassumption.
Qed.

Lemma allValid_runSigOps (ops : list sigOp) (c : signatureCacheT) :
  allValid c -> allValid (runSigOps ops c).
Proof.
  revert c. induction ops as [|op ops IH]; intros c Hc; [exact Hc|].
  apply IH. destruct op; simpl.
  - apply allValid_CacheSignature, Hc.
  - apply allValid_GetCachedSignature, Hc.
  - apply allValid_purge, Hc.
  - apply allValid_Clear, Hc.
Qed.

(** X1: whatever sequence of puts, gets, sweeps and clears has run on an
    initially empty signature cache, a get returns either the empty
    string or a signature that [HasValidSignature] accepts for the model
    asked for. *)
Theorem get_returns_valid_or_empty (ops : list sigOp) (now : Time)
    (modelName text : string) :
  (GetCachedSignature now modelName text (runSigOps ops ∅)).1 = ""
  \/ HasValidSignature modelName
       (GetCachedSignature now modelName text (runSigOps ops ∅)).1 = true.
Proof.
  pose proof (allValid_runSigOps ops ∅ allValid_empty) as Hvalid.
  rewrite GetCachedSignature_result.
  destruct (freshEntry now modelName text (runSigOps ops ∅)) as [e|] eqn:Hf.
  - right. unfold freshEntry in Hf.
    destruct (text =? "")%string; [discriminate|].
    destruct (runSigOps ops ∅ !! GetModelGroup modelName) as [sc|] eqn:Hsc; [|discriminate].
    destruct (sc !! hashText text) as [e0|] eqn:He0; [|discriminate].
    destruct (SignatureCacheTTL <? Sub now (Timestamp e0)); [discriminate|].
    injection Hf as <-.
    pose proof (Hvalid _ _ _ _ Hsc He0) as Hlen.
    unfold HasValidSignature.
    rewrite (proj2 (Nat.leb_le _ _) Hlen).
    destruct (String.eqb_spec (Signature e0) "") as [Hemp|_]; [|reflexivity].
    rewrite Hemp in Hlen. unfold MinValidSignatureLen in Hlen. simpl in Hlen. lia.
  - unfold missValue.
    destruct (String.eqb_spec (GetModelGroup modelName) "gemini") as [Hg|_]; [|left; reflexivity].
    right. unfold HasValidSignature. rewrite Hg. reflexivity.
Qed.

(** X2: entries are keyed by the model group and the 16-character hash
    only: a signature cached under one model name and text is returned,
    within two hours, for any model name of the same group and any
    non-empty text with the same hash. *)
Theorem signature_shared_within_group (t0 t : Time)
    (m1 m2 text1 text2 signature : string) (c : signatureCacheT) :
  text1 <> "" -> text2 <> "" ->
  (MinValidSignatureLen <= len signature)%nat ->
  GetModelGroup m1 = GetModelGroup m2 ->
  hashText text1 = hashText text2 ->
  t - t0 <= 2 * Hour ->
  (GetCachedSignature t m2 text2 (CacheSignature t0 m1 text1 signature c)).1 = signature.
Proof.
  intros Ht1 Ht2 Hlen Hg Hh Hage.
  rewrite GetCachedSignature_result.
  rewrite (freshEntry_stored t m2 text2 _ (mkSignatureEntry signature t0) Ht2).
  - reflexivity.
  - unfold storedEntry. rewrite <- Hg, <- Hh.
    apply (CacheSignature_stored t0 m1 text1 signature c Ht1 Hlen).
  - simpl. exact Hage.
Qed.

(** X3: a put for a model of one group does not change what a get for a
    model of another group returns. *)
Theorem signature_groups_isolated (t0 t : Time)
    (m1 m2 text1 text2 signature : string) (c : signatureCacheT) :
  GetModelGroup m1 <> GetModelGroup m2 ->
  (GetCachedSignature t m2 text2 (CacheSignature t0 m1 text1 signature c)).1
  = (GetCachedSignature t m2 text2 c).1.
Proof.
  intros Hg. rewrite !GetCachedSignature_result.
  unfold freshEntry.
  rewrite CacheSignature_other_group by congruence. reflexivity.
Qed.

(** X4: a run of the background sweeper does not change what a later
    get returns. *)
Theorem sweeper_is_transparent (now now' : Time) (modelName text : string)
    (c : signatureCacheT) :
  now <= now' ->
  (GetCachedSignature now' modelName text (purgeExpiredCaches now c)).1
  = (GetCachedSignature now' modelName text c).1.
Proof.
  intros Hle. rewrite !GetCachedSignature_result.
  rewrite purge_keeps_fresh by exact Hle. reflexivity.
Qed.

(** X5: after a run of the sweeper no bucket is empty, no entry is older
    than two hours, every entry left was there before, and every entry
    that was not older than two hours is still there. *)
Theorem sweeper_postcondition (now : Time) (c : signatureCacheT) :
  (forall g sc, purgeExpiredCaches now c !! g = Some sc ->
     sc <> ∅
     /\ forall h e, sc !! h = Some e ->
          now - Timestamp e <= 2 * Hour
          /\ exists sc0, c !! g = Some sc0 /\ sc0 !! h = Some e)
  /\ (forall g sc0 h e, c !! g = Some sc0 -> sc0 !! h = Some e ->
        now - Timestamp e <= 2 * Hour ->
        exists sc, purgeExpiredCaches now c !! g = Some sc /\ sc !! h = Some e).
Proof.
  split.
  - intros g sc Hg. rewrite purgeExpiredCaches_lookup in Hg.
    destruct (c !! g) as [sc0|] eqn:Hsc0; [|discriminate].
    destruct (decide (purgeBucket now sc0 = ∅)) as [|Hne]; [discriminate|].
    injection Hg as <-. split; [exact Hne|].
    intros h e He. rewrite purgeBucket_lookup in He.
    destruct (sc0 !! h) as [e0|] eqn:He0; [|discriminate].
    destruct (Z.ltb_spec (2 * Hour) (now - Timestamp e0)); [discriminate|].
    injection He as <-. split; [lia | eauto].
  - intros g sc0 h e Hsc0 He Hage.
    assert (Hl : purgeBucket now sc0 !! h = Some e).
    { rewrite purgeBucket_lookup, He.
      destruct (Z.ltb_spec (2 * Hour) (now - Timestamp e)); [lia | reflexivity]. }
    exists (purgeBucket now sc0). split; [|exact Hl].
    rewrite purgeExpiredCaches_lookup, Hsc0.
    destruct (decide (purgeBucket now sc0 = ∅)) as [Hemp|]; [|reflexivity].
    rewrite Hemp, lookup_empty in Hl. discriminate.
Qed.

(** X6: after [ClearSignatureCache] with a model name, every get for a
    model of the same group misses and gets for other groups return what
    they returned before; with the empty name, every get misses. *)
Theorem clear_signature_cache (modelName : string) (now : Time)
    (modelName' text : string) (c : signatureCacheT) :
  (modelName = "" \/ GetModelGroup modelName' = GetModelGroup modelName ->
     (GetCachedSignature now modelName' text (ClearSignatureCache modelName c)).1
     = missValue (GetModelGroup modelName'))
  /\ (modelName <> "" -> GetModelGroup modelName' <> GetModelGroup modelName ->
        (GetCachedSignature now modelName' text (ClearSignatureCache modelName c)).1
        = (GetCachedSignature now modelName' text c).1).
Proof.
  split.
  - intros Hsame. rewrite GetCachedSignature_result.
    unfold freshEntry, ClearSignatureCache.
    destruct (text =? "")%string; [reflexivity|].
    destruct (String.eqb_spec modelName "") as [|Hm].
    + rewrite lookup_empty. reflexivity.
    + destruct Hsame as [Hx | ->]; [contradiction|].
      rewrite lookup_delete_eq. reflexivity.
  - intros Hm Hg. rewrite !GetCachedSignature_result.
    unfold freshEntry, ClearSignatureCache.
    destruct (String.eqb_spec modelName ""); [contradiction|].
    rewrite lookup_delete_ne by congruence. reflexivity.
Qed.

(** X8: a get touches at most the entry it looks up: the entry stored for
    any other (group, hash) pair is the same before and after, whether
    the get hits, misses or finds an expired entry. *)
Theorem get_frame (now : Time) (modelName text modelName' text' : string)
    (c : signatureCacheT) :
  GetModelGroup modelName' <> GetModelGroup modelName
  \/ hashText text' <> hashText text ->
  storedEntry modelName' text' (GetCachedSignature now modelName text c).2
  = storedEntry modelName' text' c.
Proof.
  intros Hother. unfold GetCachedSignature, storedEntry.
  destruct (text =? "")%string; [reflexivity|].
  destruct (c !! GetModelGroup modelName) as [sc|] eqn:Hsc; [|reflexivity].
  destruct (sc !! hashText text) as [entry|] eqn:Hentry; [|reflexivity].
  destruct (decide (GetModelGroup modelName' = GetModelGroup modelName)) as [Hg|Hg].
  - destruct Hother as [Hx | Hh]; [contradiction|].
    rewrite Hg, Hsc.
    destruct (SignatureCacheTTL <? Sub now (Timestamp entry)); simpl;
      rewrite lookup_insert_eq; simpl.
    + apply lookup_delete_ne. congruence.
    + apply lookup_insert_ne. congruence.
  - destruct (SignatureCacheTTL <? Sub now (Timestamp entry)); simpl;
      rewrite lookup_insert_ne by congruence; reflexivity.
Qed.

(** X9: a get that finds an expired entry returns the miss value and
    removes the entry. *)
Theorem expired_get_removes_entry (now : Time) (modelName text : string)
    (c : signatureCacheT) (e : SignatureEntry) :
  text <> "" -> storedEntry modelName text c = Some e ->
  2 * Hour < now - Timestamp e ->
  (GetCachedSignature now modelName text c).1 = missValue (GetModelGroup modelName)
  /\ storedEntry modelName text (GetCachedSignature now modelName text c).2 = None.
Proof.
  intros Ht Hs Hage. split.
  - rewrite GetCachedSignature_result.
    rewrite (freshEntry_too_old now _ _ _ e Hs Hage). reflexivity.
  - unfold GetCachedSignature, storedEntry in *.
    destruct (String.eqb_spec text ""); [contradiction|].
    destruct (c !! GetModelGroup modelName) as [sc|]; [|discriminate].
    simpl in Hs. rewrite Hs, ttl_expired.
    destruct (Z.ltb_spec (2 * Hour) (now - Timestamp e)); [|lia].
    simpl. rewrite lookup_insert_eq. simpl. apply lookup_delete_eq.
Qed.

End WithLibrary.
Lemma signature_shared_within_group_witness :
  (GetCachedSignature (lib := sampleLibrary) (1000 + Hour) "claude-sonnet-4" "thought"
     (CacheSignature (lib := sampleLibrary) 1000 "claude-opus" "thought" sig64 ∅)).1
  = sig64.
Proof.
  apply (signature_shared_within_group (lib := sampleLibrary) 1000 (1000 + Hour)
           "claude-opus" "claude-sonnet-4" "thought" "thought" sig64 ∅).
  - discriminate.
  - discriminate.
  - vm_compute. lia.
  - reflexivity.
  - reflexivity.
  - unfold Hour, Minute, Second. lia.
Defined.

Lemma signature_groups_isolated_witness :
  (GetCachedSignature (lib := sampleLibrary) (1000 + Hour) "gpt-4o" "thought"
     (CacheSignature (lib := sampleLibrary) 1000 "claude-opus" "thought" sig64 ∅)).1
  = (GetCachedSignature (lib := sampleLibrary) (1000 + Hour) "gpt-4o" "thought" ∅).1.
Proof.
  apply (signature_groups_isolated (lib := sampleLibrary) 1000 (1000 + Hour)
           "claude-opus" "gpt-4o" "thought" "thought" sig64 ∅).
  vm_compute. discriminate.
Defined.

Lemma sweeper_is_transparent_witness :
  (GetCachedSignature (lib := sampleLibrary) (1000 + Hour) "claude-opus" "thought"
     (purgeExpiredCaches 1000
        (CacheSignature (lib := sampleLibrary) 0 "claude-opus" "thought" sig64 ∅))).1
  = (GetCachedSignature (lib := sampleLibrary) (1000 + Hour) "claude-opus" "thought"
       (CacheSignature (lib := sampleLibrary) 0 "claude-opus" "thought" sig64 ∅)).1.
Proof.
  apply (sweeper_is_transparent (lib := sampleLibrary) 1000 (1000 + Hour)).
  unfold Hour, Minute, Second. lia.
Defined.

Lemma get_frame_witness :
  storedEntry (lib := sampleLibrary) "claude-opus" "thought"
    (GetCachedSignature (lib := sampleLibrary) (3 * Hour) "gpt-4o" "thought"
       (CacheSignature (lib := sampleLibrary) 0 "claude-opus" "thought" sig64 ∅)).2
  = storedEntry (lib := sampleLibrary) "claude-opus" "thought"
      (CacheSignature (lib := sampleLibrary) 0 "claude-opus" "thought" sig64 ∅).
Proof.
  apply (get_frame (lib := sampleLibrary) (3 * Hour) "gpt-4o" "thought"
           "claude-opus" "thought").
  left. vm_compute. discriminate.
Defined.

Lemma expired_get_removes_entry_witness :
  (GetCachedSignature (lib := sampleLibrary) (3 * Hour) "claude-opus" "thought"
     (CacheSignature (lib := sampleLibrary) 0 "claude-opus" "thought" sig64 ∅)).1
  = missValue (GetModelGroup "claude-opus")
  /\ storedEntry (lib := sampleLibrary) "claude-opus" "thought"
       (GetCachedSignature (lib := sampleLibrary) (3 * Hour) "claude-opus" "thought"
          (CacheSignature (lib := sampleLibrary) 0 "claude-opus" "thought" sig64 ∅)).2
     = None.
Proof.
  apply (expired_get_removes_entry (lib := sampleLibrary) (3 * Hour) "claude-opus"
           "thought" _ (mkSignatureEntry sig64 0)).
  - discriminate.
  - vm_compute. reflexivity.
  - unfold Hour, Minute, Second. simpl. lia.
Defined.

End CacheMoreFacts.

Module ThinkingMoreFacts.
Import GoTime GoStrings GoTimeFacts ThinkingCache ThinkingCacheFacts ThinkingOps.
Import Samples MoreSamples.
Local Open Scope list_scope.

Lemma evictExpired_lookup (now : Time) (sc : thinkingSessionCache) (k : string) :
  evictExpired now sc !! k
  = match sc !! k with
    | Some e => if expired now e then None else Some e
    | None => None
    end.
Proof.
  unfold evictExpired. rewrite map_lookup_filter.
  destruct (sc !! k) as [e|]; [|reflexivity]. simpl.
  destruct (expired now e); reflexivity.
Qed.

Lemma evictExpired_size (now : Time) (sc : thinkingSessionCache) :
  (size (evictExpired now sc) <= size sc)%nat.
Proof. apply map_subseteq_size, map_filter_subseteq. Qed.

Lemma evictExpired_size_lt (now : Time) (sc : thinkingSessionCache) (k : string)
    (e : ThinkingEntry) :
  sc !! k = Some e -> expired now e = true ->
  (size (evictExpired now sc) < size sc)%nat.
Proof.
  intros Hk He. apply map_subset_size. split.
  - apply map_filter_subseteq.
  - intros Hsub. rewrite map_subseteq_spec in Hsub.
    specialize (Hsub k e Hk). rewrite evictExpired_lookup, Hk, He in Hsub.
    discriminate.
Qed.

Section WithOrder.
Context {ord : GoOrder}.

Lemma CacheThinking_rejected (now stamp : Time)
    (sessionID thinkingID thinkingText signature : string) (c : thinkingCacheT) :
  sessionID = "" \/ thinkingID = "" \/ thinkingText = "" ->
  CacheThinking now stamp sessionID thinkingID thinkingText signature c = c.
Proof.
  unfold CacheThinking. intros [-> | [-> | ->]]; [reflexivity | |];
    rewrite orb_true_r; reflexivity.
Qed.

Lemma CacheThinking_other_session (now stamp : Time)
    (sessionID thinkingID thinkingText signature sessionID' : string)
    (c : thinkingCacheT) :
  sessionID' <> sessionID ->
  CacheThinking now stamp sessionID thinkingID thinkingText signature c !! sessionID'
  = c !! sessionID'.
Proof.
  intros Hne. unfold CacheThinking.
  destruct ((sessionID =? "")%string || (thinkingID =? "")%string
            || (thinkingText =? "")%string); [reflexivity|].
  unfold getOrCreateThinkingSession.
  destruct (c !! sessionID) as [sc|].
  - rewrite lookup_insert_ne by congruence. reflexivity.
  - rewrite !lookup_insert_ne by congruence. reflexivity.
Qed.

(** X10: puts into one session, however many and whatever they evict
    there, leave every other session exactly as it was. *)
Theorem puts_touch_one_session (sessionID sessionID' : string) (ps : list put)
    (c : thinkingCacheT) :
  sessionID' <> sessionID ->
  runPuts sessionID ps c !! sessionID' = c !! sessionID'.
Proof.
  intros Hne. revert c. unfold runPuts.
  induction ps as [|p ps IH]; intros c; [reflexivity|].
  simpl. rewrite IH. unfold runPut. apply CacheThinking_other_session, Hne.
Qed.

(** X11: below the capacity of 100 entries a put evicts nothing: every
    other entry of the session is still there, unchanged. *)
Theorem put_below_capacity_keeps_all (now stamp : Time)
    (sessionID thinkingID thinkingText signature k : string) (c : thinkingCacheT) :
  sessionID <> "" -> thinkingID <> "" -> thinkingText <> "" ->
  (size (sessionEntries sessionID c) < MaxThinkingEntriesPerSession)%nat ->
  k <> thinkingID ->
  sessionEntries sessionID
    (CacheThinking now stamp sessionID thinkingID thinkingText signature c) !! k
  = sessionEntries sessionID c !! k.
Proof.
  intros Hs Hi Ht Hsize Hk.
  unfold sessionEntries at 1. rewrite CacheThinking_session by assumption. simpl.
  rewrite lookup_insert_ne by congruence.
  unfold makeRoom.
  destruct (Nat.leb_spec MaxThinkingEntriesPerSession (size (sessionEntries sessionID c)));
    [lia | reflexivity].
Qed.

(** X12: a put into a session that holds exactly 100 entries, at least
    one of them expired, removes the expired entries and nothing else:
    every entry that has not expired survives, however old it is. *)
Theorem put_at_capacity_evicts_expired_only (now stamp : Time)
    (sessionID thinkingID thinkingText signature : string) (c : thinkingCacheT)
    (sc : thinkingSessionCache) (k0 : string) (e0 : ThinkingEntry) (k : string) :
  sessionID <> "" -> thinkingID <> "" -> thinkingText <> "" ->
  c !! sessionID = Some sc -> size sc = MaxThinkingEntriesPerSession ->
  sc !! k0 = Some e0 -> expired now e0 = true ->
  k <> thinkingID ->
  sessionEntries sessionID
    (CacheThinking now stamp sessionID thinkingID thinkingText signature c) !! k
  = match sc !! k with
    | Some e => if expired now e then None else Some e
    | None => None
    end.
Proof.
  intros Hs Hi Ht Hc Hsize Hk0 He0 Hk.
  unfold sessionEntries at 1. rewrite CacheThinking_session by assumption. simpl.
  rewrite lookup_insert_ne by congruence.
  unfold sessionEntries. rewrite Hc. simpl.
  unfold makeRoom. rewrite Hsize.
  rewrite Nat.leb_refl.
  pose proof (evictExpired_size_lt now sc k0 e0 Hk0 He0) as Hlt. rewrite Hsize in Hlt.
  cbv zeta.
  destruct (Nat.leb_spec MaxThinkingEntriesPerSession (size (evictExpired now sc))); [lia|].
  apply evictExpired_lookup.
Qed.

End WithOrder.

Section WithOrderSpec.
Context {ord : GoOrder} {spec : GoOrderSpec ord}.

Lemma evictOldest_size (sc : thinkingSessionCache) :
  size sc = 100%nat -> size (evictOldest sc) = 75%nat.
Proof.
  intros Hsize.
  destruct (evictOldest_full sc Hsize) as (removed & kept & Hperm & Hlen & -> & _).
  assert (Hall : NoDup (removed.*1 ++ kept.*1)).
  { rewrite <- fmap_app, Hperm, <- list_fmap_compose.
    apply (NoDup_fst_map_to_list sc). }
  apply NoDup_app in Hall as (Hnd & _ & _).
  pose proof (size_foldl_delete removed sc Hnd) as Hsz.
  rewrite Hsize, Hlen in Hsz.
  enough (size (foldl (fun m (o : keyTs) => delete o.1 m) sc removed) + 25 = 100)%nat by lia.
  apply Hsz. intros k Hk. apply list_elem_of_fmap in Hk as (o & -> & Ho).
  assert (Hin : o ∈ keyTsOf <$> map_to_list sc).
  { rewrite <- Hperm. apply elem_of_app. auto. }
  apply elem_of_keyTsOf in Hin as (e & He & _). eauto.
Qed.

Lemma makeRoom_size (now : Time) (sc : thinkingSessionCache) :
  (size sc <= 100)%nat -> (size (makeRoom now sc) < 100)%nat.
Proof.
  intros Hle. unfold makeRoom, MaxThinkingEntriesPerSession.
  destruct (Nat.leb_spec 100 (size sc)) as [Hge|Hlt]; [|exact Hlt].
  cbv zeta. pose proof (evictExpired_size now sc) as Hex.
  destruct (Nat.leb_spec 100 (size (evictExpired now sc))) as [Hge'|Hlt']; [|exact Hlt'].
  rewrite evictOldest_size by lia. lia.
Qed.

Lemma bounded_CacheThinking (now stamp : Time)
    (sessionID thinkingID thinkingText signature : string) (c : thinkingCacheT) :
  bounded c ->
  bounded (CacheThinking now stamp sessionID thinkingID thinkingText signature c).
Proof.
  intros Hc.
  destruct (String.eqb_spec sessionID "") as [->|Hs].
  { rewrite CacheThinking_rejected by auto. exact Hc. }
  destruct (String.eqb_spec thinkingID "") as [->|Hi].
  { rewrite CacheThinking_rejected by auto. exact Hc. }
  destruct (String.eqb_spec thinkingText "") as [->|Ht].
  { rewrite CacheThinking_rejected by auto. exact Hc. }
  intros s sc Hsc.
  destruct (decide (s = sessionID)) as [->|Hne].
  - rewrite CacheThinking_session in Hsc by assumption. injection Hsc as <-.
    assert (Hb : (size (sessionEntries sessionID c) <= 100)%nat).
    { unfold sessionEntries. destruct (c !! sessionID) as [sc0|] eqn:Hsc0; simpl.
      - apply (Hc _ _ Hsc0).
      - rewrite map_size_empty. lia. }
    pose proof (makeRoom_size now _ Hb) as Hroom.
    rewrite map_size_insert. unfold MaxThinkingEntriesPerSession.
    destruct (makeRoom now (sessionEntries sessionID c) !! thinkingID); simpl; lia.
  - rewrite CacheThinking_other_session in Hsc by exact Hne. apply (Hc _ _ Hsc).
Qed.

Lemma bounded_GetCachedThinking (now : Time) (sessionID thinkingID : string)
    (c : thinkingCacheT) :
  bounded c -> bounded (GetCachedThinking now sessionID thinkingID c).2.
Proof.
  intros Hc. unfold GetCachedThinking.
  destruct ((sessionID =? "")%string || (thinkingID =? "")%string); [exact Hc|].
  destruct (c !! sessionID) as [sc|] eqn:Hsc; [|exact Hc].
  destruct (sc !! thinkingID) as [entry|]; [|exact Hc].
  destruct (expired now entry); [|exact Hc]. simpl.
  intros s sc' Hs. destruct (decide (s = sessionID)) as [->|Hne].
  - rewrite lookup_insert_eq in Hs. injection Hs as <-.
    pose proof (map_subseteq_size _ _ (delete_subseteq sc thinkingID)) as Hle.
    pose proof (Hc _ _ Hsc). lia.
  - rewrite lookup_insert_ne in Hs by congruence. apply (Hc _ _ Hs).
Qed.

Lemma bounded_Clear (sessionID : string) (c : thinkingCacheT) :
  bounded c -> bounded (ClearThinkingCache sessionID c).
Proof.
  intros Hc. unfold ClearThinkingCache.
  destruct (negb (sessionID =? "")%string).
  - intros s sc Hs. destruct (decide (s = sessionID)) as [->|Hne].
    + rewrite lookup_delete_eq in Hs. discriminate.
    + rewrite lookup_delete_ne in Hs by congruence. apply (Hc _ _ Hs).
  - intros s sc Hs. rewrite lookup_empty in Hs. discriminate.
Qed.

Lemma bounded_runThinkOps (ops : list thinkOp) (c : thinkingCacheT) :
  bounded c -> bounded (runThinkOps ops c).
Proof.
  revert c. induction ops as [|op ops IH]; intros c Hc; [exact Hc|].
  apply IH. destruct op; simpl.
  - apply bounded_CacheThinking, Hc.
  - apply bounded_GetCachedThinking, Hc.
  - apply bounded_Clear, Hc.
Qed.

(** X13: whatever sequence of puts, gets and clears has run on an
    initially empty thinking cache, no session holds more than 100
    entries. *)
Theorem session_never_exceeds_capacity (ops : list thinkOp) (s : string)
    (sc : thinkingSessionCache) :
  runThinkOps ops ∅ !! s = Some sc ->
  (size sc <= MaxThinkingEntriesPerSession)%nat.
Proof.
  apply (bounded_runThinkOps ops ∅).
  intros s' sc' Hs. rewrite lookup_empty in Hs. discriminate.
Qed.

End WithOrderSpec.

(** X14: after [ClearThinkingCache] with a session id, every get in
    that session misses and leaves the cache as it is, and gets in other
    sessions return what they returned before; with the empty id every
    get misses. *)
Theorem clear_thinking_cache (sessionID : string) (now : Time)
    (sessionID' thinkingID : string) (c : thinkingCacheT) :
  (sessionID = "" \/ sessionID' = sessionID ->
     GetCachedThinking now sessionID' thinkingID (ClearThinkingCache sessionID c)
     = (None, ClearThinkingCache sessionID c))
  /\ (sessionID <> "" -> sessionID' <> sessionID ->
        (GetCachedThinking now sessionID' thinkingID (ClearThinkingCache sessionID c)).1
        = (GetCachedThinking now sessionID' thinkingID c).1).
Proof.
  split.
  - intros Hsame. unfold GetCachedThinking, ClearThinkingCache.
    destruct ((sessionID' =? "")%string || (thinkingID =? "")%string); [reflexivity|].
    destruct (String.eqb_spec sessionID "") as [|Hs]; simpl.
    + rewrite lookup_empty. reflexivity.
    + destruct Hsame as [Hx | ->]; [contradiction|].
      rewrite lookup_delete_eq. reflexivity.
  - intros Hs Hne. unfold GetCachedThinking, ClearThinkingCache.
    destruct ((sessionID' =? "")%string || (thinkingID =? "")%string); [reflexivity|].
    destruct (String.eqb_spec sessionID ""); [contradiction|]. simpl.
    rewrite lookup_delete_ne by congruence.
    destruct (c !! sessionID') as [sc|]; [|reflexivity].
    destruct (sc !! thinkingID) as [entry|]; [|reflexivity].
    destruct (expired now entry); reflexivity.
Qed.

Lemma puts_touch_one_session_witness :
  runPuts (ord := sampleOrder) "other" sampleFirst sampleCache !! "session"
  = sampleCache !! "session".
Proof.
  apply (puts_touch_one_session (ord := sampleOrder) "other" "session" sampleFirst
           sampleCache).
  discriminate.
Defined.

Lemma put_below_capacity_keeps_all_witness :
  sessionEntries "session"
    (CacheThinking (ord := sampleOrder) 5000 5000 "session" "ffff" "Because" sig64
       sampleCache) !! "a1b2c3"
  = sessionEntries "session" sampleCache !! "a1b2c3".
Proof.
  apply (put_below_capacity_keeps_all (ord := sampleOrder) 5000 5000 "session" "ffff"
           "Because" sig64 "a1b2c3" sampleCache).
  - discriminate.
  - discriminate.
  - discriminate.
  - vm_compute. lia.
  - discriminate.
Defined.

Lemma put_at_capacity_evicts_expired_only_witness :
  sessionEntries "session"
    (CacheThinking (ord := sampleOrder) (3 * Hour) (3 * Hour) "session" "ffff"
       "Because" sig64 fullCache) !! "042"
  = match sessionEntries "session" fullCache !! "042" with
    | Some e => if expired (3 * Hour) e then None else Some e
    | None => None
    end.
Proof.
  apply (put_at_capacity_evicts_expired_only (ord := sampleOrder) (3 * Hour) (3 * Hour)
           "session" "ffff" "Because" sig64 fullCache
           (sessionEntries "session" fullCache) "000" (putEntry (samplePut 0)) "042").
  - discriminate.
  - discriminate.
  - discriminate.
  - vm_compute. reflexivity.
  - vm_compute. reflexivity.
  - vm_compute. reflexivity.
  - vm_compute. reflexivity.
  - discriminate.
Defined.

Lemma session_never_exceeds_capacity_witness :
  (size ({[ "a1b2" := mkThinkingEntry "Because" sig64 7%Z ]} : thinkingSessionCache)
   <= MaxThinkingEntriesPerSession)%nat.
Proof.
  apply (session_never_exceeds_capacity (ord := sampleOrder) (spec := sampleOrder_spec)
           [OpCacheThinking 5 7 "session" "a1b2" "Because" sig64;
            OpGetCachedThinking 8 "session" "a1b2"]
           "session").
  vm_compute. reflexivity.
Defined.

End ThinkingMoreFacts.

Module UsageMoreFacts.
Import GoTime GoStrings GoHTTP GoTimeFacts Usage UsageFacts UsageStore Executor.
Import Samples MoreSamples.
Local Open Scope list_scope.

Lemma IsEmpty_setTimestamp (t : Time) (r : RateLimitRecord) :
  IsEmpty (setTimestamp t r) = IsEmpty r.
Proof. reflexivity. Qed.

Lemma IsEmpty_storedForm (a : append) :
  IsEmpty (storedForm a) = IsEmpty (appendRecord a).
Proof. unfold storedForm. destruct (IsZero _); reflexivity. Qed.

(** What one call of [Record] leaves in a store that exists. *)
Lemma runAppend_Some (records : RateLimitStore) (a : append) :
  runAppend (Some records) a
  = Some (if IsEmpty (appendRecord a) then records
          else if (length (records ++ [storedForm a]) mod 100 =? 0)%nat
               then cleanupLocked (appendNow a) (records ++ [storedForm a])
               else records ++ [storedForm a]).
Proof.
  unfold runAppend, Record_, storedForm.
  destruct (IsEmpty (appendRecord a)); [reflexivity|].
  destruct (IsZero (Timestamp (appendRecord a))); reflexivity.
Qed.

Lemma runAppends_nil_store (l : list append) : runAppends l None = None.
Proof. induction l as [|a l IH]; [reflexivity | exact IH]. Qed.

Lemma filter_filter_implied {A : Type} (P Q : A -> Prop)
    `{!forall x, Decision (P x)} `{!forall x, Decision (Q x)} (l : list A) :
  (forall x, P x -> Q x) -> filter P (filter Q l) = filter P l.
Proof.
  intros HPQ. induction l as [|x l IH]; [reflexivity|].
  destruct (decide (Q x)) as [Hq|Hq].
  - rewrite (filter_cons_True Q) by exact Hq.
    destruct (decide (P x)) as [Hp|Hp].
    + rewrite !(filter_cons_True P) by exact Hp. rewrite IH. reflexivity.
    + rewrite !(filter_cons_False P) by exact Hp. exact IH.
  - rewrite (filter_cons_False Q) by exact Hq.
    rewrite (filter_cons_False P) by (intros Hp; apply Hq, HPQ, Hp). exact IH.
Qed.

(** X15: the in-place sweep keeps exactly the records stamped later than
    seven days before the clock reading, in their order; a sweep after
    an earlier sweep leaves what the later sweep alone would leave. *)
Theorem cleanup_keeps_exactly_recent (now now' : Time) (records : RateLimitStore) :
  cleanupLocked now records
  = filter (fun r => After (Timestamp r) (Add now (- maxRecordAge)) = true) records
  /\ (now <= now' ->
      cleanupLocked now' (cleanupLocked now records) = cleanupLocked now' records).
Proof.
  split; [apply cleanupLocked_filter|].
  intros Hle. rewrite !cleanupLocked_filter.
  apply filter_filter_implied. intros r. unfold After, Add.
  intros Hr%Z.ltb_lt. apply Z.ltb_lt. lia.
Qed.

(** X16: whatever calls of [Record] have been made on a new store, the
    store holds no empty record, and its records are, in call order,
    some of the records passed in non-empty (a zero timestamp replaced by
    the clock reading): nothing is invented, duplicated or reordered. *)
Theorem store_is_subsequence_of_appends (l : list append) :
  exists records,
    runAppends l (Some NewRateLimitStore) = Some records
    /\ records `sublist_of` (storedForm <$> accepted l)
    /\ Forall (fun r => IsEmpty r = false) records.
Proof.
  induction l as [|a l IH] using rev_ind.
  - exists []. split; [reflexivity|]. split; constructor.
  - destruct IH as (records & Hrun & Hsub & Hne).
    unfold runAppends in *. rewrite foldl_snoc, Hrun, runAppend_Some.
    unfold accepted in *. rewrite filter_app, fmap_app.
    destruct (IsEmpty (appendRecord a)) eqn:Ha.
    + exists records. split; [reflexivity|].
      rewrite filter_cons_False by (rewrite Ha; discriminate).
      rewrite filter_nil, app_nil_r. auto.
    + rewrite filter_cons_True by exact Ha. rewrite filter_nil.
      assert (Hsub' : records ++ [storedForm a]
                      `sublist_of` (storedForm <$> filter
                         (fun a => IsEmpty (appendRecord a) = false) l)
                        ++ (storedForm <$> [a])).
      { apply sublist_app; [exact Hsub | reflexivity]. }
      assert (Hne' : Forall (fun r => IsEmpty r = false) (records ++ [storedForm a])).
      { apply Forall_app. split; [exact Hne|]. apply Forall_singleton.
        rewrite IsEmpty_storedForm. exact Ha. }
      destruct (length (records ++ [storedForm a]) mod 100 =? 0)%nat.
      * eexists. split; [reflexivity|]. rewrite cleanupLocked_filter. split.
        -- etransitivity; [apply sublist_filter | exact Hsub'].
        -- apply Forall_forall. intros r Hr. apply list_elem_of_filter in Hr as [_ Hr].
           rewrite Forall_forall in Hne'. apply Hne', Hr.
      * eexists. split; [reflexivity|]. auto.
Qed.

(** X17: after a call of [Record] with a record that is not empty,
    [Latest] returns that record (its zero timestamp replaced by the
    clock reading), unless the call runs the sweep and the record itself
    is older than seven days. *)
Theorem latest_is_last_recorded (records : RateLimitStore) (a : append) :
  IsEmpty (appendRecord a) = false ->
  ((length records + 1) mod 100 <> 0)%nat
  \/ After (Timestamp (storedForm a)) (Add (appendNow a) (- maxRecordAge)) = true ->
  Latest (runAppend (Some records) a) = Some (storedForm a).
Proof.
  intros Ha Hkeep. rewrite runAppend_Some, Ha.
  rewrite length_app. change (length [storedForm a]) with 1%nat.
  destruct (Nat.eqb_spec ((length records + 1) mod 100) 0) as [Hz|Hnz].
  - destruct Hkeep as [Hx | Hk]; [contradiction|].
    rewrite cleanupLocked_filter, filter_app.
    rewrite (filter_cons_True _ (storedForm a)) by exact Hk.
    rewrite filter_nil. apply Latest_snoc.
  - apply Latest_snoc.
Qed.

Section WithLibrary.
Context {lib : GoLibrary}.

Lemma existsb_false_Forall {A} (f : A -> bool) (l : list A) :
  existsb f l = false -> Forall (fun x => f x = false) l.
Proof.
  induction l as [|x l IH]; simpl; [constructor|].
  intros [Hx Hl]%orb_false_iff. constructor; auto.
Qed.

Lemma parseUnifiedHeaders_not_found (headers : Header) (r : RateLimitRecord) :
  (parseUnifiedHeaders headers r).2 = false ->
  parseUnifiedHeaders headers r = (setUnified (unified r) r, false).
Proof.
  rewrite parseUnifiedHeaders_found. intros Hex.
  apply parseUnifiedHeaders_none. intros name Hin.
  apply existsb_false_Forall in Hex. rewrite Forall_forall in Hex.
  specialize (Hex name Hin).
  destruct (String.eqb_spec (Get headers name) ""); [assumption | discriminate].
Qed.

(** The three shapes of a parsed record. *)
Lemma ParseRateLimitHeaders_cases (now : Time) (headers : Header) :
  Timestamp (ParseRateLimitHeaders now headers) = now
  /\ Source (ParseRateLimitHeaders now headers) = ""
  /\ Model (ParseRateLimitHeaders now headers) = ""
  /\ (Type_ (ParseRateLimitHeaders now headers) = "unified"
        /\ standard (ParseRateLimitHeaders now headers) = zeroStandard
      \/ Type_ (ParseRateLimitHeaders now headers) = "standard"
         /\ unified (ParseRateLimitHeaders now headers) = zeroUnified
         /\ IsEmpty (ParseRateLimitHeaders now headers) = false
      \/ Type_ (ParseRateLimitHeaders now headers) = ""
         /\ unified (ParseRateLimitHeaders now headers) = zeroUnified
         /\ IsEmpty (ParseRateLimitHeaders now headers) = true).
Proof.
  unfold ParseRateLimitHeaders.
  set (r0 := mkRecord now "" "" "" zeroUnified zeroStandard).
  destruct (parseUnifiedHeaders headers r0) as [r found] eqn:Hp.
  destruct found.
  - pose proof (parseUnifiedHeaders_frame headers r0) as (Hstd & _ & _).
    rewrite Hp in Hstd. simpl in Hstd.
    assert (Hfields : Timestamp r = now /\ Source r = "" /\ Model r = "").
    { unfold parseUnifiedHeaders in Hp.
      destruct (unifiedLoop headers (unified r0, false) unifiedSteps) as [u f].
      injection Hp as <- _. auto. }
    destruct Hfields as (? & ? & ?). simpl. auto 10.
  - rewrite parseUnifiedHeaders_not_found in Hp by (rewrite Hp; reflexivity).
    injection Hp as <-.
    change (unified r0) with zeroUnified.
    destruct (IsEmpty (parseStandardHeaders headers (setUnified zeroUnified r0))) eqn:He;
      simpl.
    + do 3 (split; [reflexivity|]). right. right.
      split; [reflexivity|]. split; [reflexivity | exact He].
    + do 3 (split; [reflexivity|]). right. left.
      split; [reflexivity|]. split; [reflexivity | exact He].
Qed.

(** A header map without upper-case letters in its keys has no canonical
    key. *)
Lemma Get_lowercase_map (headers : Header) (name : string) :
  (forall k, is_Some (headers !! k) -> noUpper k = true) ->
  noUpper (CanonicalMIMEHeaderKey name) = false ->
  Get headers name = "".
Proof.
  intros Hkeys Hcanon. unfold Get.
  destruct (headers !! CanonicalMIMEHeaderKey name) as [vs|] eqn:Hk; [|reflexivity].
  rewrite Hkeys in Hcanon by eauto. discriminate.
Qed.

Lemma header_names_have_upper :
  Forall (fun name => noUpper (CanonicalMIMEHeaderKey name) = false)
         (unifiedHeaderNames ++ standardHeaderNames).
Proof. repeat constructor. Qed.

(** X18: the parser asks for every header under its canonical name, so
    in a header map none of whose keys has an upper-case letter it finds
    nothing: the parsed record is the empty one, and the capture stores
    nothing, even when a key contains "ratelimit". *)
Theorem lowercase_keys_are_not_seen (parsed stamp now : Time) (headers : Header)
    (source model : string) (s : option RateLimitStore) :
  (forall k, is_Some (headers !! k) -> noUpper k = true) ->
  ParseRateLimitHeaders parsed headers
  = mkRecord parsed "" "" "" zeroUnified zeroStandard
  /\ captureClaudeRateLimit parsed stamp now (Some headers) source model s = s.
Proof.
  intros Hkeys.
  enough (Hrec : ParseRateLimitHeaders parsed headers
                 = mkRecord parsed "" "" "" zeroUnified zeroStandard).
  { split; [exact Hrec|]. unfold captureClaudeRateLimit. rewrite Hrec.
    destruct (negb (hasRateLimitKey headers)); reflexivity. }
  assert (Hget : forall name, name ∈ unifiedHeaderNames ++ standardHeaderNames ->
                   Get headers name = "").
  { intros name Hin. apply Get_lowercase_map; [exact Hkeys|].
    pose proof header_names_have_upper as Hall. rewrite Forall_forall in Hall.
    apply Hall, Hin. }
  unfold ParseRateLimitHeaders.
  rewrite parseUnifiedHeaders_none
    by (intros name Hin; apply Hget, elem_of_app; left; exact Hin).
  assert (Hstd : parseStandardHeaders headers
                   (setUnified zeroUnified
                      (mkRecord parsed "" "" "" zeroUnified zeroStandard))
                 = mkRecord parsed "" "" "" zeroUnified zeroStandard).
  { unfold parseStandardHeaders, parseIntHeader, parseRFC3339Header.
    rewrite !Hget by (apply elem_of_app; right; unfold standardHeaderNames;
                      repeat (first [apply list_elem_of_here | apply list_elem_of_further])).
    reflexivity. }
  simpl. rewrite Hstd. reflexivity.
Qed.

(** A property of the unified fields that every assignment made for a
    header with a value keeps, holds after the loop. *)
Lemma unifiedLoop_preserves (P : UnifiedFields -> Prop) (headers : Header)
    (steps : list (string * (string -> UnifiedFields -> UnifiedFields)))
    (st : UnifiedFields * bool) :
  P st.1 ->
  Forall (fun step => Get headers step.1 <> "" -> forall v u, P u -> P (step.2 v u)) steps ->
  P (unifiedLoop headers st steps).1.
Proof.
  unfold unifiedLoop. revert st.
  induction steps as [|step steps IH]; intros st Hst Hall; [exact Hst|].
  apply Forall_cons in Hall as [Hstep Hall]. simpl. apply IH; [|exact Hall].
  unfold onHeader.
  destruct (String.eqb_spec (Get headers step.1) "") as [|Hne]; simpl; [exact Hst|].
  apply Hstep; assumption.
Qed.

Lemma ParseRateLimitHeaders_found (now : Time) (headers : Header) :
  (exists name, name ∈ unifiedHeaderNames /\ Get headers name <> "") ->
  ParseRateLimitHeaders now headers
  = setType "unified"
      (parseUnifiedHeaders headers (mkRecord now "" "" "" zeroUnified zeroStandard)).1.
Proof.
  intros (name & Hin & Hval). unfold ParseRateLimitHeaders.
  pose proof (parseUnifiedHeaders_found headers
                (mkRecord now "" "" "" zeroUnified zeroStandard)) as Hfound.
  destruct (parseUnifiedHeaders headers _) as [r found]. cbn [fst snd] in *.
  assert (found = true) as ->; [|reflexivity].
  rewrite Hfound. apply existsb_exists. exists name. split.
  - apply list_elem_of_In. exact Hin.
  - destruct (String.eqb_spec (Get headers name) ""); [contradiction | reflexivity].
Qed.

(** X19: a response that carries unified headers but none of the three
    status headers is parsed as a record of type "unified" that counts
    as empty, and the capture stores nothing for it. *)
Theorem unified_without_status_is_dropped (parsed stamp now : Time) (headers : Header)
    (source model : string) (s : option RateLimitStore) :
  (forall name, name ∈ statusHeaderNames -> Get headers name = "") ->
  (exists name, name ∈ unifiedHeaderNames /\ Get headers name <> "") ->
  Type_ (ParseRateLimitHeaders parsed headers) = "unified"
  /\ IsEmpty (ParseRateLimitHeaders parsed headers) = true
  /\ captureClaudeRateLimit parsed stamp now (Some headers) source model s = s.
Proof.
  intros Hstatus Hsome.
  assert (Hs5 : Get headers "Anthropic-Ratelimit-Unified-5h-Status" = "")
    by (apply Hstatus; unfold statusHeaderNames;
        repeat (first [apply list_elem_of_here | apply list_elem_of_further])).
  assert (Hs7 : Get headers "Anthropic-Ratelimit-Unified-7d-Status" = "")
    by (apply Hstatus; unfold statusHeaderNames;
        repeat (first [apply list_elem_of_here | apply list_elem_of_further])).
  assert (Hsu : Get headers "Anthropic-Ratelimit-Unified-Status" = "")
    by (apply Hstatus; unfold statusHeaderNames;
        repeat (first [apply list_elem_of_here | apply list_elem_of_further])).
  assert (Hty : Type_ (ParseRateLimitHeaders parsed headers) = "unified").
  { rewrite (ParseRateLimitHeaders_found parsed headers Hsome). reflexivity. }
  assert (Hemp : IsEmpty (ParseRateLimitHeaders parsed headers) = true).
  { unfold IsEmpty. rewrite Hty. simpl.
    assert (Hno : noStatus (unified (ParseRateLimitHeaders parsed headers))).
    { unfold ParseRateLimitHeaders.
      set (r0 := mkRecord parsed "" "" "" zeroUnified zeroStandard).
      pose proof (unifiedLoop_preserves noStatus headers unifiedSteps (unified r0, false)) as Hpres.
      unfold parseUnifiedHeaders.
      destruct (unifiedLoop headers (unified r0, false) unifiedSteps) as [u found].
      simpl in Hpres.
      assert (Hu : noStatus u).
      { apply Hpres; [repeat split|].
        unfold unifiedSteps.
        repeat (apply Forall_cons; split); try apply Forall_nil_2;
          simpl; intros Hne v u0 (H5 & H7 & HU);
          try contradiction; repeat split; assumption. }
      destruct found; simpl; [exact Hu|].
      destruct (negb (IsEmpty _)); exact Hu. }
    destruct Hno as (-> & -> & ->). reflexivity. }
  split; [exact Hty|]. split; [exact Hemp|].
  unfold captureClaudeRateLimit. rewrite Hemp.
  destruct (negb (hasRateLimitKey headers)); reflexivity.
Qed.

Lemma IsEmpty_setSourceModel (source model : string) (r : RateLimitRecord) :
  IsEmpty (setSourceModel source model r) = IsEmpty r.
Proof. reflexivity. Qed.

Lemma capturedBy_mono (l : list capture) (cp : capture) (r : RateLimitRecord) :
  capturedBy l r -> capturedBy (l ++ [cp]) r.
Proof.
  intros (He & Hty & cp0 & Hin & Hsm). split; [exact He|]. split; [exact Hty|].
  exists cp0. split; [apply elem_of_app; left; exact Hin | exact Hsm].
Qed.

(** X20: whatever captures have run on a new store, every record it
    holds is not empty, has type "unified" or "standard", and carries the
    source and the model of one of the captures. *)
Theorem captured_records_are_typed (l : list capture) :
  exists records,
    runCaptures l (Some NewRateLimitStore) = Some records
    /\ Forall (capturedBy l) records.
Proof.
  induction l as [|cp l IH] using rev_ind.
  - exists []. split; [reflexivity | constructor].
  - destruct IH as (records & Hrun & Hall).
    assert (Hall' : Forall (capturedBy (l ++ [cp])) records).
    { eapply Forall_impl; [exact Hall|]. intros r. apply capturedBy_mono. }
    unfold runCaptures in *. rewrite foldl_snoc, Hrun.
    unfold runCapture, captureClaudeRateLimit.
    destruct (capHeaders cp) as [headers|]; [|eauto].
    destruct (negb (hasRateLimitKey headers)); [eauto|].
    destruct (IsEmpty (ParseRateLimitHeaders (capParsed cp) headers)) eqn:He; [eauto|].
    set (r := setSourceModel (capSource cp) (capModel cp)
                (ParseRateLimitHeaders (capParsed cp) headers)).
    change (Record_ (capStamp cp) (capNow cp) r (Some records)).1
      with (runAppend (Some records) (mkAppend (capStamp cp) (capNow cp) r)).
    assert (Hre : IsEmpty r = false) by exact He.
    rewrite runAppend_Some. cbn [appendRecord appendNow].
    rewrite Hre.
    set (r' := storedForm (mkAppend (capStamp cp) (capNow cp) r)).
    assert (Hr' : capturedBy (l ++ [cp]) r').
    { assert (Hsame : IsEmpty r' = false /\ Type_ r' = Type_ r
                      /\ Source r' = capSource cp /\ Model r' = capModel cp).
      { unfold r', storedForm. simpl.
        destruct (IsZero _); simpl; rewrite ?He; auto. }
      destruct Hsame as (Hne & Hty & Hs & Hm).
      split; [exact Hne|]. split.
      - rewrite Hty. unfold r. simpl.
        destruct (ParseRateLimitHeaders_cases (capParsed cp) headers)
          as (_ & _ & _ & [[Ht _] | [[Ht _] | [_ [_ Hemp]]]]); auto.
        rewrite He in Hemp. discriminate.
      - exists cp. split; [apply elem_of_app; right; apply list_elem_of_singleton; reflexivity|].
        auto. }
    assert (Hnew : Forall (capturedBy (l ++ [cp])) (records ++ [r'])).
    { apply Forall_app. split; [exact Hall' | apply Forall_singleton, Hr']. }
    destruct (length (records ++ [r']) mod 100 =? 0)%nat.
    + eexists. split; [reflexivity|]. rewrite cleanupLocked_filter.
      apply Forall_forall. intros x Hx. apply list_elem_of_filter in Hx as [_ Hx].
      rewrite Forall_forall in Hnew. apply Hnew, Hx.
    + eexists. split; [reflexivity | exact Hnew].
Qed.

End WithLibrary.
Lemma latest_is_last_recorded_witness :
  Latest (runAppend (Some [sampleRecord (sampleNow - Day)]) (sampleAppend sampleNow))
  = Some (storedForm (sampleAppend sampleNow)).
Proof.
  apply (latest_is_last_recorded [sampleRecord (sampleNow - Day)] (sampleAppend sampleNow)).
  - reflexivity.
  - left. vm_compute. discriminate.
Defined.

Lemma lowercase_keys_are_not_seen_witness :
  ParseRateLimitHeaders (lib := sampleLibrary) sampleNow lowercaseHeaders
  = mkRecord sampleNow "" "" "" zeroUnified zeroStandard
  /\ captureClaudeRateLimit (lib := sampleLibrary) sampleNow sampleNow sampleNow
       (Some lowercaseHeaders) "key-1" "claude-sonnet" (Some NewRateLimitStore)
     = Some NewRateLimitStore.
Proof.
  apply (lowercase_keys_are_not_seen (lib := sampleLibrary) sampleNow sampleNow sampleNow
           lowercaseHeaders "key-1" "claude-sonnet" (Some NewRateLimitStore)).
  intros k [vs Hk]. unfold lowercaseHeaders in Hk.
  apply lookup_singleton_Some in Hk as [<- _]. reflexivity.
Defined.

Lemma unified_without_status_is_dropped_witness :
  Type_ (ParseRateLimitHeaders (lib := sampleLibrary) sampleNow utilizationHeaders)
  = "unified"
  /\ IsEmpty (ParseRateLimitHeaders (lib := sampleLibrary) sampleNow utilizationHeaders)
     = true
  /\ captureClaudeRateLimit (lib := sampleLibrary) sampleNow sampleNow sampleNow
       (Some utilizationHeaders) "key-1" "claude-sonnet" (Some NewRateLimitStore)
     = Some NewRateLimitStore.
Proof.
  apply (unified_without_status_is_dropped (lib := sampleLibrary) sampleNow sampleNow
           sampleNow utilizationHeaders "key-1" "claude-sonnet" (Some NewRateLimitStore)).
  - intros name Hin. unfold statusHeaderNames in Hin.
    repeat (apply elem_of_cons in Hin as [-> | Hin]; [vm_compute; reflexivity|]).
    apply elem_of_nil in Hin. contradiction.
  - exists "Anthropic-Ratelimit-Unified-5h-Utilization". split.
    + unfold unifiedHeaderNames, unifiedSteps. simpl.
      repeat (first [apply list_elem_of_here | apply list_elem_of_further]).
    + vm_compute. discriminate.
Defined.

End UsageMoreFacts.

Module QueryFacts.
Import GoTime GoStrings GoTimeFacts Usage UsageFacts UsageQuery Management.
Import Samples MoreSamples.
Local Open Scope list_scope.

Lemma queryLoop_snoc (cutoff : Time) (records : RateLimitStore) (r : RateLimitRecord) :
  queryLoop cutoff (records ++ [r]) = queryStep cutoff (queryLoop cutoff records) r.
Proof. unfold queryLoop. apply foldl_snoc. Qed.

Lemma windowRecords_snoc (cutoff : Time) (records : RateLimitStore) (r : RateLimitRecord) :
  windowRecords cutoff (records ++ [r])
  = windowRecords cutoff records ++ (if inWindow cutoff r then [r] else []).
Proof.
  unfold windowRecords. rewrite filter_app. f_equal.
  destruct (inWindow cutoff r) eqn:Hr.
  - rewrite filter_cons_True by exact Hr. reflexivity.
  - rewrite filter_cons_False by (rewrite Hr; discriminate). reflexivity.
Qed.

Lemma sourceRecords_snoc (cutoff : Time) (source : string) (records : RateLimitStore)
    (r : RateLimitRecord) :
  sourceRecords cutoff source (records ++ [r])
  = sourceRecords cutoff source records
    ++ (if inWindow cutoff r then (if decide (sourceKey r = source) then [r] else [])
        else []).
Proof.
  unfold sourceRecords. rewrite windowRecords_snoc, filter_app. f_equal.
  destruct (inWindow cutoff r); [|reflexivity].
  destruct (decide (sourceKey r = source)) as [Hs|Hs].
  - rewrite filter_cons_True by exact Hs. reflexivity.
  - rewrite filter_cons_False by exact Hs. reflexivity.
Qed.

Lemma queryStep_outside (cutoff : Time) (st : queryState) (r : RateLimitRecord) :
  inWindow cutoff r = false -> queryStep cutoff st r = st.
Proof.
  unfold inWindow, queryStep. intros Hr.
  destruct (Before (Timestamp r) cutoff); [reflexivity | discriminate].
Qed.

Lemma queryStep_total (cutoff : Time) (st : queryState) (r : RateLimitRecord) :
  inWindow cutoff r = true -> qTotal (queryStep cutoff st r) = qTotal st + 1.
Proof.
  unfold inWindow, queryStep. intros Hr.
  destruct (Before (Timestamp r) cutoff); [discriminate|].
  destruct (After (Timestamp r) (qLatestTime st)); reflexivity.
Qed.

Lemma queryStep_bySource (cutoff : Time) (st : queryState) (r : RateLimitRecord)
    (source : string) :
  inWindow cutoff r = true ->
  Requests <$> (qBySource (queryStep cutoff st r) !! source)
  = if decide (sourceKey r = source)
    then Some (default 0 (Requests <$> (qBySource st !! source)) + 1)
    else Requests <$> (qBySource st !! source).
Proof.
  unfold inWindow, queryStep. intros Hr.
  destruct (Before (Timestamp r) cutoff); [discriminate|].
  destruct (After (Timestamp r) (qLatestTime st)); simpl.
  all: destruct (decide (sourceKey r = source)) as [<-|Hs];
    [rewrite lookup_insert_eq | rewrite lookup_insert_ne by exact Hs; reflexivity].
  all: destruct (qBySource st !! sourceKey r) as [su|]; simpl;
    [destruct (LatestLimit su) as [l|];
       [destruct (After (Timestamp r) (Timestamp l))|] |]; reflexivity.
Qed.

Lemma queryLoop_total (cutoff : Time) (records : RateLimitStore) :
  qTotal (queryLoop cutoff records) = Z.of_nat (length (windowRecords cutoff records)).
Proof.
  induction records as [|r records IH] using rev_ind; [reflexivity|].
  rewrite queryLoop_snoc, windowRecords_snoc, length_app.
  destruct (inWindow cutoff r) eqn:Hr.
  - rewrite queryStep_total by exact Hr. rewrite IH. simpl. lia.
  - rewrite queryStep_outside by exact Hr. rewrite IH. simpl. lia.
Qed.

Lemma queryLoop_bySource (cutoff : Time) (records : RateLimitStore) (source : string) :
  Requests <$> (qBySource (queryLoop cutoff records) !! source)
  = match sourceRecords cutoff source records with
    | [] => None
    | l => Some (Z.of_nat (length l))
    end.
Proof.
  induction records as [|r records IH] using rev_ind; [reflexivity|].
  rewrite queryLoop_snoc, sourceRecords_snoc.
  destruct (inWindow cutoff r) eqn:Hr.
  - rewrite queryStep_bySource by exact Hr.
    destruct (decide (sourceKey r = source)) as [Hs|Hs].
    + rewrite IH.
      destruct (sourceRecords cutoff source records) as [|x l]; simpl.
      * reflexivity.
      * rewrite length_app. simpl. f_equal. lia.
    + rewrite app_nil_r. exact IH.
  - rewrite queryStep_outside by exact Hr. rewrite app_nil_r. exact IH.
Qed.


Lemma queryStep_latest (cutoff : Time) (st : queryState) (r : RateLimitRecord) :
  inWindow cutoff r = true ->
  (qLatestTime (queryStep cutoff st r), qLatestRecord (queryStep cutoff st r))
  = if After (Timestamp r) (qLatestTime st) then (Timestamp r, Some r)
    else (qLatestTime st, qLatestRecord st).
Proof.
  unfold inWindow, queryStep. intros Hr.
  destruct (Before (Timestamp r) cutoff); [discriminate|].
  destruct (After (Timestamp r) (qLatestTime st)); reflexivity.
Qed.

Lemma queryLoop_latest (cutoff : Time) (records : RateLimitStore) :
  latestInv cutoff records (queryLoop cutoff records).
Proof.
  induction records as [|r records IH] using rev_ind.
  - split; [reflexivity|]. intros r Hr. apply elem_of_nil in Hr. contradiction.
  - rewrite queryLoop_snoc. unfold latestInv in *.
    rewrite windowRecords_snoc.
    destruct (inWindow cutoff r) eqn:Hr.
    + pose proof (queryStep_latest cutoff (queryLoop cutoff records) r Hr) as Hstep.
      unfold After in Hstep.
      destruct (Z.ltb_spec (qLatestTime (queryLoop cutoff records)) (Timestamp r)) as [Hlt|Hge];
        injection Hstep as Ht Hl; rewrite Hl, ?Ht.
      * split; [reflexivity|]. split; [apply elem_of_app; right; apply list_elem_of_singleton; reflexivity|].
        intros r' [Hr'|Hr']%elem_of_app.
        -- destruct (qLatestRecord (queryLoop cutoff records)) as [lr|].
           ++ destruct IH as (Hlt' & _ & Hmax). specialize (Hmax r' Hr'). lia.
           ++ destruct IH as (Hz & Hmax). specialize (Hmax r' Hr'). lia.
        -- apply list_elem_of_singleton in Hr' as ->. lia.
      * destruct (qLatestRecord (queryLoop cutoff records)) as [lr|].
        -- destruct IH as (Hlt' & Hin & Hmax). split; [exact Hlt'|].
           split; [apply elem_of_app; left; exact Hin|].
           intros r' [Hr'|Hr']%elem_of_app; [apply Hmax, Hr'|].
           apply list_elem_of_singleton in Hr' as ->. lia.
        -- destruct IH as (Hz & Hmax). split; [exact Hz|].
           intros r' [Hr'|Hr']%elem_of_app; [apply Hmax, Hr'|].
           apply list_elem_of_singleton in Hr' as ->. lia.
    + rewrite queryStep_outside by exact Hr. rewrite app_nil_r. exact IH.
Qed.

Lemma windowRecords_narrower (cutoff1 cutoff2 : Time) (records : RateLimitStore) :
  cutoff2 <= cutoff1 ->
  windowRecords cutoff1 records `sublist_of` windowRecords cutoff2 records.
Proof.
  intros Hle. unfold windowRecords.
  induction records as [|r records IH]; [constructor|].
  destruct (inWindow cutoff1 r) eqn:H1.
  - assert (H2 : inWindow cutoff2 r = true).
    { unfold inWindow, Before in *. apply negb_true_iff, Z.ltb_ge.
      apply negb_true_iff, Z.ltb_ge in H1. lia. }
    rewrite !filter_cons_True by assumption.
    apply sublist_skip, IH.
  - rewrite filter_cons_False by (rewrite H1; discriminate).
    destruct (inWindow cutoff2 r) eqn:H2.
    + rewrite filter_cons_True by exact H2. apply sublist_cons, IH.
    + rewrite filter_cons_False by (rewrite H2; discriminate). exact IH.
Qed.

Lemma filter_sublist_mono {A : Type} (P : A -> Prop) `{!forall x, Decision (P x)}
    (l1 l2 : list A) :
  l1 `sublist_of` l2 -> filter P l1 `sublist_of` filter P l2.
Proof.
  induction 1 as [|x l1 l2 _ IH|x l1 l2 _ IH]; [constructor| |].
  - destruct (decide (P x)) as [Hx|Hx].
    + rewrite !filter_cons_True by exact Hx. apply sublist_skip, IH.
    + rewrite !filter_cons_False by exact Hx. exact IH.
  - destruct (decide (P x)) as [Hx|Hx].
    + rewrite filter_cons_True by exact Hx. apply sublist_cons, IH.
    + rewrite filter_cons_False by exact Hx. exact IH.
Qed.

Lemma sourceRecords_narrower (cutoff1 cutoff2 : Time) (source : string)
    (records : RateLimitStore) :
  cutoff2 <= cutoff1 ->
  sourceRecords cutoff1 source records `sublist_of` sourceRecords cutoff2 source records.
Proof.
  intros Hle. unfold sourceRecords.
  apply filter_sublist_mono, windowRecords_narrower, Hle.
Qed.

Section WithFormat.
Context {fmt : GoFormat}.

Lemma summarize_counts (st : queryState) :
  TotalRequests (summarize st) = qTotal st /\ BySource (summarize st) = qBySource st.
Proof.
  unfold summarize. destruct (qLatestRecord st) as [lr|]; [|auto].
  destruct (Type_ lr =? "unified")%string; auto.
Qed.

(** X21: [QueryByWindow] counts in [TotalRequests] exactly the records
    stamped at or after the cutoff, and under each source (the empty
    source counted as "unknown") exactly those of them with that source;
    a source without such records has no entry. *)
Theorem query_counts (now : Time) (d : Duration) (records : RateLimitStore)
    (source : string) :
  TotalRequests (QueryByWindow now d (Some records))
  = Z.of_nat (length (windowRecords (Add now (- d)) records))
  /\ Requests <$> (BySource (QueryByWindow now d (Some records)) !! source)
     = match sourceRecords (Add now (- d)) source records with
       | [] => None
       | l => Some (Z.of_nat (length l))
       end.
Proof.
  unfold QueryByWindow.
  destruct (summarize_counts (queryLoop (Add now (- d)) records)) as [-> ->].
  split; [apply queryLoop_total | apply queryLoop_bySource].
Qed.

Lemma summarize_latest (st : queryState) :
  reportedLatest (summarize st) = qLatestRecord st
  /\ (forall u, Unified (summarize st) = Some u ->
        WindowLatestLimit (summarize st) = None
        /\ exists lr, ULatestRecord u = Some lr /\ Type_ lr = "unified")
  /\ (forall lr, WindowLatestLimit (summarize st) = Some lr ->
        Unified (summarize st) = None /\ Type_ lr <> "unified").
Proof.
  unfold summarize, reportedLatest.
  destruct (qLatestRecord st) as [lr|]; simpl.
  - destruct (String.eqb_spec (Type_ lr) "unified") as [Hty|Hty]; simpl.
    + split; [reflexivity|]. split; [|discriminate].
      intros u [= <-]. simpl. eauto.
    + split; [reflexivity|]. split; [discriminate|].
      intros lr' [= <-]. auto.
  - split; [reflexivity|]. split; discriminate.
Qed.

(** X22: the record [QueryByWindow] reports as latest lies in the window
    and no record of the window has a later timestamp; it is reported
    either in the unified summary, when its type is "unified", or as
    [LatestLimit] otherwise, never in both. *)
Theorem query_latest (now : Time) (d : Duration) (records : RateLimitStore) :
  match reportedLatest (QueryByWindow now d (Some records)) with
  | Some lr =>
      lr ∈ windowRecords (Add now (- d)) records
      /\ forall r, r ∈ windowRecords (Add now (- d)) records ->
           Timestamp r <= Timestamp lr
  | None =>
      forall r, r ∈ windowRecords (Add now (- d)) records -> Timestamp r <= 0
  end
  /\ (forall u, Unified (QueryByWindow now d (Some records)) = Some u ->
        WindowLatestLimit (QueryByWindow now d (Some records)) = None
        /\ exists lr, ULatestRecord u = Some lr /\ Type_ lr = "unified")
  /\ (forall lr, WindowLatestLimit (QueryByWindow now d (Some records)) = Some lr ->
        Unified (QueryByWindow now d (Some records)) = None /\ Type_ lr <> "unified").
Proof.
  unfold QueryByWindow.
  destruct (summarize_latest (queryLoop (Add now (- d)) records)) as (Hrep & Hu & Hl).
  split; [|split; assumption].
  rewrite Hrep.
  pose proof (queryLoop_latest (Add now (- d)) records) as Hinv. unfold latestInv in Hinv.
  destruct (qLatestRecord (queryLoop (Add now (- d)) records)) as [lr|].
  - destruct Hinv as (_ & Hin & Hmax). auto.
  - destruct Hinv as (_ & Hmax). exact Hmax.
Qed.

(** X23: in the answer of [GetUsageLimits] the weekly window counts at
    least as many requests as the five-hour window, in total and for
    every source, provided the store is the same for both queries and
    the clock advances by no more than 163 hours between them. *)
Theorem week_covers_five_hours (now1 now2 : Time) (records : RateLimitStore)
    (source : string) :
  now2 - now1 <= 163 * Hour ->
  TotalRequests (last_5h (GetUsageLimits now1 now2 records))
  <= TotalRequests (last_week (GetUsageLimits now1 now2 records))
  /\ requestsOf source (last_5h (GetUsageLimits now1 now2 records))
     <= requestsOf source (last_week (GetUsageLimits now1 now2 records)).
Proof.
  intros Hclock. unfold GetUsageLimits, requestsOf. cbn [last_5h last_week].
  assert (Hcut : Add now2 (- (7 * 24 * Hour)) <= Add now1 (- (5 * Hour))).
  { unfold Add, Hour, Minute, Second in *. lia. }
  unfold QueryByWindow.
  destruct (summarize_counts (queryLoop (Add now1 (- (5 * Hour))) records)) as [-> ->].
  destruct (summarize_counts (queryLoop (Add now2 (- (7 * 24 * Hour))) records)) as [-> ->].
  rewrite !queryLoop_total, !queryLoop_bySource.
  pose proof (sublist_length _ _ (windowRecords_narrower _ _ records Hcut)) as Hw.
  pose proof (sublist_length _ _ (sourceRecords_narrower _ _ source records Hcut)) as Hs.
  split; [lia|].
  destruct (sourceRecords (Add now1 (- (5 * Hour))) source records) as [|x l];
    destruct (sourceRecords (Add now2 (- (7 * 24 * Hour))) source records) as [|y l'];
    simpl in *; lia.
Qed.

End WithFormat.
Lemma week_covers_five_hours_witness :
  TotalRequests
    (last_5h (GetUsageLimits (fmt := sampleFormat) sampleNow (sampleNow + Second)
                [sampleRecord (sampleNow - Day); sampleRecord (sampleNow - Hour)]))
  <= TotalRequests
       (last_week (GetUsageLimits (fmt := sampleFormat) sampleNow (sampleNow + Second)
                     [sampleRecord (sampleNow - Day); sampleRecord (sampleNow - Hour)]))
  /\ requestsOf "key-1"
       (last_5h (GetUsageLimits (fmt := sampleFormat) sampleNow (sampleNow + Second)
                   [sampleRecord (sampleNow - Day); sampleRecord (sampleNow - Hour)]))
     <= requestsOf "key-1"
          (last_week (GetUsageLimits (fmt := sampleFormat) sampleNow (sampleNow + Second)
                        [sampleRecord (sampleNow - Day); sampleRecord (sampleNow - Hour)])).
Proof.
  apply (week_covers_five_hours (fmt := sampleFormat) sampleNow (sampleNow + Second)
           [sampleRecord (sampleNow - Day); sampleRecord (sampleNow - Hour)] "key-1").
  unfold Hour, Minute, Second. lia.
Defined.

End QueryFacts.

Module TranslatorMoreFacts.
Import GoTime GoStrings GoTimeFacts Regexp ThinkingCache ThinkingCacheFacts.
Import JSON Translator TranslatorFacts TranslatorSession TranslatorShapes.
Import Samples MoreSamples.
Local Open Scope list_scope.

(** *** [deriveSessionID] *)

Section WithLibrary.
Context {lib : GoLibrary} {jt : JSONText}.



End WithLibrary.

(** *** [extractThinkingFromContent] *)

Lemma prefix_app (a b s : string) :
  String.prefix (a ++ b) s = true -> String.prefix a s = true.
Proof.
  revert s. induction a as [|ch a IH]; intros s Hp.
  - destruct s; reflexivity.
  - change (String.prefix (String ch (a ++ b)) s = true) in Hp.
    destruct s as [|ch' s]; [discriminate|]. simpl in *.
    destruct (Ascii.ascii_dec ch ch'); [apply IH, Hp | discriminate].
Qed.

Lemma lazyBetween_startsWith (p rest close : string) :
  startsWith p (lazyBetween (p ++ rest) close).
Proof.
  intros s Hm. unfold lazyBetween in Hm.
  destruct (String.prefix (p ++ rest) s) eqn:Hp; [|contradiction].
  exact (prefix_app p rest s Hp).
Qed.

Lemma thinkTagRegex_startsWith : startsWith "<think>" thinkTagRegex.
Proof. exact (lazyBetween_startsWith "<think>" "" "</think>"). Qed.

Lemma thinkIdRegex_startsWith : startsWith fence thinkIdRegex.
Proof.
  intros s Hm. unfold thinkIdRegex in Hm.
  destruct (String.prefix thinkIdOpen s) eqn:Hp; [|contradiction].
  exact (prefix_app fence "plaintext:thinkId:" s Hp).
Qed.

Lemma legacyThinkingRegex_startsWith : startsWith fence legacyThinkingRegex.
Proof.
  exact (lazyBetween_startsWith fence ("plaintext:Thinking" ++ ofBytes [10%nat]) fence).
Qed.

Lemma legacySignatureRegex_startsWith : startsWith fence legacySignatureRegex.
Proof. exact (lazyBetween_startsWith fence "plaintext:Signature:" fence). Qed.

Lemma no_match_without_prefix (p : string) (re : matcher) (text : string) :
  startsWith p re -> Contains text p = false ->
  FindStringSubmatch re text = None /\ ReplaceAllEmpty re text = text.
Proof.
  intros Hre. unfold ReplaceAllEmpty.
  induction text as [|ch text IH]; intros Hc.
  - change (Contains "" p) with (String.prefix p "" || false) in Hc.
    apply orb_false_iff in Hc as [Hp _]. split; [|reflexivity].
    simpl. destruct (re "") eqn:Hm; [|reflexivity].
    rewrite (Hre "") in Hp; [discriminate | congruence].
  - change (Contains (String ch text) p)
      with (String.prefix p (String ch text) || Contains text p) in Hc.
    apply orb_false_iff in Hc as [Hp Hc]. destruct (IH Hc) as [Hf Hr].
    assert (Hm : re (String ch text) = None).
    { destruct (re (String ch text)) eqn:Hm; [|reflexivity].
      rewrite (Hre (String ch text)) in Hp; [discriminate | congruence]. }
    split.
    + simpl. rewrite Hm. exact Hf.
    + simpl. rewrite Hm, Hr. reflexivity.
Qed.

Section WithOrder.
Context {ord : GoOrder}.

(** X25: a text without a code fence and without a think tag passes
    through: the content is the one text part with the trimmed text (no
    part when that is empty), whatever the session and the cache hold,
    and the cache is not touched. *)
Theorem plain_text_passes_through (modelName : string) (now : Time)
    (sessionID text : string) (c : thinkingCacheT) :
  Contains text fence = false -> Contains text "<think>" = false ->
  extractThinkingFromContent modelName now sessionID text c
  = (textPart (TrimSpace text), c).
Proof.
  intros Hfence Htag.
  destruct (no_match_without_prefix _ _ text thinkIdRegex_startsWith Hfence) as [Hid Rid].
  destruct (no_match_without_prefix _ _ text legacyThinkingRegex_startsWith Hfence)
    as [Hth Rth].
  destruct (no_match_without_prefix _ _ text legacySignatureRegex_startsWith Hfence)
    as [_ Rsg].
  destruct (no_match_without_prefix _ _ text thinkTagRegex_startsWith Htag) as [_ Rtag].
  unfold extractThinkingFromContent. rewrite Hid.
  unfold extractLegacy. rewrite Hth.
  unfold cleanRemainder. rewrite Rtag, Rid, Rth, Rsg. reflexivity.
Qed.

Lemma textPart_shape (t : string) :
  textPart t = [] \/ textPart t = [TextPart t] /\ t <> "".
Proof.
  unfold textPart. destruct (String.eqb_spec t ""); simpl; [left | right]; auto.
Qed.

Lemma extractLegacy_shape (text : string) : wellShaped (extractLegacy text).
Proof.
  unfold extractLegacy.
  destruct (FindStringSubmatch legacyThinkingRegex text);
    [destruct (FindStringSubmatch legacySignatureRegex text)|].
  - destruct (textPart_shape (legacyRemainder text)) as [-> | [-> Hne]]; simpl; auto.
  - destruct (textPart_shape (cleanRemainder text)) as [-> | [-> Hne]]; simpl; auto.
  - destruct (textPart_shape (cleanRemainder text)) as [-> | [-> Hne]]; simpl; auto.
Qed.


(** X27: the content has at most two parts: at most one thinking part,
    which comes first, and at most one text part, whose text is never
    empty. *)
Theorem content_is_well_shaped (modelName : string) (now : Time)
    (sessionID text : string) (c : thinkingCacheT) :
  wellShaped (extractThinkingFromContent modelName now sessionID text c).1.
Proof.
  unfold extractThinkingFromContent.
  destruct (FindStringSubmatch thinkIdRegex text) as [thinkingID|];
    [|apply extractLegacy_shape].
  destruct (GetCachedThinking now sessionID thinkingID c) as [[e|] c'];
    [|apply extractLegacy_shape].
  destruct (Cache.HasValidSignature modelName (Signature e));
    [|apply extractLegacy_shape].
  cbn [fst]. destruct (textPart_shape (restoredRemainder text)) as [-> | [-> Hne]];
    simpl; auto.
Qed.

Lemma GetCachedThinking_shrinks (now : Time) (sessionID thinkingID : string)
    (c : thinkingCacheT) (s k : string) :
  (is_Some ((GetCachedThinking now sessionID thinkingID c).2 !! s) <-> is_Some (c !! s))
  /\ (storedThinking s k (GetCachedThinking now sessionID thinkingID c).2
      = storedThinking s k c
      \/ storedThinking s k (GetCachedThinking now sessionID thinkingID c).2 = None
         /\ s = sessionID /\ k = thinkingID
         /\ exists e, storedThinking s k c = Some e /\ expired now e = true).
Proof.
  unfold GetCachedThinking, storedThinking.
  destruct ((sessionID =? "")%string || (thinkingID =? "")%string); [tauto|].
  destruct (c !! sessionID) as [sc|] eqn:Hc; [|tauto].
  destruct (sc !! thinkingID) as [e|] eqn:He; [|tauto].
  destruct (expired now e) eqn:Hexp; [|tauto]. cbn [snd].
  destruct (decide (s = sessionID)) as [->|Hs].
  - rewrite lookup_insert_eq, Hc. split; [split; eauto|]. simpl.
    destruct (decide (k = thinkingID)) as [->|Hk].
    + right. rewrite lookup_delete_eq. eauto 8.
    + left. apply lookup_delete_ne. congruence.
  - rewrite lookup_insert_ne by congruence. tauto.
Qed.

(** X28: extraction never adds to the thinking cache and never removes
    a session: every entry is as before, except that the entry named by
    the first marker is deleted from the session when it has expired. *)
Theorem extraction_never_adds_entries (modelName : string) (now : Time)
    (sessionID text : string) (c : thinkingCacheT) (s k : string) :
  (is_Some ((extractThinkingFromContent modelName now sessionID text c).2 !! s)
   <-> is_Some (c !! s))
  /\ (storedThinking s k (extractThinkingFromContent modelName now sessionID text c).2
      = storedThinking s k c
      \/ storedThinking s k (extractThinkingFromContent modelName now sessionID text c).2
         = None
         /\ s = sessionID
         /\ FindStringSubmatch thinkIdRegex text = Some k
         /\ exists e, storedThinking s k c = Some e /\ expired now e = true).
Proof.
  unfold extractThinkingFromContent.
  destruct (FindStringSubmatch thinkIdRegex text) as [thinkingID|]; [|tauto].
  pose proof (GetCachedThinking_shrinks now sessionID thinkingID c s k) as Hget.
  destruct (GetCachedThinking now sessionID thinkingID c) as [entry c'].
  cbn [snd] in Hget.
  destruct entry as [e|]; [destruct (Cache.HasValidSignature _ _)|]; cbn [snd].
  all: destruct Hget as [Hdom [Hsame | (Hnone & -> & -> & Hexp)]];
    (split; [exact Hdom|]); [left; exact Hsame | right; auto].
Qed.

End WithOrder.

(** *** The end of [ConvertOpenAIRequestToClaude] *)

Section Tools.
Context {jt : JSONText}.

Lemma lookupField_deleteField_other (key key' : string)
    (fields : list (string * json)) :
  key <> key' ->
  lookupField key' (deleteField key fields) = lookupField key' fields.
Proof.
  intros Hne. induction fields as [|[k v'] fields IH]; simpl; [reflexivity|].
  destruct (String.eqb_spec k key) as [->|Hk]; simpl.
  - destruct (String.eqb_spec key key'); [contradiction | reflexivity].
  - destruct (k =? key')%string; [reflexivity | exact IH].
Qed.

Lemma lookupField_deleteField_absent (key : string) (fields : list (string * json)) :
  lookupField key fields = None -> lookupField key (deleteField key fields) = None.
Proof.
  induction fields as [|[k v] fields IH]; simpl; [reflexivity|].
  destruct (k =? key)%string eqn:Hk; [discriminate|].
  intros Hnone. simpl. rewrite Hk. apply IH, Hnone.
Qed.

Lemma toolChoiceStage_other (root : json) (fields : list (string * json))
    (key : string) :
  key <> "tool_choice" ->
  Get (Some (toolChoiceStage root (JObject fields))) key = lookupField key fields.
Proof.
  intros Hkey. unfold toolChoiceStage.
  destruct (Get (Some root) "tool_choice") as [[| | |choice|elems|fs]|]; try reflexivity.
  - destruct (choice =? "auto")%string;
      [simpl; apply lookupField_setField_ne; congruence|].
    destruct (choice =? "required")%string;
      [simpl; apply lookupField_setField_ne; congruence|].
    reflexivity.
  - destruct (String_ _ =? "function")%string; [|reflexivity].
    simpl. apply lookupField_setField_ne. congruence.
Qed.

(** X29: from the tools block to the end, the translator changes no
    member of the output other than [tool_choice]: a document without a
    member [tools] still has none, whatever tools the request
    declares. *)
Theorem tail_writes_only_tool_choice (root : json) (fields : list (string * json))
    (key : string) :
  lookupField "tools" fields = None ->
  key <> "tool_choice" ->
  Get (Some (finishRequest root (JObject fields))) key = lookupField key fields.
Proof.
  intros Hnone Hkey. unfold finishRequest, toolsStage.
  destruct (Exists _ && IsArray _ && _); cbv zeta; cbn [negb fst Delete].
  - rewrite toolChoiceStage_other by exact Hkey.
    destruct (String.eqb_spec key "tools") as [->|Hne].
    + rewrite Hnone. apply lookupField_deleteField_absent, Hnone.
    + apply lookupField_deleteField_other. congruence.
  - apply toolChoiceStage_other, Hkey.
Qed.

End Tools.


Lemma plain_text_passes_through_witness :
  extractThinkingFromContent "claude-opus" (1000 + Hour) "session" plainText sampleCache
  = ([TextPart "The answer is 4."], sampleCache).
Proof.
  apply (plain_text_passes_through "claude-opus" (1000 + Hour) "session" plainText
           sampleCache).
  - reflexivity.
  - reflexivity.
Defined.

Lemma tail_writes_only_tool_choice_witness :
  Get (Some (finishRequest (jt := sampleText) weatherRequest (baseTemplate "user_1")))
      "max_tokens"
  = Some (JNumber "32000").
Proof.
  apply (tail_writes_only_tool_choice (jt := sampleText) weatherRequest
           [ ("model", JString "");
             ("max_tokens", JNumber "32000");
             ("messages", JArray []);
             ("metadata", JObject [("user_id", JString "user_1")]) ]
           "max_tokens").
  - reflexivity.
  - discriminate.
Defined.

End TranslatorMoreFacts.
